(** * dashi: a verification development over a shallow embedding

  The Go sources of the dashboard (metrics collector, stats normalizer,
  log stream parser, repository and alert engine) are embedded as Rocq
  functions.  Conventions:

  - Go [uint64]/[int64] values are [Z] with the wrap-around written out
    ([wrap64], [to_int64]).
  - Go [float64] is the kernel's binary64 ([PrimFloat.float]).
  - Go [string] and [[]byte] are [string] (a list of 8-bit characters).
  - [time.Time] is [Z], nanoseconds since the Unix epoch (UTC);
    [time.Duration] is a signed 64-bit count of nanoseconds.
  - the SQLite store is a record of tables; every statement either
    succeeds and returns the new store or fails and leaves it unchanged. *)

From Stdlib Require Import ZArith Lia Bool List Ascii String.
From Stdlib Require Import Floats.PrimFloat Floats.SpecFloat Floats.FloatOps Floats.FloatAxioms.
From Stdlib Require Import Numbers.Cyclic.Int63.Uint63.
From stdpp Require Import gmap strings list fin_maps.
Import ListNotations.

Local Open Scope string_scope.
Local Open Scope Z_scope.

(** ** Machine integers and floats *)

Definition wrap64 (z : Z) : Z := z mod 2 ^ 64.

Definition max_int64 : Z := 2 ^ 63 - 1.
Definition min_int64 : Z := - 2 ^ 63.

(** Reinterpretation of 64 bits as a signed integer: Go's [int64(x)]. *)
Definition to_int64 (z : Z) : Z :=
let m := z mod 2 ^ 64 in
if m <? 2 ^ 63 then m else m - 2 ^ 64.

(** [float64(x)] for [x : uint64].  Both halves convert exactly, the
  scaling by [2^32] is exact, so the single rounding of the sum is the
  rounding of [x] itself (to nearest, ties to even). *)
Definition float_of_uint64 (z : Z) : float :=
let hi := (z mod 2 ^ 64) / 2 ^ 32 in
let lo := (z mod 2 ^ 64) mod 2 ^ 32 in
(PrimFloat.of_uint63 (Uint63.of_Z hi) * 4294967296
 + PrimFloat.of_uint63 (Uint63.of_Z lo))%float.

(** [float64(x)] for [x : int64] (and for [int], which is 64 bits wide). *)
Definition float_of_int64 (z : Z) : float :=
if z <? 0 then (- float_of_uint64 (- z))%float else float_of_uint64 z.

Definition float_eqb (a b : float) : bool := PrimFloat.eqb a b.
Definition float_ltb (a b : float) : bool := PrimFloat.ltb a b.
Definition float_leb (a b : float) : bool := PrimFloat.leb a b.

(** The zero [time.Time]: January 1, year 1, 00:00:00 UTC. *)
Definition zero_time : Z := -62135596800 * 10 ^ 9.

(** ** models *)

Module models.

Record HostMetric := mkHostMetric {
  hm_TS : Z;
  hm_CPUPct : float;
  hm_MemUsedBytes : Z;
  hm_MemTotalBytes : Z;
  hm_NetRXBytes : Z;
  hm_NetTXBytes : Z;
  hm_DiskUsedBytes : Z;
  hm_DiskTotalBytes : Z;
  hm_Load1 : float;
  hm_Load5 : float;
  hm_Load15 : float;
  hm_UptimeSec : Z
}.

Record ContainerMetric := mkContainerMetric {
  cm_TS : Z;
  cm_ContainerID : string;
  cm_CPUPct : float;
  cm_MemUsedBytes : Z;
  cm_MemLimitBytes : Z;
  cm_NetRXBytes : Z;
  cm_NetTXBytes : Z;
  cm_BlkReadBytes : Z;
  cm_BlkWriteBytes : Z
}.

Record LogEntry := mkLogEntry {
  le_TS : Z;
  le_ServiceID : string;
  le_ContainerID : string;
  le_Level : string;
  le_Stream : string;
  le_Message : string
}.

Record Service := mkService {
  svc_ID : string;
  svc_Name : string;
  svc_Image : string;
  svc_LabelsJSON : string;
  svc_Status : string
}.

Record Container := mkContainer {
  c_ID : string;
  c_ServiceID : string;
  c_Name : string;
  c_Status : string;
  c_StartedAt : option Z;
  c_LastSeenAt : Z;
  c_RestartCount : Z
}.

Record AlertRule := mkAlertRule {
  r_ID : Z;
  r_Name : string;
  r_TargetType : string;
  r_TargetID : option string;
  r_MetricKey : string;
  r_Operator : string;
  r_Threshold : float;
  r_ForSeconds : Z;
  r_CooldownSeconds : Z;
  r_Enabled : bool
}.

End models.

(** ** docker: the stats snapshot and its normalization *)

Module docker.
Import models.

Record CPUUsageT := mkCPUUsage {
  TotalUsage : Z;
  PercpuUsage : list Z;
  UsageInKernelmode : Z;
  UsageInUsermode : Z
}.

Record CPUStatsT := mkCPUStats {
  CPUUsage : CPUUsageT;
  SystemCPUUsage : Z;
  OnlineCPUs : Z
}.

Record PreCPUStatsT := mkPreCPUStats {
  pre_TotalUsage : Z;
  pre_SystemCPUUsage : Z
}.

Record MemoryStatsT := mkMemoryStats { Usage : Z; Limit : Z }.

Record NetworkT := mkNetwork { RxBytes : Z; TxBytes : Z }.

Record BlkioEntry := mkBlkioEntry { Op : string; Value : Z }.

Record Stats := mkStats {
  Read : string;
  CPUStats : CPUStatsT;
  PreCPUStats : PreCPUStatsT;
  MemoryStats : MemoryStatsT;
  Networks : gmap string NetworkT;
  IoServiceBytesRecursive : list BlkioEntry
}.

(** The fields are [uint64]: a well-formed snapshot keeps them in range. *)
Definition uint64_ok (z : Z) : Prop := 0 <= z < 2 ^ 64.

(** [cpus]: online_cpus, else the per-cpu list length, else 1. *)
Definition cpus_of (s : Stats) : float :=
  let cpus := float_of_uint64 (OnlineCPUs (CPUStats s)) in
  if float_eqb cpus 0 then
    let cpus := float_of_int64 (Z.of_nat (length (PercpuUsage (CPUUsage (CPUStats s))))) in
    if float_eqb cpus 0 then 1%float else cpus
  else cpus.

(** The two deltas: the subtraction is done on [uint64] and wraps, the
    conversion to [float64] comes after it. *)
Definition sysDelta_of (s : Stats) : float :=
  float_of_uint64 (wrap64 (SystemCPUUsage (CPUStats s) - pre_SystemCPUUsage (PreCPUStats s))).

Definition cpuDelta_of (s : Stats) : float :=
  float_of_uint64 (wrap64 (TotalUsage (CPUUsage (CPUStats s)) - pre_TotalUsage (PreCPUStats s))).

Definition cpuPct_of (s : Stats) : float :=
  let sysDelta := sysDelta_of s in
  let cpuDelta := cpuDelta_of s in
  let cpus := cpus_of s in
  if float_ltb 0 sysDelta && float_leb 0 cpuDelta
  then (cpuDelta / sysDelta * cpus * 100)%float
  else 0%float.

(** [for _, n := range s.Networks]: wrapping sums over the map's values. *)
Definition sum_networks (nets : gmap string NetworkT) : Z * Z :=
  map_fold (fun _ n acc => (wrap64 (fst acc + RxBytes n), wrap64 (snd acc + TxBytes n)))
           (0, 0) nets.

Fixpoint sum_blkio (l : list BlkioEntry) (acc : Z * Z) : Z * Z :=
  match l with
  | [] => acc
  | io :: l' =>
      if String.eqb (Op io) "Read" then sum_blkio l' (wrap64 (fst acc + Value io), snd acc)
      else if String.eqb (Op io) "Write" then sum_blkio l' (fst acc, wrap64 (snd acc + Value io))
      else sum_blkio l' acc
  end.

Definition NormalizeStats (id : string) (s : Stats) : ContainerMetric :=
  let cpuPct := cpuPct_of s in
  let '(rx, tx) := sum_networks (Networks s) in
  let '(br, bw) := sum_blkio (IoServiceBytesRecursive s) (0, 0) in
  {| cm_TS := zero_time;
     cm_ContainerID := id;
     cm_CPUPct := cpuPct;
     cm_MemUsedBytes := to_int64 (Usage (MemoryStats s));
     cm_MemLimitBytes := to_int64 (Limit (MemoryStats s));
     cm_NetRXBytes := to_int64 rx;
     cm_NetTXBytes := to_int64 tx;
     cm_BlkReadBytes := to_int64 br;
     cm_BlkWriteBytes := to_int64 bw |}.

(** The snapshot of [TestNormalizeStats]. *)
Definition test_stats : Stats :=
  {| Read := "";
     CPUStats := {| CPUUsage := {| TotalUsage := 150; PercpuUsage := [];
                                   UsageInKernelmode := 0; UsageInUsermode := 0 |};
                    SystemCPUUsage := 200; OnlineCPUs := 2 |};
     PreCPUStats := {| pre_TotalUsage := 100; pre_SystemCPUUsage := 100 |};
     MemoryStats := {| Usage := 123; Limit := 456 |};
     Networks := {[ "eth0" := {| RxBytes := 10; TxBytes := 20 |} ]};
     IoServiceBytesRecursive := [ {| Op := "Read"; Value := 7 |}; {| Op := "Write"; Value := 8 |} ] |}.

(** A snapshot whose system counter went backwards (a counter reset). *)
Definition backwards_stats : Stats :=
  {| Read := "";
     CPUStats := {| CPUUsage := {| TotalUsage := 150; PercpuUsage := [];
                                   UsageInKernelmode := 0; UsageInUsermode := 0 |};
                    SystemCPUUsage := 100; OnlineCPUs := 1 |};
     PreCPUStats := {| pre_TotalUsage := 100; pre_SystemCPUUsage := 200 |};
     MemoryStats := {| Usage := 0; Limit := 0 |};
     Networks := ∅;
     IoServiceBytesRecursive := [] |}.

End docker.


(** ** collector: the host sampler *)

Module collector.
Import models.

Record cpuSample := mkCpuSample { total : Z; idle : Z }.

Record HostCollector := mkHostCollector { prevCPU : option cpuSample }.

Definition NewHostCollector : HostCollector := {| prevCPU := None |}.

(** A Go [(value, error)] pair. *)
Inductive result (A : Type) : Type :=
| Ok (a : A)
| Err (e : string).
Arguments Ok {A} a.
Arguments Err {A} e.

(** What the six readers of the operating system's counters return on one
    pass: [readCPU] (total, idle), [readMem] (total, available),
    [readNetDev] (rx, tx), [readDiskUsage] (total, used), [readLoadAvg] and
    [readUptimeSec].  The counters are [uint64], the uptime is [int64]. *)
Record Readings := mkReadings {
  readCPU : result (Z * Z);
  readMem : result (Z * Z);
  readNetDev : result (Z * Z);
  readDiskUsage : result (Z * Z);
  readLoadAvg : result (float * float * float);
  readUptimeSec : result Z
}.

(** [models.HostMetric{}] *)
Definition zeroHostMetric : HostMetric :=
  {| hm_TS := zero_time; hm_CPUPct := 0%float;
     hm_MemUsedBytes := 0; hm_MemTotalBytes := 0;
     hm_NetRXBytes := 0; hm_NetTXBytes := 0;
     hm_DiskUsedBytes := 0; hm_DiskTotalBytes := 0;
     hm_Load1 := 0%float; hm_Load5 := 0%float; hm_Load15 := 0%float;
     hm_UptimeSec := 0 |}.

Definition set_CPUPct (m : HostMetric) (v : float) : HostMetric :=
  {| hm_TS := hm_TS m; hm_CPUPct := v;
     hm_MemUsedBytes := hm_MemUsedBytes m; hm_MemTotalBytes := hm_MemTotalBytes m;
     hm_NetRXBytes := hm_NetRXBytes m; hm_NetTXBytes := hm_NetTXBytes m;
     hm_DiskUsedBytes := hm_DiskUsedBytes m; hm_DiskTotalBytes := hm_DiskTotalBytes m;
     hm_Load1 := hm_Load1 m; hm_Load5 := hm_Load5 m; hm_Load15 := hm_Load15 m;
     hm_UptimeSec := hm_UptimeSec m |}.

Definition set_Mem (m : HostMetric) (used tot : Z) : HostMetric :=
  {| hm_TS := hm_TS m; hm_CPUPct := hm_CPUPct m;
     hm_MemUsedBytes := used; hm_MemTotalBytes := tot;
     hm_NetRXBytes := hm_NetRXBytes m; hm_NetTXBytes := hm_NetTXBytes m;
     hm_DiskUsedBytes := hm_DiskUsedBytes m; hm_DiskTotalBytes := hm_DiskTotalBytes m;
     hm_Load1 := hm_Load1 m; hm_Load5 := hm_Load5 m; hm_Load15 := hm_Load15 m;
     hm_UptimeSec := hm_UptimeSec m |}.

Definition set_Net (m : HostMetric) (rx tx : Z) : HostMetric :=
  {| hm_TS := hm_TS m; hm_CPUPct := hm_CPUPct m;
     hm_MemUsedBytes := hm_MemUsedBytes m; hm_MemTotalBytes := hm_MemTotalBytes m;
     hm_NetRXBytes := rx; hm_NetTXBytes := tx;
     hm_DiskUsedBytes := hm_DiskUsedBytes m; hm_DiskTotalBytes := hm_DiskTotalBytes m;
     hm_Load1 := hm_Load1 m; hm_Load5 := hm_Load5 m; hm_Load15 := hm_Load15 m;
     hm_UptimeSec := hm_UptimeSec m |}.

Definition set_Disk (m : HostMetric) (used tot : Z) : HostMetric :=
  {| hm_TS := hm_TS m; hm_CPUPct := hm_CPUPct m;
     hm_MemUsedBytes := hm_MemUsedBytes m; hm_MemTotalBytes := hm_MemTotalBytes m;
     hm_NetRXBytes := hm_NetRXBytes m; hm_NetTXBytes := hm_NetTXBytes m;
     hm_DiskUsedBytes := used; hm_DiskTotalBytes := tot;
     hm_Load1 := hm_Load1 m; hm_Load5 := hm_Load5 m; hm_Load15 := hm_Load15 m;
     hm_UptimeSec := hm_UptimeSec m |}.

Definition set_Load (m : HostMetric) (l1 l5 l15 : float) : HostMetric :=
  {| hm_TS := hm_TS m; hm_CPUPct := hm_CPUPct m;
     hm_MemUsedBytes := hm_MemUsedBytes m; hm_MemTotalBytes := hm_MemTotalBytes m;
     hm_NetRXBytes := hm_NetRXBytes m; hm_NetTXBytes := hm_NetTXBytes m;
     hm_DiskUsedBytes := hm_DiskUsedBytes m; hm_DiskTotalBytes := hm_DiskTotalBytes m;
     hm_Load1 := l1; hm_Load5 := l5; hm_Load15 := l15;
     hm_UptimeSec := hm_UptimeSec m |}.

Definition set_Uptime (m : HostMetric) (up : Z) : HostMetric :=
  {| hm_TS := hm_TS m; hm_CPUPct := hm_CPUPct m;
     hm_MemUsedBytes := hm_MemUsedBytes m; hm_MemTotalBytes := hm_MemTotalBytes m;
     hm_NetRXBytes := hm_NetRXBytes m; hm_NetTXBytes := hm_NetTXBytes m;
     hm_DiskUsedBytes := hm_DiskUsedBytes m; hm_DiskTotalBytes := hm_DiskTotalBytes m;
     hm_Load1 := hm_Load1 m; hm_Load5 := hm_Load5 m; hm_Load15 := hm_Load15 m;
     hm_UptimeSec := up |}.

(** The CPU percentage by the delta method, on [uint64] deltas. *)
Definition cpu_step (prev : option cpuSample) (tot idl : Z) (m : HostMetric) : HostMetric :=
  match prev with
  | Some p =>
      let deltaTotal := wrap64 (tot - total p) in
      let deltaIdle := wrap64 (idl - idle p) in
      if 0 <? deltaTotal
      then set_CPUPct m (100 * (1 - float_of_uint64 deltaIdle / float_of_uint64 deltaTotal))%float
      else m
  | None => m
  end.

Definition mem_step (r : result (Z * Z)) (m : HostMetric) : HostMetric :=
  match r with
  | Ok (memTotal, memAvail) =>
      if 0 <? memTotal
      then set_Mem m (to_int64 (wrap64 (memTotal - memAvail))) (to_int64 memTotal)
      else m
  | Err _ => m
  end.

Definition net_step (r : result (Z * Z)) (m : HostMetric) : HostMetric :=
  match r with
  | Ok (rx, tx) => set_Net m (to_int64 rx) (to_int64 tx)
  | Err _ => m
  end.

Definition disk_step (r : result (Z * Z)) (m : HostMetric) : HostMetric :=
  match r with
  | Ok (totalDisk, usedDisk) => set_Disk m (to_int64 usedDisk) (to_int64 totalDisk)
  | Err _ => m
  end.

Definition load_step (r : result (float * float * float)) (m : HostMetric) : HostMetric :=
  match r with
  | Ok (l1, l5, l15) => set_Load m l1 l5 l15
  | Err _ => m
  end.

Definition uptime_step (r : result Z) (m : HostMetric) : HostMetric :=
  match r with
  | Ok up => set_Uptime m up
  | Err _ => m
  end.

(** [HostCollector.Collect]: the returned metric, the returned error and
    the collector after the call.  [now] is [time.Now().UTC()]. *)
Definition Collect (h : HostCollector) (now : Z) (rd : Readings)
  : HostMetric * option string * HostCollector :=
  match readCPU rd with
  | Err e => (zeroHostMetric, Some e, h)
  | Ok (tot, idl) =>
      let metric :=
        {| hm_TS := now; hm_CPUPct := 0%float;
           hm_MemUsedBytes := 0; hm_MemTotalBytes := 0;
           hm_NetRXBytes := 0; hm_NetTXBytes := 0;
           hm_DiskUsedBytes := 0; hm_DiskTotalBytes := 0;
           hm_Load1 := 0%float; hm_Load5 := 0%float; hm_Load15 := 0%float;
           hm_UptimeSec := 0 |} in
      let metric := cpu_step (prevCPU h) tot idl metric in
      let h' := {| prevCPU := Some {| total := tot; idle := idl |} |} in
      let metric := mem_step (readMem rd) metric in
      let metric := net_step (readNetDev rd) metric in
      let metric := disk_step (readDiskUsage rd) metric in
      let metric := load_step (readLoadAvg rd) metric in
      let metric := uptime_step (readUptimeSec rd) metric in
      (metric, None, h')
  end.

End collector.

(** ** Go's [unicode/utf8], [strings] and [bytes] functions the log parser calls

    These belong to Go's standard library; they are written here after the
    library's documented behaviour, on byte strings. *)

Module gostr.

Definition byte (c : ascii) : Z := Z.of_N (Ascii.N_of_ascii c).

Definition chr (z : Z) : ascii := Ascii.ascii_of_N (Z.to_N z).

Definition len (s : string) : Z := Z.of_nat (String.length s).

(** [s[i:]] *)
Fixpoint drop (n : nat) (s : string) : string :=
  match n, s with
  | O, _ => s
  | S n', String _ s' => drop n' s'
  | S _, EmptyString => EmptyString
  end.

(** [s[:i]] *)
Fixpoint take (n : nat) (s : string) : string :=
  match n, s with
  | O, _ => EmptyString
  | S n', String c s' => String c (take n' s')
  | S _, EmptyString => EmptyString
  end.

Definition RuneError : Z := 65533.
Definition RuneSelf : Z := 128.

Definition between (lo b hi : Z) : bool := (lo <=? b) && (b <=? hi).

(** A continuation byte [10xxxxxx]. *)
Definition is_cont (b : Z) : bool := between 128 b 191.

(** [utf8.DecodeRuneInString]: the rune at the front of [s] and its width;
    [(RuneError, 0)] on the empty string, [(RuneError, 1)] on a byte that
    starts no well-formed encoding (overlong forms, surrogates and values
    above U+10FFFF included). *)
Definition DecodeRune (s : string) : Z * nat :=
  match s with
  | EmptyString => (RuneError, 0%nat)
  | String c0 s1 =>
      let b0 := byte c0 in
      if b0 <? RuneSelf then (b0, 1%nat)
      else if between 194 b0 223 then
        match s1 with
        | String c1 _ =>
            let b1 := byte c1 in
            if is_cont b1
            then (Z.lor (Z.shiftl (Z.land b0 31) 6) (Z.land b1 63), 2%nat)
            else (RuneError, 1%nat)
        | _ => (RuneError, 1%nat)
        end
      else if between 224 b0 239 then
        let lo := if b0 =? 224 then 160 else 128 in
        let hi := if b0 =? 237 then 159 else 191 in
        match s1 with
        | String c1 (String c2 _) =>
            let b1 := byte c1 in
            let b2 := byte c2 in
            if between lo b1 hi && is_cont b2
            then (Z.lor (Z.shiftl (Z.land b0 15) 12)
                        (Z.lor (Z.shiftl (Z.land b1 63) 6) (Z.land b2 63)), 3%nat)
            else (RuneError, 1%nat)
        | _ => (RuneError, 1%nat)
        end
      else if between 240 b0 244 then
        let lo := if b0 =? 240 then 144 else 128 in
        let hi := if b0 =? 244 then 143 else 191 in
        match s1 with
        | String c1 (String c2 (String c3 _)) =>
            let b1 := byte c1 in
            let b2 := byte c2 in
            let b3 := byte c3 in
            if between lo b1 hi && is_cont b2 && is_cont b3
            then (Z.lor (Z.shiftl (Z.land b0 7) 18)
                        (Z.lor (Z.shiftl (Z.land b1 63) 12)
                               (Z.lor (Z.shiftl (Z.land b2 63) 6) (Z.land b3 63))), 4%nat)
            else (RuneError, 1%nat)
        | _ => (RuneError, 1%nat)
        end
      else (RuneError, 1%nat)
  end.

(** [utf8.RuneStart] *)
Definition RuneStart (b : Z) : bool := negb (Z.land b 192 =? 128).

(** The loop of [utf8.DecodeLastRuneInString] that walks back from
    [start] to the limit [lim] looking for the start of a rune; the result
    is the final value of [start] ([-1] when it ran below zero). *)
Fixpoint back_to_start (steps : nat) (s : string) (start lim : Z) : Z :=
  match steps with
  | O => start
  | S k =>
      if start <? lim then start
      else
        match String.get (Z.to_nat start) s with
        | Some c => if RuneStart (byte c) then start else back_to_start k s (start - 1) lim
        | None => start
        end
  end.

(** [utf8.DecodeLastRuneInString] *)
Definition DecodeLastRune (s : string) : Z * nat :=
  let e := len s in
  if e =? 0 then (RuneError, 0%nat)
  else
    match String.get (Z.to_nat (e - 1)) s with
    | None => (RuneError, 0%nat)
    | Some c =>
        let r := byte c in
        if r <? RuneSelf then (r, 1%nat)
        else
          let lim := Z.max 0 (e - 4) in
          let start := back_to_start 4 s (e - 2) lim in
          let start := if start <? 0 then 0 else start in
          let '(r, size) := DecodeRune (drop (Z.to_nat start) s) in
          if start + Z.of_nat size =? e then (r, size) else (RuneError, 1%nat)
    end.

(** [utf8.ValidString] *)
Fixpoint Valid_go (fuel : nat) (s : string) : bool :=
  match fuel with
  | O => true
  | S k =>
      match s with
      | EmptyString => true
      | String c rest =>
          if byte c <? RuneSelf then Valid_go k rest
          else
            let '(_, wid) := DecodeRune s in
            if (wid =? 1)%nat then false else Valid_go k (drop wid s)
      end
  end.

Definition Valid (s : string) : bool := Valid_go (String.length s) s.

(** [unicode.IsSpace] *)
Definition IsSpace (r : Z) : bool :=
  between 9 r 13 || (r =? 32) || (r =? 133) || (r =? 160) || (r =? 5760)
  || between 8192 r 8202 || (r =? 8232) || (r =? 8233) || (r =? 8239)
  || (r =? 8287) || (r =? 12288).

(** [strings.TrimLeftFunc(s, unicode.IsSpace)] *)
Fixpoint TrimLeftSpace_go (fuel : nat) (s : string) : string :=
  match fuel with
  | O => s
  | S k =>
      match s with
      | EmptyString => EmptyString
      | _ =>
          let '(r, wid) := DecodeRune s in
          if IsSpace r then TrimLeftSpace_go k (drop wid s) else s
      end
  end.

Definition TrimLeftSpace (s : string) : string := TrimLeftSpace_go (String.length s) s.

(** [strings.TrimRightFunc(s, unicode.IsSpace)]: the runes are decoded
    from the end of the string. *)
Fixpoint TrimRightSpace_go (fuel : nat) (s : string) : string :=
  match fuel with
  | O => s
  | S k =>
      match s with
      | EmptyString => EmptyString
      | _ =>
          let '(r, wid) := DecodeLastRune s in
          if IsSpace r then TrimRightSpace_go k (take (String.length s - wid) s) else s
      end
  end.

Definition TrimRightSpace (s : string) : string := TrimRightSpace_go (String.length s) s.

(** [strings.TrimSpace] *)
Definition TrimSpace (s : string) : string := TrimRightSpace (TrimLeftSpace s).

(** [strings.ReplaceAll(s, "\x00", "")] *)
Fixpoint StripNUL (s : string) : string :=
  match s with
  | EmptyString => EmptyString
  | String c rest => if byte c =? 0 then StripNUL rest else String c (StripNUL rest)
  end.

(** [bytes.ToValidUTF8(s, replacement)]: every run of bytes that belong to
    no well-formed encoding is replaced by one copy of [replacement]. *)
Fixpoint ToValidUTF8_go (fuel : nat) (s : string) (invalid : bool) (replacement : string) : string :=
  match fuel with
  | O => EmptyString
  | S k =>
      match s with
      | EmptyString => EmptyString
      | String c rest =>
          if byte c <? RuneSelf then String c (ToValidUTF8_go k rest false replacement)
          else
            let '(_, wid) := DecodeRune s in
            if (wid =? 1)%nat then
              if invalid then ToValidUTF8_go k rest true replacement
              else replacement ++ ToValidUTF8_go k rest true replacement
            else take wid s ++ ToValidUTF8_go k (drop wid s) false replacement
      end
  end.

Definition ToValidUTF8 (s replacement : string) : string :=
  ToValidUTF8_go (String.length s) s false replacement.

(** [strings.HasPrefix] *)
Fixpoint HasPrefix (s p : string) : bool :=
  match p, s with
  | EmptyString, _ => true
  | String a p', String b s' => Ascii.eqb a b && HasPrefix s' p'
  | String _ _, EmptyString => false
  end.

(** [strings.Contains] *)
Fixpoint Contains (s sub : string) : bool :=
  HasPrefix s sub ||
  match s with
  | EmptyString => false
  | String _ s' => Contains s' sub
  end.

(** [strings.SplitN(s, " ", 2)]: [None] when [s] has no space (one piece),
    else the text before the first space and the text after it. *)
Fixpoint SplitSpace2 (s : string) : option (string * string) :=
  match s with
  | EmptyString => None
  | String c rest =>
      if byte c =? 32 then Some (EmptyString, rest)
      else match SplitSpace2 rest with
           | Some (a, b) => Some (String c a, b)
           | None => None
           end
  end.

(** [strings.ToUpper], as far as byte strings of ASCII letters can tell:
    ASCII letters are upper-cased; U+0131 and U+017F, the two runes outside
    ASCII whose upper case is an ASCII letter, become [I] and [S]; a byte
    of no well-formed encoding becomes U+FFFD; every other rune keeps its
    own bytes (its upper case has no ASCII byte either). *)
Fixpoint ToUpper_go (fuel : nat) (s : string) : string :=
  match fuel with
  | O => EmptyString
  | S k =>
      match s with
      | EmptyString => EmptyString
      | String c rest =>
          let b := byte c in
          if b <? RuneSelf then
            String (if between 97 b 122 then chr (b - 32) else c) (ToUpper_go k rest)
          else
            let '(r, wid) := DecodeRune s in
            if (wid =? 1)%nat then
              String (chr 239) (String (chr 191) (String (chr 189) (ToUpper_go k rest)))
            else if r =? 305 then String (chr 73) (ToUpper_go k (drop wid s))
            else if r =? 383 then String (chr 83) (ToUpper_go k (drop wid s))
            else take wid s ++ ToUpper_go k (drop wid s)
      end
  end.

Definition ToUpper (s : string) : string := ToUpper_go (String.length s) s.

(** [strings.EqualFold(s, "running")].  The letters of "running" fold
    only with their ASCII counterparts, so the comparison is the ASCII
    case-insensitive one. *)
Definition lower_ascii (c : ascii) : ascii :=
  let b := byte c in if between 65 b 90 then chr (b + 32) else c.

Fixpoint lower (s : string) : string :=
  match s with
  | EmptyString => EmptyString
  | String c rest => String (lower_ascii c) (lower rest)
  end.

Definition EqualFold_running (s : string) : bool := String.eqb (lower s) "running".

End gostr.

(** ** Go's [time] package, as far as the sources use it *)

Module gotime.
Import gostr.

Definition Second : Z := 10 ^ 9.

(** [time.Duration(n) * time.Second] for an [int] [n]: a signed 64-bit
    product, which wraps. *)
Definition Seconds (n : Z) : Z := to_int64 (n * Second).

(** [t.Sub(u)]: the difference, saturated to the range of a Duration. *)
Definition Sub (t u : Z) : Z :=
  let d := t - u in
  if max_int64 <? d then max_int64
  else if d <? min_int64 then min_int64
  else d.

Definition isDigit (c : ascii) : bool := between 48 (byte c) 57.

(** The decimal value of a string of digits; [None] on any other byte. *)
Fixpoint digits_go (s : string) (acc : Z) : option Z :=
  match s with
  | EmptyString => Some acc
  | String c rest =>
      if isDigit c then digits_go rest (acc * 10 + (byte c - 48)) else None
  end.

Definition isLeap (year : Z) : bool :=
  (year mod 4 =? 0) && (negb (year mod 100 =? 0) || (year mod 400 =? 0)).

Definition daysIn (month year : Z) : Z :=
  if month =? 2 then (if isLeap year then 29 else 28)
  else if (month =? 4) || (month =? 6) || (month =? 9) || (month =? 11) then 30
  else 31.

(** Days from 1970-01-01 to the given date of the proleptic Gregorian
    calendar. *)
Definition days_from_civil (y m d : Z) : Z :=
  let y' := if m <=? 2 then y - 1 else y in
  let era := y' / 400 in
  let yoe := y' - era * 400 in
  let mp := if 2 <? m then m - 3 else m + 9 in
  let doy := (153 * mp + 2) / 5 + d - 1 in
  let doe := yoe * 365 + yoe / 4 - yoe / 100 + doy in
  era * 146097 + doe - 719468.

(** [time.Date(year, month, day, hour, min, sec, nsec, time.UTC)] as
    nanoseconds since the Unix epoch. *)
Definition Date (y mo d h mi s ns : Z) : Z :=
  (days_from_civil y mo d * 86400 + h * 3600 + mi * 60 + s) * Second + ns.

(** The leading run of digits of [s] and what follows it. *)
Fixpoint span_digits (s : string) : string * string :=
  match s with
  | EmptyString => (EmptyString, EmptyString)
  | String c rest =>
      if isDigit c then let '(a, b) := span_digits rest in (String c a, b)
      else (EmptyString, s)
  end.

(** The fraction's digits as nanoseconds: the first nine digits count,
    a shorter fraction is padded with zeros. *)
Fixpoint nanos_go (width : nat) (s : string) (acc : Z) : Z :=
  match width with
  | O => acc
  | S w =>
      match s with
      | EmptyString => nanos_go w EmptyString (acc * 10)
      | String c rest => nanos_go w rest (acc * 10 + (byte c - 48))
      end
  end.

Definition sep_at (n : nat) (c : Z) (s : string) : bool :=
  match String.get n s with
  | Some x => byte x =? c
  | None => false
  end.

(** [getnum]: a number of one or two digits at the head of [s] and the
    rest; with [fixed], of exactly two digits. *)
Definition getnum (s : string) (fixed : bool) : option (Z * string) :=
  match s with
  | String a rest =>
      if isDigit a then
        match rest with
        | String b rest' =>
            if isDigit b then Some ((byte a - 48) * 10 + (byte b - 48), rest')
            else if fixed then None else Some (byte a - 48, rest)
        | EmptyString => if fixed then None else Some (byte a - 48, rest)
        end
      else None
  | EmptyString => None
  end.

(** [skip] for a literal byte of the layout. *)
Definition skip (value : string) (prefix : Z) : option string :=
  match value with
  | String c rest => if byte c =? prefix then Some rest else None
  | EmptyString => None
  end.

Definition commaOrPeriod (c : ascii) : bool := (byte c =? 46) || (byte c =? 44).

(** The layout's [.999999999]: a period or a comma followed by a digit
    starts a fraction that takes every following digit; any other text
    means the fraction is omitted. *)
Definition parseFraction (value : string) : Z * string :=
  match value with
  | String dot (String d1 _ as rest) =>
      if commaOrPeriod dot && isDigit d1
      then let '(ds, r) := span_digits rest in (nanos_go 9 ds 0, r)
      else (0, value)
  | _ => (0, value)
  end.

(** The layout's [Z07:00]: [Z], or a sign, two digits of hours, a colon
    and two digits of minutes (hours up to 24 and minutes up to 60 are
    let through); the result is the offset in seconds east of UTC and the
    rest of the text. *)
Definition parseZone (value : string) : option (Z * string) :=
  match value with
  | String z rest =>
      if byte z =? 90 then Some (0, rest)
      else if (String.length value <? 6)%nat then None
      else if negb (sep_at 3 58 value) then None
      else
        match getnum (take 2 (drop 1 value)) true with
        | Some (hr, _) =>
            match getnum (take 2 (drop 4 value)) true with
            | Some (mm, _) =>
                if (24 <? hr) || (60 <? mm) then None
                else if byte z =? 43 then Some ((hr * 60 + mm) * 60, drop 6 value)
                else if byte z =? 45 then Some (- ((hr * 60 + mm) * 60), drop 6 value)
                else None
            | None => None
            end
        | None => None
        end
  | EmptyString => None
  end.

(** The time of day and the zone, after the [T]: an hour of one or two
    digits, two digits of minutes and of seconds, the fraction, the zone,
    and nothing after it.  The result is (hour, minute, second,
    nanosecond, offset). *)
Definition parseClock (value : string) : option (Z * Z * Z * Z * Z) :=
  match getnum value false with
  | Some (hour, value) =>
      if 24 <=? hour then None
      else
        match skip value 58 with
        | Some value =>
            match getnum value true with
            | Some (mi, value) =>
                if 60 <=? mi then None
                else
                  match skip value 58 with
                  | Some value =>
                      match getnum value true with
                      | Some (sec, value) =>
                          if 60 <=? sec then None
                          else
                            let '(nsec, value) := parseFraction value in
                            match parseZone value with
                            | Some (off, EmptyString) => Some (hour, mi, sec, nsec, off)
                            | _ => None
                            end
                      | None => None
                      end
                  | None => None
                  end
            | None => None
            end
        | None => None
        end
  | None => None
  end.

(** The date, up to the [T]: four digits of year, two of month (1 to 12),
    two of day; the day is checked against the month once the whole text
    is read.  The result is (year, month, day) and the rest. *)
Definition parseDate (value : string) : option (Z * Z * Z * string) :=
  if (String.length value <? 4)%nat then None
  else
    match digits_go (take 4 value) 0 with
    | Some year =>
        match skip (drop 4 value) 45 with
        | Some value =>
            match getnum value true with
            | Some (month, value) =>
                if (month <=? 0) || (12 <? month) then None
                else
                  match skip value 45 with
                  | Some value =>
                      match getnum value true with
                      | Some (day, value) => Some (year, month, day, value)
                      | None => None
                      end
                  | None => None
                  end
            | None => None
            end
        | None => None
        end
    | None => None
    end.

(** [time.Parse(time.RFC3339Nano, s)] followed by [.UTC()]: the layout
    [2006-01-02T15:04:05.999999999Z07:00] read by the library's layout
    parser.  [None] stands for a parse error. *)
Definition ParseRFC3339 (s : string) : option Z :=
  match parseDate s with
  | Some (year, month, day, value) =>
      match skip value 84 with
      | Some value =>
          match parseClock value with
          | Some (hour, mi, sec, nsec, off) =>
              if (day <? 1) || (daysIn month year <? day) then None
              else Some (Date year month day hour mi sec nsec - off * Second)
          | None => None
          end
      | None => None
      end
  | None => None
  end.

End gotime.

(** ** logs: the log stream parser *)

Module logs.
Import models gostr.

Definition inferLevel (msg : string) : string :=
  let u := ToUpper msg in
  if Contains u "ERROR" || Contains u "FATAL" || Contains u "PANIC" then "ERROR"
  else if Contains u "WARN" then "WARN"
  else if Contains u "DEBUG" then "DEBUG"
  else "INFO".

Definition sanitizeMessage (msg : string) : string :=
  let msg := TrimSpace msg in
  let msg := StripNUL msg in
  let msg := TrimSpace (ToValidUTF8 msg "?") in
  if 4000 <? len msg then take 4000 msg else msg.

(** [emitEntry]: the entry sent on the channel.  [now] is the value of
    [time.Now().UTC()] at the call. *)
Definition emitEntry (now : Z) (raw stream serviceID containerID : string) : LogEntry :=
  let msg := TrimSpace raw in
  let '(ts, msg) :=
    match SplitSpace2 msg with
    | Some (p0, p1) =>
        match gotime.ParseRFC3339 p0 with
        | Some t => (t, p1)
        | None => (now, msg)
        end
    | None => (now, msg)
    end in
  {| le_TS := ts;
     le_ServiceID := serviceID;
     le_ContainerID := containerID;
     le_Level := inferLevel msg;
     le_Stream := stream;
     le_Message := sanitizeMessage msg |}.

(** [n] copies of a byte. *)
Fixpoint repeat_byte (c : ascii) (n : nat) : string :=
  match n with
  | O => EmptyString
  | S k => String c (repeat_byte c k)
  end.

(** Two messages of 4001 bytes, both valid UTF-8 and without surrounding
    whitespace: 3999 letters followed by the two bytes of U+00E9, and 3999
    letters followed by a space and a letter. *)
Definition message_cut_in_rune : string :=
  repeat_byte (chr 97) 3999 ++ String (chr 195) (String (chr 169) EmptyString).

Definition message_cut_at_space : string :=
  repeat_byte (chr 97) 3999 ++ String (chr 32) (String (chr 98) EmptyString).

(** A string has no NUL byte. *)
Fixpoint no_NUL (s : string) : bool :=
  match s with
  | EmptyString => true
  | String c rest => negb (byte c =? 0) && no_NUL rest
  end.

(** The errors a read can end with. *)
Inductive error : Type :=
| EOF
| ErrUnexpectedEOF
| ErrTooLong
| ErrOther (msg : string).

(** An [io.Reader]: the bytes it delivers, and the error it returns once
    they are exhausted ([EOF] for a stream that ends cleanly). *)
Record Reader := mkReader { data : string; final : error }.

(** [bufio.MaxScanTokenSize]: a [bufio.Scanner] gives up with
    [ErrTooLong] on a line that does not fit its 64 KiB buffer. *)
Definition MaxScanTokenSize : Z := 65536.

(** The bytes before the first newline, and the bytes after it when there
    is one. *)
Fixpoint cut_line (s : string) : string * option string :=
  match s with
  | EmptyString => (EmptyString, None)
  | String c rest =>
      if byte c =? 10 then (EmptyString, Some rest)
      else let '(l, r) := cut_line rest in (String c l, r)
  end.

(** [dropCR] of [bufio.ScanLines] *)
Fixpoint dropCR (s : string) : string :=
  match s with
  | EmptyString => EmptyString
  | String c EmptyString => if byte c =? 13 then EmptyString else s
  | String c rest => String c (dropCR rest)
  end.

Section Parser.

(** [time.Now().UTC()] at the emission of the [k]-th entry. *)
Variable now : nat -> Z.
Variables serviceID containerID : string.

(** The loop of [parsePlainStream] over the lines [bufio.ScanLines]
    cuts; [k] entries have been emitted before. *)
Fixpoint scan_go (fuel : nat) (k : nat) (s : string) : list LogEntry * option error :=
  match fuel with
  | O => ([], None)
  | S f =>
      match s with
      | EmptyString => ([], None)
      | _ =>
          let '(line, rest) := cut_line s in
          if MaxScanTokenSize <=? len line then ([], Some ErrTooLong)
          else
            let e := emitEntry (now k) (dropCR line) "stdout" serviceID containerID in
            match rest with
            | Some r => let '(es, err) := scan_go f (S k) r in (e :: es, err)
            | None => ([e], None)
            end
      end
  end.

(** [parsePlainStream]: the entries sent and the returned error
    ([sc.Err()], which hides [EOF]). *)
Definition parsePlainStream (k : nat) (s : string) (fin : error) : list LogEntry * option error :=
  let '(es, err) := scan_go (S (String.length s)) k s in
  match err with
  | Some e => (es, Some e)
  | None => (es, match fin with EOF => None | e => Some e end)
  end.

Definition isMultiplexHeader (header : string) : bool :=
  match header with
  | String h0 (String h1 (String h2 (String h3 (String _ (String _ (String _ (String _ _))))))) =>
      ((byte h0 =? 1) || (byte h0 =? 2))
      && (byte h1 =? 0) && (byte h2 =? 0) && (byte h3 =? 0)
  | _ => false
  end.

(** [binary.BigEndian.Uint32] *)
Definition Uint32 (b : string) : Z :=
  match b with
  | String b0 (String b1 (String b2 (String b3 _))) =>
      Z.lor (Z.shiftl (byte b0) 24)
            (Z.lor (Z.shiftl (byte b1) 16) (Z.lor (Z.shiftl (byte b2) 8) (byte b3)))
  | _ => 0
  end.

(** The error of [io.ReadFull] that found [n] bytes, fewer than asked. *)
Definition readFull_error (n : nat) (fin : error) : error :=
  match fin with
  | EOF => match n with O => EOF | _ => ErrUnexpectedEOF end
  | e => e
  end.

(** The loop of [ParseDockerStream] on the bytes [s] still unread. *)
Fixpoint frames_go (fuel : nat) (k : nat) (s : string) (fin : error)
  : list LogEntry * option error :=
  match fuel with
  | O => ([], None)
  | S f =>
      if (String.length s <? 8)%nat then
        match fin with
        | EOF | ErrUnexpectedEOF => parsePlainStream k s fin
        | e => ([], Some e)
        end
      else
        let header := take 8 s in
        if negb (isMultiplexHeader header) then parsePlainStream k s fin
        else
          let rest := drop 8 s in
          let stream :=
            match String.get 0 header with
            | Some h0 => if byte h0 =? 2 then "stderr" else "stdout"
            | None => "stdout"
            end in
          let size := Uint32 (drop 4 header) in
          if size =? 0 then frames_go f k rest fin
          else if len rest <? size then ([], Some (readFull_error (String.length rest) fin))
          else
            let payload := take (Z.to_nat size) rest in
            let e := emitEntry (now k) payload stream serviceID containerID in
            let '(es, err) := frames_go f (S k) (drop (Z.to_nat size) rest) fin in
            (e :: es, err)
  end.

(** [ParseDockerStream]: the entries sent on [out], in order, and the
    returned error. *)
Definition ParseDockerStream (r : Reader) : list LogEntry * option error :=
  frames_go (S (String.length (data r))) 0 (data r) (final r).

End Parser.

(** A multiplexed frame: the 8-byte header and the payload. *)
Definition PutUint32 (n : Z) : string :=
  String (chr (Z.shiftr n 24 mod 256))
    (String (chr (Z.shiftr n 16 mod 256))
       (String (chr (Z.shiftr n 8 mod 256))
          (String (chr (n mod 256)) EmptyString))).

Definition frame (stream_id : Z) (payload : string) : string :=
  String (chr stream_id) (String (chr 0) (String (chr 0) (String (chr 0) EmptyString)))
  ++ PutUint32 (len payload) ++ payload.


(** The stream a header byte stands for. *)
Definition stream_name (stream_id : Z) : string :=
  if stream_id =? 2 then "stderr" else "stdout".

(** A multiplexed stream: the frames of the given (stream id, payload)
    pairs one after the other; and the entries the parser is to emit for
    them, the first one being entry number [k]. *)
Fixpoint frames_stream (fs : list (Z * string)) : string :=
  match fs with
  | [] => EmptyString
  | (id, payload) :: fs' => frame id payload ++ frames_stream fs'
  end.

Fixpoint frame_entries (now : nat -> Z) (serviceID containerID : string) (k : nat)
    (fs : list (Z * string)) : list LogEntry :=
  match fs with
  | [] => []
  | (id, payload) :: fs' =>
      emitEntry (now k) payload (stream_name id) serviceID containerID
      :: frame_entries now serviceID containerID (S k) fs'
  end.

Definition frame_ok (f : Z * string) : Prop :=
  (fst f = 1 \/ fst f = 2) /\ 0 < len (snd f) < 2 ^ 32.







End logs.

(** ** db: the repository over the embedded store

    A table is the list of its rows in storage (rowid) order, which is the
    order a scan without [ORDER BY] returns and, for a table whose primary
    key is its integer id, the order of the ids.  [alert_states], whose
    primary key is the pair (rule id, target fingerprint), is a finite map.
    DATETIME columns hold UTC instants and are compared as instants.
    Foreign keys are enforced (the store is opened with [_foreign_keys=on]):
    a statement that would break one fails and changes nothing. *)

Module db.
Import models.

(** A text column produced by [fmt.Sprintf]: the format's arguments are
    kept instead of the rendered digits of the floats. *)
Inductive Text : Type :=
| Lit (s : string)
| AlertText (name label : string) (value : float) (op : string) (threshold : float)
| RecoveryText (name label : string) (value : float).

Record ServiceRow := mkServiceRow {
  s_id : string;
  s_name : string;
  s_image : string;
  s_labels_json : string;
  s_first_seen_at : Z;
  s_last_seen_at : Z;
  s_status : string
}.

Record AlertState := mkAlertState {
  as_state : string;
  as_since_ts : Z;
  as_last_fired_ts : option Z;
  as_last_recovered_ts : option Z
}.

Record Alert := mkAlert {
  a_id : Z;
  a_rule_id : Z;
  a_target_fingerprint : string;
  a_status : string;
  a_started_ts : Z;
  a_ended_ts : option Z;
  a_summary : Text;
  a_details : float * string
}.

Record NotificationEvent := mkNotificationEvent {
  ne_id : Z;
  ne_alert_id : Z;
  ne_channel : string;
  ne_status : string;
  ne_attempts : Z;
  ne_last_error : string;
  ne_sent_ts : option Z
}.

(** The store.  [alerts_seq] and [events_seq] are the AUTOINCREMENT
    counters of [alerts] and [notification_events]. *)
Record DB := mkDB {
  services : list ServiceRow;
  containers : list Container;
  host_metrics : list HostMetric;
  container_metrics : list ContainerMetric;
  logs : list LogEntry;
  alert_rules : list AlertRule;
  alert_states : gmap (Z * string) AlertState;
  alerts : list Alert;
  alerts_seq : Z;
  notification_events : list NotificationEvent;
  events_seq : Z
}.

Definition set_services (d : DB) (x : list ServiceRow) : DB :=
  mkDB x (containers d) (host_metrics d) (container_metrics d) (logs d) (alert_rules d)
       (alert_states d) (alerts d) (alerts_seq d) (notification_events d) (events_seq d).

Definition set_containers (d : DB) (x : list Container) : DB :=
  mkDB (services d) x (host_metrics d) (container_metrics d) (logs d) (alert_rules d)
       (alert_states d) (alerts d) (alerts_seq d) (notification_events d) (events_seq d).

Definition set_host_metrics (d : DB) (x : list HostMetric) : DB :=
  mkDB (services d) (containers d) x (container_metrics d) (logs d) (alert_rules d)
       (alert_states d) (alerts d) (alerts_seq d) (notification_events d) (events_seq d).

Definition set_container_metrics (d : DB) (x : list ContainerMetric) : DB :=
  mkDB (services d) (containers d) (host_metrics d) x (logs d) (alert_rules d)
       (alert_states d) (alerts d) (alerts_seq d) (notification_events d) (events_seq d).

Definition set_logs (d : DB) (x : list LogEntry) : DB :=
  mkDB (services d) (containers d) (host_metrics d) (container_metrics d) x (alert_rules d)
       (alert_states d) (alerts d) (alerts_seq d) (notification_events d) (events_seq d).

Definition set_alert_rules (d : DB) (x : list AlertRule) : DB :=
  mkDB (services d) (containers d) (host_metrics d) (container_metrics d) (logs d) x
       (alert_states d) (alerts d) (alerts_seq d) (notification_events d) (events_seq d).

Definition set_alert_states (d : DB) (x : gmap (Z * string) AlertState) : DB :=
  mkDB (services d) (containers d) (host_metrics d) (container_metrics d) (logs d) (alert_rules d)
       x (alerts d) (alerts_seq d) (notification_events d) (events_seq d).

Definition set_alerts (d : DB) (x : list Alert) (seq : Z) : DB :=
  mkDB (services d) (containers d) (host_metrics d) (container_metrics d) (logs d) (alert_rules d)
       (alert_states d) x seq (notification_events d) (events_seq d).

Definition set_notification_events (d : DB) (x : list NotificationEvent) (seq : Z) : DB :=
  mkDB (services d) (containers d) (host_metrics d) (container_metrics d) (logs d) (alert_rules d)
       (alert_states d) (alerts d) (alerts_seq d) x seq.

(** Go errors of the repository. *)
Inductive error : Type :=
| ErrNoRows
| ErrForeignKey
| ErrTooManyVariables.

(** *** Foreign-key checks *)

Definition service_exists (d : DB) (id : string) : bool :=
  existsb (fun s => String.eqb (s_id s) id) (services d).

Definition container_exists (d : DB) (id : string) : bool :=
  existsb (fun c => String.eqb (c_ID c) id) (containers d).

Definition rule_exists (d : DB) (id : Z) : bool :=
  existsb (fun r => r_ID r =? id) (alert_rules d).

Definition alert_exists (d : DB) (id : Z) : bool :=
  existsb (fun a => a_id a =? id) (alerts d).

(** *** Services and containers *)

Definition get_service (d : DB) (id : string) : option ServiceRow :=
  List.find (fun s => String.eqb (s_id s) id) (services d).

Definition get_container (d : DB) (id : string) : option Container :=
  List.find (fun c => String.eqb (c_ID c) id) (containers d).

(** [INSERT INTO services ... ON CONFLICT(id) DO UPDATE SET name, image,
    labels_json, last_seen_at, status]: [first_seen_at] is not in the
    update list. *)
Definition upsert_service (now : Z) (svc : Service) (rows : list ServiceRow) : list ServiceRow :=
  if existsb (fun s => String.eqb (s_id s) (svc_ID svc)) rows then
    List.map (fun s =>
      if String.eqb (s_id s) (svc_ID svc)
      then {| s_id := s_id s; s_name := svc_Name svc; s_image := svc_Image svc;
              s_labels_json := svc_LabelsJSON svc;
              s_first_seen_at := s_first_seen_at s; s_last_seen_at := now;
              s_status := svc_Status svc |}
      else s) rows
  else rows ++ [ {| s_id := svc_ID svc; s_name := svc_Name svc; s_image := svc_Image svc;
                    s_labels_json := svc_LabelsJSON svc;
                    s_first_seen_at := now; s_last_seen_at := now;
                    s_status := svc_Status svc |} ].

(** [INSERT INTO containers ... ON CONFLICT(id) DO UPDATE SET service_id,
    name, status, last_seen_at, restart_count]: [started_at] is not in the
    update list; [last_seen_at] is bound to [now], not to [c.LastSeenAt]. *)
Definition upsert_container (now : Z) (c : Container) (rows : list Container) : list Container :=
  if existsb (fun x => String.eqb (c_ID x) (c_ID c)) rows then
    List.map (fun x =>
      if String.eqb (c_ID x) (c_ID c)
      then {| c_ID := c_ID x; c_ServiceID := c_ServiceID c; c_Name := c_Name c;
              c_Status := c_Status c; c_StartedAt := c_StartedAt x;
              c_LastSeenAt := now; c_RestartCount := c_RestartCount c |}
      else x) rows
  else rows ++ [ {| c_ID := c_ID c; c_ServiceID := c_ServiceID c; c_Name := c_Name c;
                    c_Status := c_Status c; c_StartedAt := c_StartedAt c;
                    c_LastSeenAt := now; c_RestartCount := c_RestartCount c |} ].

(** [Repository.UpsertServiceAndContainer]; [now] is [time.Now().UTC()]. *)
Definition UpsertServiceAndContainer (now : Z) (svc : Service) (c : Container) (d : DB)
  : DB * option error :=
  let d1 := set_services d (upsert_service now svc (services d)) in
  if service_exists d1 (c_ServiceID c)
  then (set_containers d1 (upsert_container now c (containers d1)), None)
  else (d1, Some ErrForeignKey).

Definition ListContainers (d : DB) : list Container := containers d.

(** *** Metrics *)

Definition InsertHostMetric (m : HostMetric) (d : DB) : DB :=
  set_host_metrics d (host_metrics d ++ [m]).

(** [SELECT ... FROM host_metrics ORDER BY ts DESC LIMIT 1] *)
Fixpoint latest_of (best : HostMetric) (l : list HostMetric) : HostMetric :=
  match l with
  | [] => best
  | m :: l' => latest_of (if hm_TS best <? hm_TS m then m else best) l'
  end.

Definition LatestHostMetric (d : DB) : option HostMetric :=
  match host_metrics d with
  | [] => None
  | m :: l => Some (latest_of m l)
  end.

(** *** Alert rules, states, alerts and notification events *)

Definition ListRules (d : DB) : list AlertRule := alert_rules d.

Definition UpdateRuleThresholds (id : Z) (threshold : float) (forSec cooldown : Z)
    (enabled : bool) (d : DB) : DB :=
  set_alert_rules d
    (List.map (fun r =>
       if r_ID r =? id
       then {| r_ID := r_ID r; r_Name := r_Name r; r_TargetType := r_TargetType r;
               r_TargetID := r_TargetID r; r_MetricKey := r_MetricKey r;
               r_Operator := r_Operator r; r_Threshold := threshold;
               r_ForSeconds := forSec; r_CooldownSeconds := cooldown;
               r_Enabled := enabled |}
       else r) (alert_rules d)).

Definition UpsertAlertState (ruleID : Z) (target state : string) (since : Z)
    (lastFired lastRecovered : option Z) (d : DB) : DB * option error :=
  if rule_exists d ruleID
  then (set_alert_states d
          (<[ (ruleID, target) :=
                {| as_state := state; as_since_ts := since;
                   as_last_fired_ts := lastFired;
                   as_last_recovered_ts := lastRecovered |} ]> (alert_states d)), None)
  else (d, Some ErrForeignKey).

Definition GetAlertState (ruleID : Z) (target : string) (d : DB) : option AlertState :=
  alert_states d !! (ruleID, target).

Definition CreateAlert (ruleID : Z) (target status : string) (summary : Text)
    (details : float * string) (started : Z) (d : DB) : DB * Z * option error :=
  if rule_exists d ruleID
  then
    let id := alerts_seq d + 1 in
    (set_alerts d
       (alerts d ++ [ {| a_id := id; a_rule_id := ruleID; a_target_fingerprint := target;
                         a_status := status; a_started_ts := started; a_ended_ts := None;
                         a_summary := summary; a_details := details |} ]) id,
     id, None)
  else (d, 0, Some ErrForeignKey).

(** [UPDATE alerts SET status='recovered', ended_ts_nullable=? WHERE
    rule_id=? AND target_fingerprint=? AND status='firing'] *)
Definition close_row (ruleID : Z) (target : string) (ended : Z) (a : Alert) : Alert :=
  if (a_rule_id a =? ruleID) && String.eqb (a_target_fingerprint a) target
     && String.eqb (a_status a) "firing"
  then {| a_id := a_id a; a_rule_id := a_rule_id a;
          a_target_fingerprint := a_target_fingerprint a;
          a_status := "recovered"; a_started_ts := a_started_ts a;
          a_ended_ts := Some ended; a_summary := a_summary a; a_details := a_details a |}
  else a.

Definition CloseAlert (ruleID : Z) (target : string) (ended : Z) (d : DB) : DB :=
  set_alerts d (List.map (close_row ruleID target ended) (alerts d)) (alerts_seq d).

Definition InsertNotificationEvent (alertID : Z) (channel status : string) (attempts : Z)
    (lastErr : string) (sent : option Z) (d : DB) : DB * option error :=
  if alert_exists d alertID
  then
    let id := events_seq d + 1 in
    (set_notification_events d
       (notification_events d ++
          [ {| ne_id := id; ne_alert_id := alertID; ne_channel := channel;
               ne_status := status; ne_attempts := attempts;
               ne_last_error := lastErr; ne_sent_ts := sent |} ]) id, None)
  else (d, Some ErrForeignKey).

(** *** Retention *)

(** [DELETE FROM alerts WHERE started_ts < ? AND status='recovered'] *)
Definition expired_alert (cutoff : Z) (a : Alert) : bool :=
  (a_started_ts a <? cutoff) && String.eqb (a_status a) "recovered".

Definition is_firing (a : Alert) : bool := String.eqb (a_status a) "firing".

(** [Repository.DeleteOlderThan]: the four deletes in turn; the events of
    a deleted alert go with it ([ON DELETE CASCADE]).  None of them can
    break a constraint, and the two PRAGMAs change no row. *)
Definition DeleteOlderThan (cutoff : Z) (d : DB) : DB * option error :=
  let d := set_host_metrics d (List.filter (fun m => negb (hm_TS m <? cutoff)) (host_metrics d)) in
  let d := set_container_metrics d
             (List.filter (fun m => negb (cm_TS m <? cutoff)) (container_metrics d)) in
  let d := set_logs d (List.filter (fun e => negb (le_TS e <? cutoff)) (logs d)) in
  let gone := List.filter (expired_alert cutoff) (alerts d) in
  let kept := List.filter (fun a => negb (expired_alert cutoff a)) (alerts d) in
  let d := set_alerts d kept (alerts_seq d) in
  let d := set_notification_events d
             (List.filter (fun e => negb (existsb (fun a => a_id a =? ne_alert_id e) gone))
                          (notification_events d)) (events_seq d) in
  (d, None).

(** *** Migration *)

Definition seed (id : Z) (name targetType metricKey op : string) (th : float)
    (forSec cooldown : Z) : AlertRule :=
  {| r_ID := id; r_Name := name; r_TargetType := targetType; r_TargetID := None;
     r_MetricKey := metricKey; r_Operator := op; r_Threshold := th;
     r_ForSeconds := forSec; r_CooldownSeconds := cooldown; r_Enabled := true |}.

(** The store after [Migrate] on a new file: empty tables and the five
    default rules. *)
Definition Migrate : DB :=
  {| services := []; containers := []; host_metrics := []; container_metrics := [];
     logs := [];
     alert_rules :=
       [ seed 1 "Host CPU high" "host" "host_cpu_pct" ">" 90 120 600;
         seed 2 "Host memory high" "host" "host_mem_pct" ">" 90 120 600;
         seed 3 "Host disk high" "host" "host_disk_pct" ">" 85 300 1800;
         seed 4 "Container unavailable" "container" "container_unavailable" ">=" 1 60 600;
         seed 5 "Container restarted" "container" "container_restarts" ">=" 1 0 60 ];
     alert_states := ∅; alerts := []; alerts_seq := 0;
     notification_events := []; events_seq := 0 |}.

End db.

(** ** notifier and alerts: the alert engine *)

Module alerts.
Import models db.

(** [notifier.Telegram]: the credentials; the HTTP client is the
    environment's [transport] below. *)
Record Telegram := mkTelegram { Token : string; ChatID : string }.

Definition Enabled (t : Telegram) : bool :=
  negb (String.eqb (Token t) "") && negb (String.eqb (ChatID t) "").

(** The URL [Send] posts to:
    [fmt.Sprintf("https://api.telegram.org/bot%s/sendMessage", t.Token)]. *)
Definition sendMessage_url (t : Telegram) : string :=
  "https://api.telegram.org/bot" ++ Token t ++ "/sendMessage".

(** The engine's fields that change: the credentials and the three
    in-memory maps. *)
Record Engine := mkEngine {
  notify : Telegram;
  lastHost : gmap string float;
  lastRest : gmap string Z;
  lastSvc : gmap string string;
  debug : bool
}.

Definition NewEngine (n : Telegram) (debugRestartAlerts : bool) : Engine :=
  {| notify := n; lastHost := ∅; lastRest := ∅; lastSvc := ∅; debug := debugRestartAlerts |}.

(** What an evaluation reads and writes outside the engine: the store,
    the number of calls of [e.now] made so far, and the HTTP requests
    posted to the chat service, each with its outcome ([None]: a 2xx
    answer). *)
Record World := mkWorld {
  w_db : DB;
  w_clock : nat;
  w_outbox : list (Text * option string)
}.

Definition with_db (w : World) (d : DB) : World :=
  {| w_db := d; w_clock := w_clock w; w_outbox := w_outbox w |}.

Definition compare (v : float) (op : string) (threshold : float) : bool :=
  if String.eqb op ">" then float_ltb threshold v
  else if String.eqb op ">=" then float_leb threshold v
  else if String.eqb op "<" then float_ltb v threshold
  else if String.eqb op "<=" then float_leb v threshold
  else if String.eqb op "==" then float_eqb v threshold
  else false.

Definition shortTarget (id : string) : string :=
  if (12 <? String.length id)%nat then gostr.take 12 id else id.

Section Environment.

(** [now k]: what the [k]-th call of [e.now().UTC()] returns.
    [transport k]: the outcome of the [k]-th request posted.
    [new_request url]: the error of [http.NewRequestWithContext] for the
    URL ([None]: the request is built); it fails on a URL that
    [url.Parse] refuses, and then nothing is posted. *)
Variable now : nat -> Z.
Variable transport : nat -> option string.
Variable new_request : string -> option string.

(** [e.now().UTC()] *)
Definition tick (w : World) : Z * World :=
  (now (w_clock w), {| w_db := w_db w; w_clock := S (w_clock w); w_outbox := w_outbox w |}).

(** [Telegram.Send]: without credentials, and with a token for which no
    request can be built, it fails before any request. *)
Definition Send (t : Telegram) (msg : Text) (w : World) : option string * World :=
  if Enabled t then
    match new_request (sendMessage_url t) with
    | Some err => (Some err, w)
    | None =>
        let r := transport (length (w_outbox w)) in
        (r, {| w_db := w_db w; w_clock := w_clock w; w_outbox := w_outbox w ++ [(msg, r)] |})
    end
  else (Some "telegram not configured", w).

(** The retry loop of [sendNotification]: [attempts] sends have failed,
    [left] may still be made. *)
Fixpoint send_loop (left : nat) (attempts : Z) (lastErr : string)
    (t : Telegram) (alertID : Z) (msg : Text) (w : World) : World :=
  match left with
  | O =>
      with_db w (fst (InsertNotificationEvent alertID "telegram" "failed" attempts lastErr None (w_db w)))
  | S left' =>
      let attempts := attempts + 1 in
      match Send t msg w with
      | (None, w) =>
          let '(t_sent, w) := tick w in
          with_db w (fst (InsertNotificationEvent alertID "telegram" "sent" attempts ""
                            (Some t_sent) (w_db w)))
      | (Some err, w) => send_loop left' attempts err t alertID msg w
      end
  end.

Definition sendNotification (e : Engine) (alertID : Z) (msg : Text) (w : World) : World :=
  send_loop 3 0 "" (notify e) alertID msg w.

(** The cooldown test: a last firing is recorded and [now] is less than
    the cooldown after it. *)
Definition in_cooldown (rule : AlertRule) (t : Z) (lastFired : option Z) : bool :=
  match lastFired with
  | Some lf => gotime.Sub t lf <? gotime.Seconds (r_CooldownSeconds rule)
  | None => false
  end.

(** The firing transition: create the alert, notify when it was created,
    store the state FIRING. *)
Definition fire (e : Engine) (ruleID : Z) (targetKey targetLabel : string)
    (rule : AlertRule) (value : float) (t since : Z) (w : World) : World :=
  let msg := AlertText (r_Name rule) targetLabel value (r_Operator rule) (r_Threshold rule) in
  let '(d, alertID, cErr) :=
    CreateAlert ruleID targetKey "firing" msg (value, targetLabel) t (w_db w) in
  let w := with_db w d in
  let w := match cErr with
           | None => sendNotification e alertID msg w
           | Some _ => w
           end in
  with_db w (fst (UpsertAlertState ruleID targetKey "FIRING" since (Some t) None (w_db w))).

(** [Engine.evalTarget] *)
Definition evalTarget (e : Engine) (ruleID : Z) (targetKey targetLabel : string)
    (rule : AlertRule) (value : float) (w : World) : World :=
  if PrimFloat.is_nan value then w
  else
    let shouldFire := compare value (r_Operator rule) (r_Threshold rule) in
    let '(t, w) := tick w in
    let '(state, since, lastFired) :=
      match GetAlertState ruleID targetKey (w_db w) with
      | Some st => (as_state st, as_since_ts st, as_last_fired_ts st)
      | None => ("OK", t, None)
      end in
    if shouldFire then
      if String.eqb state "OK" then
        if r_ForSeconds rule <=? 0 then
          if in_cooldown rule t lastFired
          then with_db w (fst (UpsertAlertState ruleID targetKey "COOLDOWN" t lastFired None (w_db w)))
          else fire e ruleID targetKey targetLabel rule value t t w
        else with_db w (fst (UpsertAlertState ruleID targetKey "PENDING" t lastFired None (w_db w)))
      else if String.eqb state "PENDING"
              && (gotime.Seconds (r_ForSeconds rule) <=? gotime.Sub t since) then
        if in_cooldown rule t lastFired
        then with_db w (fst (UpsertAlertState ruleID targetKey "COOLDOWN" t lastFired None (w_db w)))
        else fire e ruleID targetKey targetLabel rule value t since w
      else w
    else if String.eqb state "FIRING" || String.eqb state "PENDING" || String.eqb state "COOLDOWN" then
      let w := with_db w (CloseAlert ruleID targetKey t (w_db w)) in
      let rmsg := RecoveryText (r_Name rule) targetLabel value in
      let w := if String.eqb state "FIRING" then sendNotification e 0 rmsg w else w in
      with_db w (fst (UpsertAlertState ruleID targetKey "OK" t lastFired (Some t) (w_db w)))
    else w.

(** The [container_unavailable] loop of [Evaluate]. *)
Fixpoint eval_unavailable (e : Engine) (r : AlertRule) (t : Z)
    (cs : list Container) (w : World) : World :=
  match cs with
  | [] => w
  | c :: cs' =>
      let v := if gostr.EqualFold_running (c_Status c)
                  && (60 * gotime.Second <? gotime.Sub t (c_LastSeenAt c))
               then 1%float else 0%float in
      eval_unavailable e r t cs' (evalTarget e (r_ID r) (c_ID c) (shortTarget (c_ID c)) r v w)
  end.

(** The value of the [container_restarts] metric for one container: 1
    when its restart count grew since it was last seen, or when the
    service was last seen backed by another container id. *)
Definition restarted_value (e : Engine) (c : Container) : float :=
  let restarted :=
    match lastRest e !! c_ID c with
    | Some prev => if prev <? c_RestartCount c then 1%float else 0%float
    | None => 0%float
    end in
  match lastSvc e !! c_ServiceID c with
  | Some prevID => if negb (String.eqb prevID (c_ID c)) then 1%float else restarted
  | None => restarted
  end.

Definition remember (e : Engine) (c : Container) : Engine :=
  {| notify := notify e; lastHost := lastHost e;
     lastRest := <[ c_ID c := c_RestartCount c ]> (lastRest e);
     lastSvc := <[ c_ServiceID c := c_ID c ]> (lastSvc e);
     debug := debug e |}.

(** The [container_restarts] loop of [Evaluate]. *)
Fixpoint eval_restarts (e : Engine) (r : AlertRule) (cs : list Container) (w : World)
  : Engine * World :=
  match cs with
  | [] => (e, w)
  | c :: cs' =>
      let restarted := restarted_value e c in
      let e := remember e c in
      eval_restarts e r cs' (evalTarget e (r_ID r) (c_ID c) (shortTarget (c_ID c)) r restarted w)
  end.

(** The body of the loop over the rules. *)
Definition eval_rule (containers : list Container) (e : Engine) (r : AlertRule) (w : World)
  : Engine * World :=
  if negb (r_Enabled r) then (e, w)
  else if String.eqb (r_TargetType r) "host" then
    (e, evalTarget e (r_ID r) "host" "host" r (default 0%float (lastHost e !! r_MetricKey r)) w)
  else if String.eqb (r_TargetType r) "container" then
    let w :=
      if String.eqb (r_MetricKey r) "container_unavailable"
      then let '(t, w) := tick w in eval_unavailable e r t containers w
      else w in
    if String.eqb (r_MetricKey r) "container_restarts"
    then eval_restarts e r containers w
    else (e, w)
  else (e, w).

Fixpoint eval_rules (containers : list Container) (e : Engine) (rs : list AlertRule) (w : World)
  : Engine * World :=
  match rs with
  | [] => (e, w)
  | r :: rs' => let '(e, w) := eval_rule containers e r w in eval_rules containers e rs' w
  end.

(** The host percentages [Evaluate] stores from the latest host metric. *)
Definition update_lastHost (e : Engine) (latest : HostMetric) : Engine :=
  let m := <[ "host_cpu_pct" := hm_CPUPct latest ]> (lastHost e) in
  let m := if 0 <? hm_MemTotalBytes latest
           then <[ "host_mem_pct" :=
                     (float_of_int64 (hm_MemUsedBytes latest)
                      / float_of_int64 (hm_MemTotalBytes latest) * 100)%float ]> m
           else m in
  let m := if 0 <? hm_DiskTotalBytes latest
           then <[ "host_disk_pct" :=
                     (float_of_int64 (hm_DiskUsedBytes latest)
                      / float_of_int64 (hm_DiskTotalBytes latest) * 100)%float ]> m
           else m in
  {| notify := notify e; lastHost := m; lastRest := lastRest e; lastSvc := lastSvc e;
     debug := debug e |}.

(** [Engine.Evaluate] *)
Definition Evaluate (e : Engine) (w : World) : Engine * World :=
  let rules := ListRules (w_db w) in
  let e := match LatestHostMetric (w_db w) with
           | Some latest => update_lastHost e latest
           | None => e
           end in
  let containers := ListContainers (w_db w) in
  eval_rules containers e rules w.

End Environment.

(** The alert row a firing transition inserts. *)
Definition firing_row (d : DB) (ruleID : Z) (target label : string) (rule : AlertRule)
    (value : float) (t : Z) : Alert :=
  {| a_id := alerts_seq d + 1; a_rule_id := ruleID; a_target_fingerprint := target;
     a_status := "firing"; a_started_ts := t; a_ended_ts := None;
     a_summary := AlertText (r_Name rule) label value (r_Operator rule) (r_Threshold rule);
     a_details := (value, label) |}.


(** *** Scenarios of the engine's tests

    The clock of the tests is fixed at 2026-02-21 12:00:00 UTC and their
    HTTP transport answers 200 to every request. *)

Definition test_now : Z := 1771675200 * 10 ^ 9.

Definition test_clock (k : nat) : Z := test_now.

Definition test_transport (k : nat) : option string := None.

(** Every request of the tests can be built. *)
Definition test_request (url : string) : option string := None.

Definition test_engine : Engine := NewEngine {| Token := "token"; ChatID := "chat" |} false.

(** The seeded restart rule after
    [UpdateRuleThresholds(restartRule.ID, 1, 0, 0, true)]. *)
Definition test_db : DB := UpdateRuleThresholds 5 1 0 0 true Migrate.

Definition restart_rule : AlertRule :=
  seed 5 "Container restarted" "container" "container_restarts" ">=" 1 0 0.

(** A store in which the pair (rule 5, "c1") is in COOLDOWN. *)
Definition cooldown_state : AlertState :=
  {| as_state := "COOLDOWN"; as_since_ts := test_now;
     as_last_fired_ts := Some test_now; as_last_recovered_ts := None |}.

Definition cooldown_world : World :=
  {| w_db := set_alert_states test_db {[ (5, "c1") := cooldown_state ]};
     w_clock := 0; w_outbox := [] |}.

(** The counts of [assertRestartAlertCount] and
    [assertRestartFiringCount]: the alerts, and the firing alerts, of the
    rules whose metric key is [container_restarts]. *)
Definition restart_alert (d : DB) (a : Alert) : bool :=
  existsb (fun r => (r_ID r =? a_rule_id a) && String.eqb (r_MetricKey r) "container_restarts")
          (alert_rules d).

Definition RestartAlertCount (d : DB) : nat :=
  length (List.filter (restart_alert d) (alerts d)).

Definition RestartFiringCount (d : DB) : nat :=
  length (List.filter (fun a => restart_alert d a && is_firing a) (alerts d)).

(** The store of [TestEvaluateContainerRestartsIgnoresHistoricalMissingContainers]:
    the service "svc" with an old container that is missing (last seen ten
    minutes ago) and a new one that is running, both with restart count 0.
    [historical_world_rev] stores the two containers in the other order. *)
Definition svc_missing : Service :=
  {| svc_ID := "svc"; svc_Name := "svc"; svc_Image := "img"; svc_LabelsJSON := "{}";
     svc_Status := "missing" |}.

Definition svc_running : Service :=
  {| svc_ID := "svc"; svc_Name := "svc"; svc_Image := "img"; svc_LabelsJSON := "{}";
     svc_Status := "running" |}.

Definition container_old : Container :=
  {| c_ID := "container-old"; c_ServiceID := "svc"; c_Name := "svc"; c_Status := "missing";
     c_StartedAt := None; c_LastSeenAt := test_now - 600 * 10 ^ 9; c_RestartCount := 0 |}.

Definition container_new : Container :=
  {| c_ID := "container-new"; c_ServiceID := "svc"; c_Name := "svc"; c_Status := "running";
     c_StartedAt := None; c_LastSeenAt := test_now; c_RestartCount := 0 |}.

Definition historical_world : World :=
  {| w_db := fst (UpsertServiceAndContainer test_now svc_running container_new
                    (fst (UpsertServiceAndContainer test_now svc_missing container_old test_db)));
     w_clock := 0; w_outbox := [] |}.

Definition historical_world_rev : World :=
  {| w_db := fst (UpsertServiceAndContainer test_now svc_missing container_old
                    (fst (UpsertServiceAndContainer test_now svc_running container_new test_db)));
     w_clock := 0; w_outbox := [] |}.

(** Two consecutive calls of [Evaluate]. *)
Definition EvaluateTwice (now : nat -> Z) (transport : nat -> option string)
    (new_request : string -> option string)
    (e : Engine) (w : World) : Engine * World :=
  let '(e1, w1) := Evaluate now transport new_request e w in
  Evaluate now transport new_request e1 w1.

(** The world of the tests before any evaluation. *)
Definition test_world : World := {| w_db := test_db; w_clock := 0; w_outbox := [] |}.

(** A clock that advances one second at every reading. *)
Definition second_clock (k : nat) : Z := Z.of_nat k * 10 ^ 9.






End alerts.

(** ** db, continued: the other operations of the repository *)

Module repo.
Import models db.

(** [UPDATE containers SET status='missing' ...] on one row. *)
Definition set_missing (c : Container) : Container :=
  {| c_ID := c_ID c; c_ServiceID := c_ServiceID c; c_Name := c_Name c;
     c_Status := "missing"; c_StartedAt := c_StartedAt c;
     c_LastSeenAt := c_LastSeenAt c; c_RestartCount := c_RestartCount c |}.

Definition id_in (ids : list string) (id : string) : bool :=
  existsb (String.eqb id) ids.

(** The [UPDATE containers SET status='missing' ...] of
    [MarkMissingContainers]: with no visible id, every row that is not
    missing is updated; otherwise every row that is not missing and whose
    id is [NOT IN] the list. *)
Definition mark_missing (seenIDs : list string) (d : DB) : DB :=
  match seenIDs with
  | [] =>
      set_containers d
        (List.map (fun c => if negb (String.eqb (c_Status c) "missing") then set_missing c else c)
                  (containers d))
  | _ =>
      set_containers d
        (List.map (fun c => if negb (id_in seenIDs (c_ID c))
                               && negb (String.eqb (c_Status c) "missing")
                            then set_missing c else c)
                  (containers d))
  end.

(** The store's bound on the number of parameters of one statement
    ([SQLITE_MAX_VARIABLE_NUMBER]). *)
Definition MaxVariableNumber : Z := 32766.

(** [Repository.MarkMissingContainers]: the list is bound to one SQL
    parameter per id, [?1] to [?n]; beyond the store's bound the statement
    is refused, the error is returned and no row is updated. *)
Definition MarkMissingContainers (seenIDs : list string) (d : DB) : DB * option error :=
  if MaxVariableNumber <? Z.of_nat (length seenIDs)
  then (d, Some ErrTooManyVariables)
  else (mark_missing seenIDs d, None).


(** One insert of the prepared statement of [InsertLogs]: the row
    references its service and its container. *)
Definition insert_log (e : LogEntry) (d : DB) : option DB :=
  if service_exists d (le_ServiceID e) && container_exists d (le_ContainerID e)
  then Some (set_logs d (logs d ++ [e]))
  else None.

(** An entry references a stored service and a stored container. *)
Definition log_refs_ok (d : DB) (e : LogEntry) : bool :=
  service_exists d (le_ServiceID e) && container_exists d (le_ContainerID e).

Fixpoint insert_logs (entries : list LogEntry) (d : DB) : option DB :=
  match entries with
  | [] => Some d
  | e :: rest =>
      match insert_log e d with
      | Some d' => insert_logs rest d'
      | None => None
      end
  end.

(** [Repository.InsertLogs]: one transaction; the first failing insert
    returns its error and the deferred rollback undoes the earlier ones. *)
Definition InsertLogs (entries : list LogEntry) (d : DB) : DB * option error :=
  match entries with
  | [] => (d, None)
  | _ =>
      match insert_logs entries d with
      | Some d' => (d', None)
      | None => (d, Some ErrForeignKey)
      end
  end.

(** [SELECT COUNT( * ) FROM alerts WHERE status='firing'] *)
Definition ActiveAlertCount (d : DB) : nat :=
  length (List.filter is_firing (alerts d)).

Definition is_recovered (a : Alert) : bool := String.eqb (a_status a) "recovered".

(** The events that go with deleted alerts ([ON DELETE CASCADE]). *)
Definition cascade_events (gone : list Alert) (evs : list NotificationEvent)
  : list NotificationEvent :=
  List.filter (fun e => negb (existsb (fun a => a_id a =? ne_alert_id e) gone)) evs.

(** [Repository.DeleteRecoveredAlerts]: the store and the number of rows
    deleted. *)
Definition DeleteRecoveredAlerts (d : DB) : DB * Z :=
  let gone := List.filter is_recovered (alerts d) in
  let d1 := set_alerts d (List.filter (fun a => negb (is_recovered a)) (alerts d)) (alerts_seq d) in
  (set_notification_events d1 (cascade_events gone (notification_events d)) (events_seq d),
   Z.of_nat (length gone)).


(** [seedDefaultRules]: a default rule is inserted where no rule has its
    name; the new id is one more than the largest id (rules are never
    deleted, so that is the AUTOINCREMENT value). *)
Definition next_rule_id (rules : list AlertRule) : Z :=
  List.fold_right (fun r m => Z.max (r_ID r) m) 0 rules + 1.

Definition seed_rule (name targetType metricKey op : string) (th : float)
    (forSec cooldown : Z) (rules : list AlertRule) : list AlertRule :=
  if existsb (fun r => String.eqb (r_Name r) name) rules then rules
  else rules ++ [seed (next_rule_id rules) name targetType metricKey op th forSec cooldown].

Definition seedDefaultRules (d : DB) : DB :=
  let rs := alert_rules d in
  let rs := seed_rule "Host CPU high" "host" "host_cpu_pct" ">" 90 120 600 rs in
  let rs := seed_rule "Host memory high" "host" "host_mem_pct" ">" 90 120 600 rs in
  let rs := seed_rule "Host disk high" "host" "host_disk_pct" ">" 85 300 1800 rs in
  let rs := seed_rule "Container unavailable" "container" "container_unavailable" ">=" 1 60 600 rs in
  let rs := seed_rule "Container restarted" "container" "container_restarts" ">=" 1 0 60 rs in
  set_alert_rules d rs.

(** The store of a new file, before any statement. *)
Definition empty_db : DB :=
  {| services := []; containers := []; host_metrics := []; container_metrics := [];
     logs := []; alert_rules := []; alert_states := ∅; alerts := []; alerts_seq := 0;
     notification_events := []; events_seq := 0 |}.

(** [Migrate] on a store whose tables exist: the [CREATE ... IF NOT EXISTS]
    statements change nothing, the seeding follows. *)
Definition MigrateAgain (d : DB) : DB := seedDefaultRules d.

End repo.

(** ** The collector service (package [collector])

    One tick: the host metric, then every container the Docker daemon
    lists, then the containers it no longer lists. *)

Module service.
Import models db repo collector.








Section Tick.

(** [json.Marshal] of the labels, and [now k]: the [k]-th reading of
    [time.Now().UTC()]. *)
Variable marshal : gmap string string -> string.
Variable now : nat -> Z.






End Tick.

End service.

(** ** Invariants of the store

    What the schema's constraints and the repository's statements keep
    between calls. *)

Module invariants.
Import models db.

(** The primary keys of [services] and [containers] are unique and every
    container row references a stored service. *)
Definition keys_ok (d : DB) : Prop :=
  List.NoDup (List.map s_id (services d))
  /\ List.NoDup (List.map c_ID (containers d))
  /\ Forall (fun c => service_exists d (c_ServiceID c) = true) (containers d).

(** Alert ids are unique, positive and at most the AUTOINCREMENT
    counter; every notification event references a stored alert. *)
Definition alerts_ok (d : DB) : Prop :=
  0 <= alerts_seq d
  /\ List.NoDup (List.map a_id (alerts d))
  /\ Forall (fun a => 0 < a_id a <= alerts_seq d) (alerts d)
  /\ Forall (fun e => alert_exists d (ne_alert_id e) = true) (notification_events d).

(** What an evaluation may change of a store [d0]: the alert states, the
    status of stored alerts, and alerts and notification events it
    appends. *)
Definition evaluation_frame (d0 d : DB) : Prop :=
  services d = services d0 /\ containers d = containers d0
  /\ host_metrics d = host_metrics d0 /\ container_metrics d = container_metrics d0
  /\ logs d = logs d0 /\ alert_rules d = alert_rules d0
  /\ (exists newer, List.map a_id (alerts d) = (List.map a_id (alerts d0) ++ newer)%list)
  /\ (exists newer, notification_events d = (notification_events d0 ++ newer)%list).

(** The firing alerts of a (rule, target) pair: the rows [CloseAlert]
    selects. *)
Definition firing_of (ruleID : Z) (target : string) (a : Alert) : bool :=
  (a_rule_id a =? ruleID) && String.eqb (a_target_fingerprint a) target
  && String.eqb (a_status a) "firing".

(** A pair has at most one firing alert, and has one only while its state
    is FIRING. *)
Definition firing_ok (d : DB) : Prop :=
  forall ruleID target,
    (length (List.filter (firing_of ruleID target) (alerts d)) <= 1)%nat
    /\ (List.filter (firing_of ruleID target) (alerts d) <> [] ->
        exists st, GetAlertState ruleID target d = Some st /\ as_state st = "FIRING").

(** The engine's memory holds nothing against the containers [cs]: no
    remembered restart count is below a container's count, and no service
    is remembered with another container id. *)
Definition restart_quiet (e : alerts.Engine) (cs : list Container) : Prop :=
  forall c, In c cs ->
    (forall prev, alerts.lastRest e !! c_ID c = Some prev -> c_RestartCount c <= prev)
    /\ (forall prevID, alerts.lastSvc e !! c_ServiceID c = Some prevID -> prevID = c_ID c).

(** The pair of a rule and a container is at rest: no state row, or the
    state OK. *)
Definition at_rest (d : DB) (ruleID : Z) (c : Container) : Prop :=
  match GetAlertState ruleID (c_ID c) d with
  | Some st => as_state st = "OK"
  | None => True
  end.

(** What every log entry of a container's stream satisfies. *)
Definition entry_ok (serviceID containerID : string) (e : LogEntry) : Prop :=
  le_ServiceID e = serviceID /\ le_ContainerID e = containerID
  /\ In (le_Stream e) ["stdout"; "stderr"]
  /\ In (le_Level e) ["ERROR"; "WARN"; "DEBUG"; "INFO"]
  /\ logs.no_NUL (le_Message e) = true
  /\ gostr.len (le_Message e) <= 4000.

(** The header of a multiplexed frame that announces [size] bytes. *)
Definition frame_header (stream_id size : Z) : string :=
  String (gostr.chr stream_id)
    (String (gostr.chr 0) (String (gostr.chr 0) (String (gostr.chr 0) EmptyString)))
  ++ logs.PutUint32 size.

(** The exact (unbounded) totals of a list of network entries and of the
    block-I/O entries with a given operation. *)
Definition rx_total (l : list (string * docker.NetworkT)) : Z :=
  List.fold_right (fun kv acc => docker.RxBytes (snd kv) + acc) 0 l.

Definition tx_total (l : list (string * docker.NetworkT)) : Z :=
  List.fold_right (fun kv acc => docker.TxBytes (snd kv) + acc) 0 l.

Definition blkio_total (op : string) (l : list docker.BlkioEntry) : Z :=
  List.fold_right (fun io acc => if String.eqb (docker.Op io) op
                                 then docker.Value io + acc else acc) 0 l.

End invariants.

(** * Properties *)

(** ** Floats: a comparison that holds has no NaN operand *)

Lemma SFcompare_refl_not_nan (x : spec_float) :
  x <> S754_nan -> SFcompare x x = Some Eq.
Proof.
  destruct x as [s|s| |s m e]; simpl; intros H; try congruence.
  all: try (destruct s; reflexivity).
  change (PosDef.Pos.compare_cont Eq m m) with (Pos.compare m m).
  destruct s; rewrite Z.compare_refl, BinPos.Pos.compare_refl; reflexivity.
Qed.

Lemma is_nan_false_l (x y : float) :
  SFcompare (Prim2SF x) (Prim2SF y) <> None -> PrimFloat.is_nan x = false.
Proof.
  intros H. unfold PrimFloat.is_nan. rewrite FloatAxioms.eqb_spec. unfold SFeqb.
  rewrite SFcompare_refl_not_nan; [reflexivity|].
  intros E. rewrite E in H. apply H. reflexivity.
Qed.

Lemma is_nan_false_r (x y : float) :
  SFcompare (Prim2SF x) (Prim2SF y) <> None -> PrimFloat.is_nan y = false.
Proof.
  intros H. unfold PrimFloat.is_nan. rewrite FloatAxioms.eqb_spec. unfold SFeqb.
  rewrite SFcompare_refl_not_nan; [reflexivity|].
  intros E. rewrite E in H. apply H.
  destruct (Prim2SF x) as [[]|[]| |[] ? ?]; reflexivity.
Qed.

Lemma compare_true_not_nan (v : float) (op : string) (th : float) :
  alerts.compare v op th = true -> PrimFloat.is_nan v = false.
Proof.
  unfold alerts.compare, float_ltb, float_leb, float_eqb.
  repeat (match goal with |- context [String.eqb ?a ?b] => destruct (String.eqb a b) end);
    try discriminate;
    rewrite ?FloatAxioms.ltb_spec, ?FloatAxioms.leb_spec, ?FloatAxioms.eqb_spec; unfold SFltb, SFleb, SFeqb; intros H.
  1,2: apply (is_nan_false_r th v); intros E; rewrite E in H; discriminate.
  all: apply (is_nan_false_l v th); intros E; rewrite E in H; discriminate.
Qed.

(** ** Stats normalization *)

Section NormalizeStats.
Import models docker.

(** On [uint64] a difference is never negative: when the current counter
    is below the previous one it wraps to a value of at least 1. *)
Lemma wrap64_backwards (cur prev : Z) :
  uint64_ok cur -> uint64_ok prev -> cur < prev ->
  wrap64 (cur - prev) = 2 ^ 64 + cur - prev /\ 1 <= wrap64 (cur - prev) < 2 ^ 64.
Proof.
  unfold uint64_ok, wrap64. intros Hc Hp Hlt.
  assert (E : (cur - prev) mod 2 ^ 64 = 2 ^ 64 + cur - prev).
  { symmetry. apply Z.mod_unique with (q := -1); lia. }
  rewrite E. lia.
Qed.

(** With equal system counters the guard is closed and cpu% is 0. *)
Lemma cpuPct_zero_when_system_unchanged (s : Stats) :
  SystemCPUUsage (CPUStats s) = pre_SystemCPUUsage (PreCPUStats s) ->
  cpuPct_of s = 0%float.
Proof.
  intros E. unfold cpuPct_of, sysDelta_of. rewrite E, Z.sub_diag. reflexivity.
Qed.

(** The snapshot of the test normalizes to 100%. *)
Example NormalizeStats_test :
  cm_CPUPct (NormalizeStats "abc" test_stats) = 100%float
  /\ cm_ContainerID (NormalizeStats "abc" test_stats) = "abc"
  /\ cm_MemUsedBytes (NormalizeStats "abc" test_stats) = 123
  /\ cm_BlkWriteBytes (NormalizeStats "abc" test_stats) = 8.
Proof. vm_compute. repeat split; reflexivity. Qed.

(** C6 (the code at the failing input): the snapshot [backwards_stats] has
    system_cpu = 100 below presystem_cpu = 200, so sysDelta = -100 <= 0 and
    the claim asks for cpu% = 0.  The code subtracts on [uint64]: sysDelta
    becomes float64(2^64 - 100) > 0, the guard [sysDelta > 0 && cpuDelta >= 0]
    passes, and the result is (50 / 2^64) * 1 * 100, which is not 0. *)
Theorem C6_NormalizeStats_counter_went_backwards :
  SystemCPUUsage (CPUStats backwards_stats) - pre_SystemCPUUsage (PreCPUStats backwards_stats) <= 0
  /\ sysDelta_of backwards_stats = float_of_uint64 (2 ^ 64 - 100)
  /\ float_ltb 0 (sysDelta_of backwards_stats) = true
  /\ cm_CPUPct (NormalizeStats "abc" backwards_stats)
     = (50 / 18446744073709551616 * 1 * 100)%float
  /\ float_eqb (cm_CPUPct (NormalizeStats "abc" backwards_stats)) 0 = false.
Proof.
  split; [vm_compute; discriminate|].
  repeat split; vm_compute; reflexivity.
Qed.

End NormalizeStats.

(** ** The host sampler *)

Section Collect.
Import models collector.

Variables (h : HostCollector) (now : Z).

(** When the CPU read succeeds, every other sub-sample that succeeds is
    carried, whatever happens to the remaining ones. *)
Lemma Collect_ok (rd : Readings) (tot idl : Z) :
  readCPU rd = Ok (tot, idl) ->
  exists m, Collect h now rd = (m, None, {| prevCPU := Some {| total := tot; idle := idl |} |})
            /\ hm_TS m = now.
Proof.
  intros E. unfold Collect. rewrite E. eexists. split; [reflexivity|].
  unfold uptime_step, load_step, disk_step, net_step, mem_step, cpu_step.
  destruct (readUptimeSec rd), (readLoadAvg rd) as [[[? ?] ?]|], (readDiskUsage rd) as [[? ?]|],
    (readNetDev rd) as [[? ?]|], (readMem rd) as [[mt ?]|], (prevCPU h);
    simpl; repeat (match goal with |- context [if ?b then _ else _] => destruct b end);
    reflexivity.
Qed.

Lemma Collect_keeps_mem (rd : Readings) (tot idl memTotal memAvail : Z) :
  readCPU rd = Ok (tot, idl) -> readMem rd = Ok (memTotal, memAvail) -> 0 < memTotal ->
  hm_MemTotalBytes (fst (fst (Collect h now rd))) = to_int64 memTotal
  /\ hm_MemUsedBytes (fst (fst (Collect h now rd))) = to_int64 (wrap64 (memTotal - memAvail)).
Proof.
  intros E1 E2 Hpos. unfold Collect. rewrite E1, E2. simpl.
  apply Z.ltb_lt in Hpos. rewrite Hpos.
  destruct (readUptimeSec rd), (readLoadAvg rd) as [[[? ?] ?]|], (readDiskUsage rd) as [[? ?]|],
    (readNetDev rd) as [[? ?]|]; split; reflexivity.
Qed.

Lemma Collect_keeps_net (rd : Readings) (tot idl rx tx : Z) :
  readCPU rd = Ok (tot, idl) -> readNetDev rd = Ok (rx, tx) ->
  hm_NetRXBytes (fst (fst (Collect h now rd))) = to_int64 rx
  /\ hm_NetTXBytes (fst (fst (Collect h now rd))) = to_int64 tx.
Proof.
  intros E1 E2. unfold Collect. rewrite E1, E2. simpl.
  destruct (readUptimeSec rd), (readLoadAvg rd) as [[[? ?] ?]|], (readDiskUsage rd) as [[? ?]|];
    split; reflexivity.
Qed.

Lemma Collect_keeps_disk (rd : Readings) (tot idl totalDisk usedDisk : Z) :
  readCPU rd = Ok (tot, idl) -> readDiskUsage rd = Ok (totalDisk, usedDisk) ->
  hm_DiskTotalBytes (fst (fst (Collect h now rd))) = to_int64 totalDisk
  /\ hm_DiskUsedBytes (fst (fst (Collect h now rd))) = to_int64 usedDisk.
Proof.
  intros E1 E2. unfold Collect. rewrite E1, E2. simpl.
  destruct (readUptimeSec rd), (readLoadAvg rd) as [[[? ?] ?]|]; split; reflexivity.
Qed.

Lemma Collect_keeps_load (rd : Readings) (tot idl : Z) (l1 l5 l15 : float) :
  readCPU rd = Ok (tot, idl) -> readLoadAvg rd = Ok (l1, l5, l15) ->
  hm_Load1 (fst (fst (Collect h now rd))) = l1
  /\ hm_Load5 (fst (fst (Collect h now rd))) = l5
  /\ hm_Load15 (fst (fst (Collect h now rd))) = l15.
Proof.
  intros E1 E2. unfold Collect. rewrite E1, E2. simpl.
  destruct (readUptimeSec rd); repeat split; reflexivity.
Qed.

Lemma Collect_keeps_uptime (rd : Readings) (tot idl up : Z) :
  readCPU rd = Ok (tot, idl) -> readUptimeSec rd = Ok up ->
  hm_UptimeSec (fst (fst (Collect h now rd))) = up.
Proof.
  intros E1 E2. unfold Collect. rewrite E1, E2. reflexivity.
Qed.


End Collect.

(** ** The repository: retention and upsert *)

Section Repository.
Import models db.


Lemma filter_filter_sub {A : Type} (f g : A -> bool) (l : list A) :
  (forall x, f x = true -> g x = true) ->
  List.filter f (List.filter g l) = List.filter f l.
Proof.
  intros Hfg. induction l as [|a l IH]; simpl; [reflexivity|].
  destruct (g a) eqn:Eg; simpl.
  - destruct (f a); [f_equal|]; exact IH.
  - destruct (f a) eqn:Ef; [|exact IH].
    apply Hfg in Ef. congruence.
Qed.




Lemma existsb_find_some {A : Type} (f : A -> bool) (l : list A) :
  existsb f l = true <-> exists x, List.find f l = Some x.
Proof.
  induction l as [|a l IH]; simpl.
  - split; [discriminate|intros [x H]; discriminate].
  - destruct (f a); simpl; [split; eauto|exact IH].
Qed.

Lemma find_app_none {A : Type} (f : A -> bool) (l1 l2 : list A) :
  existsb f l1 = false -> List.find f (l1 ++ l2) = List.find f l2.
Proof.
  induction l1 as [|a l1 IH]; simpl; [reflexivity|].
  destruct (f a); simpl; [discriminate|exact IH].
Qed.

(** The upsert of a service that is already stored rewrites its row in
    place and keeps [first_seen_at]. *)
Lemma upsert_service_existing (now : Z) (svc : Service) (rows : list ServiceRow) (row : ServiceRow) :
  List.find (fun s => String.eqb (s_id s) (svc_ID svc)) rows = Some row ->
  List.find (fun s => String.eqb (s_id s) (svc_ID svc)) (upsert_service now svc rows)
  = Some {| s_id := s_id row; s_name := svc_Name svc; s_image := svc_Image svc;
            s_labels_json := svc_LabelsJSON svc;
            s_first_seen_at := s_first_seen_at row; s_last_seen_at := now;
            s_status := svc_Status svc |}.
Proof.
  intros Hf. unfold upsert_service.
  assert (He : existsb (fun s => String.eqb (s_id s) (svc_ID svc)) rows = true)
    by (apply existsb_find_some; eauto).
  rewrite He. clear He.
  induction rows as [|a rows IH]; simpl in *; [discriminate|].
  destruct (String.eqb (s_id a) (svc_ID svc)) eqn:E; simpl.
  - rewrite E. congruence.
  - rewrite E. apply IH. exact Hf.
Qed.

Lemma upsert_service_exists (now : Z) (svc : Service) (rows : list ServiceRow) :
  existsb (fun s => String.eqb (s_id s) (svc_ID svc)) (upsert_service now svc rows) = true.
Proof.
  unfold upsert_service.
  destruct (existsb _ rows) eqn:He.
  - induction rows as [|a rows IH]; simpl in *; [discriminate|].
    destruct (String.eqb (s_id a) (svc_ID svc)) eqn:E; simpl.
    + rewrite E. reflexivity.
    + rewrite E. simpl. apply IH. exact He.
  - rewrite existsb_app. simpl. rewrite String.eqb_refl, orb_true_r. reflexivity.
Qed.

(** After its upsert a container is stored with [last_seen_at = now]. *)
Lemma upsert_container_last_seen (now : Z) (c : Container) (rows : list Container) :
  exists crow,
    List.find (fun x => String.eqb (c_ID x) (c_ID c)) (upsert_container now c rows) = Some crow
    /\ c_LastSeenAt crow = now /\ c_ID crow = c_ID c
    /\ c_RestartCount crow = c_RestartCount c /\ c_Status crow = c_Status c.
Proof.
  unfold upsert_container.
  destruct (existsb _ rows) eqn:He.
  - induction rows as [|a rows IH]; simpl in *; [discriminate|].
    destruct (String.eqb (c_ID a) (c_ID c)) eqn:E; simpl.
    + rewrite E. eexists. split; [reflexivity|]. simpl.
      apply String.eqb_eq in E. auto.
    + rewrite E. apply IH. exact He.
  - rewrite find_app_none by exact He. simpl. rewrite String.eqb_refl.
    eexists. split; [reflexivity|]. simpl. auto.
Qed.

Lemma upsert_service_keeps_ids (now : Z) (svc : Service) (rows : list ServiceRow) (id : string) :
  existsb (fun s => String.eqb (s_id s) id) rows = true ->
  existsb (fun s => String.eqb (s_id s) id) (upsert_service now svc rows) = true.
Proof.
  intros H. unfold upsert_service.
  destruct (existsb (fun s => String.eqb (s_id s) (svc_ID svc)) rows).
  - induction rows as [|a rows IH]; simpl in *; [discriminate|].
    apply orb_true_iff in H as [H|H]; apply orb_true_iff.
    + left. destruct (String.eqb (s_id a) (svc_ID svc)); simpl; exact H.
    + right. apply IH. exact H.
  - rewrite existsb_app, H. reflexivity.
Qed.

(** C8: for a service that is already stored, the upsert of a (service,
    container) pair keeps the service's first_seen_at and sets its
    last_seen_at to the current time; the container of the pair (its
    service_id is the service's id, or that of another stored service) is
    stored with last_seen_at at the current time too, and the call returns
    no error. *)
Theorem C8_UpsertServiceAndContainer_first_seen
    (now : Z) (svc : Service) (c : Container) (d : DB) (row : ServiceRow) :
  get_service d (svc_ID svc) = Some row ->
  let d' := fst (UpsertServiceAndContainer now svc c d) in
  (exists row', get_service d' (svc_ID svc) = Some row'
                /\ s_first_seen_at row' = s_first_seen_at row
                /\ s_last_seen_at row' = now)
  /\ (c_ServiceID c = svc_ID svc \/ service_exists d (c_ServiceID c) = true ->
      snd (UpsertServiceAndContainer now svc c d) = None
      /\ exists crow, get_container d' (c_ID c) = Some crow /\ c_LastSeenAt crow = now).
Proof.
  intros Hrow. unfold UpsertServiceAndContainer, get_service, get_container in *.
  pose proof (upsert_service_existing now svc (services d) row Hrow) as Hs.
  pose proof (upsert_service_exists now svc (services d)) as He.
  split.
  - eexists. split; [|split].
    + destruct (service_exists _ (c_ServiceID c)); simpl; exact Hs.
    + reflexivity.
    + reflexivity.
  - intros Hpair.
    assert (Hfk : service_exists (set_services d (upsert_service now svc (services d)))
                    (c_ServiceID c) = true).
    { unfold service_exists in *. simpl. destruct Hpair as [E|E].
      - rewrite E. exact He.
      - apply upsert_service_keeps_ids. exact E. }
    rewrite Hfk. simpl.
    split; [reflexivity|].
    destruct (upsert_container_last_seen now c (containers d)) as (crow & Hf & Hl & _).
    exists crow. split; assumption.
Qed.

(** C8, at the rows of the repository's tests: "svc" was first seen at
    time 5 and is seen again at time 9 with the container "c1". *)
Lemma C8_witness :
  (exists row',
     get_service
       (fst (UpsertServiceAndContainer 9 (mkService "svc" "svc" "img" "{}" "running")
               (mkContainer "c1" "svc" "c1" "running" None 0 0)
               (fst (UpsertServiceAndContainer 5 (mkService "svc" "svc" "img" "{}" "running")
                       (mkContainer "c1" "svc" "c1" "running" None 0 0) Migrate)))) "svc"
     = Some row'
     /\ s_first_seen_at row' = 5 /\ s_last_seen_at row' = 9)
  /\ exists crow,
       get_container
         (fst (UpsertServiceAndContainer 9 (mkService "svc" "svc" "img" "{}" "running")
                 (mkContainer "c1" "svc" "c1" "running" None 0 0)
                 (fst (UpsertServiceAndContainer 5 (mkService "svc" "svc" "img" "{}" "running")
                         (mkContainer "c1" "svc" "c1" "running" None 0 0) Migrate)))) "c1"
       = Some crow
       /\ c_LastSeenAt crow = 9.
Proof.
  destruct (C8_UpsertServiceAndContainer_first_seen 9
              (mkService "svc" "svc" "img" "{}" "running")
              (mkContainer "c1" "svc" "c1" "running" None 0 0)
              (fst (UpsertServiceAndContainer 5 (mkService "svc" "svc" "img" "{}" "running")
                      (mkContainer "c1" "svc" "c1" "running" None 0 0) Migrate))
              (mkServiceRow "svc" "svc" "img" "{}" 5 5 "running")
              eq_refl) as [H1 H2].
  split; [exact H1|].
  destruct (H2 (or_introl eq_refl)) as [_ H3]. exact H3.
Defined.

End Repository.

(** ** The alert engine *)

Section AlertEngine.
Import models db alerts.

Variable now : nat -> Z.
Variable transport : nat -> option string.
Variable new_request : string -> option string.
Variable e : Engine.

(** *** What a notification touches *)

Lemma InsertNotificationEvent_frame (alertID : Z) (channel status : string) (attempts : Z)
    (lastErr : string) (sent : option Z) (d : DB) :
  let d' := fst (InsertNotificationEvent alertID channel status attempts lastErr sent d) in
  alerts d' = alerts d /\ alerts_seq d' = alerts_seq d /\ alert_states d' = alert_states d
  /\ alert_rules d' = alert_rules d.
Proof.
  unfold InsertNotificationEvent. destruct (alert_exists d alertID); simpl; auto.
Qed.

Lemma InsertNotificationEvent_missing_alert (alertID : Z) (channel status : string)
    (attempts : Z) (lastErr : string) (sent : option Z) (d : DB) :
  alert_exists d alertID = false ->
  InsertNotificationEvent alertID channel status attempts lastErr sent d = (d, Some ErrForeignKey).
Proof.
  intros H. unfold InsertNotificationEvent. rewrite H. reflexivity.
Qed.

Lemma with_db_same (w : World) : with_db w (w_db w) = w.
Proof. destruct w; reflexivity. Qed.

Lemma send_loop_frame (left : nat) (attempts : Z) (lastErr : string) (t : Telegram)
    (alertID : Z) (msg : Text) (w : World) :
  let w' := send_loop now transport new_request left attempts lastErr t alertID msg w in
  alerts (w_db w') = alerts (w_db w) /\ alerts_seq (w_db w') = alerts_seq (w_db w)
  /\ alert_states (w_db w') = alert_states (w_db w)
  /\ alert_rules (w_db w') = alert_rules (w_db w).
Proof.
  revert attempts lastErr w. induction left as [|left IH]; intros attempts lastErr w; simpl.
  - apply InsertNotificationEvent_frame.
  - unfold Send. destruct (Enabled t).
    + destruct (new_request (sendMessage_url t)) as [rerr|];
        [apply (IH (attempts + 1) rerr w)|].
      destruct (transport (length (w_outbox w))) as [err|]; simpl.
      * apply (IH (attempts + 1) err
                 {| w_db := w_db w; w_clock := w_clock w;
                    w_outbox := w_outbox w ++ [(msg, Some err)] |}).
      * apply InsertNotificationEvent_frame.
    + apply (IH (attempts + 1) "telegram not configured" w).
Qed.

(** A notification for an alert id that is not in [alerts] (the engine
    passes 0 for a recovery) leaves [notification_events] as it was: the
    insert breaks the foreign key on [alert_id] and its error is dropped. *)
Lemma send_loop_missing_alert (left : nat) (attempts : Z) (lastErr : string) (t : Telegram)
    (alertID : Z) (msg : Text) (w : World) :
  alert_exists (w_db w) alertID = false ->
  w_db (send_loop now transport new_request left attempts lastErr t alertID msg w) = w_db w.
Proof.
  revert attempts lastErr w. induction left as [|left IH]; intros attempts lastErr w H; simpl.
  - rewrite InsertNotificationEvent_missing_alert by exact H. reflexivity.
  - unfold Send. destruct (Enabled t).
    + destruct (new_request (sendMessage_url t)) as [rerr|];
        [apply (IH (attempts + 1) rerr w); exact H|].
      destruct (transport (length (w_outbox w))) as [err|]; simpl.
      * apply (IH (attempts + 1) err
                 {| w_db := w_db w; w_clock := w_clock w;
                    w_outbox := w_outbox w ++ [(msg, Some err)] |}). exact H.
      * rewrite InsertNotificationEvent_missing_alert by exact H. reflexivity.
    + apply (IH (attempts + 1) "telegram not configured" w). exact H.
Qed.

(** A notification for a stored alert records exactly one event, tagged
    with the alert's id. *)
Lemma send_loop_records_one (left : nat) (attempts : Z) (lastErr : string) (t : Telegram)
    (alertID : Z) (msg : Text) (w : World) :
  alert_exists (w_db w) alertID = true ->
  exists ev,
    notification_events (w_db (send_loop now transport new_request left attempts lastErr t alertID msg w))
    = (notification_events (w_db w) ++ [ev])%list
    /\ ne_alert_id ev = alertID.
Proof.
  revert attempts lastErr w. induction left as [|left IH]; intros attempts lastErr w H; simpl.
  - unfold InsertNotificationEvent. rewrite H. simpl. eexists. split; reflexivity.
  - unfold Send. destruct (Enabled t).
    + destruct (new_request (sendMessage_url t)) as [rerr|];
        [apply (IH (attempts + 1) rerr w); exact H|].
      destruct (transport (length (w_outbox w))) as [err|]; simpl.
      * apply (IH (attempts + 1) err
                 {| w_db := w_db w; w_clock := w_clock w;
                    w_outbox := w_outbox w ++ [(msg, Some err)] |}). exact H.
      * unfold InsertNotificationEvent. rewrite H. simpl. eexists. split; reflexivity.
    + apply (IH (attempts + 1) "telegram not configured" w). exact H.
Qed.

(** Every request a notification posts carries its message. *)
Lemma send_loop_outbox (left : nat) (attempts : Z) (lastErr : string) (t : Telegram)
    (alertID : Z) (msg : Text) (w : World) :
  exists posted,
    w_outbox (send_loop now transport new_request left attempts lastErr t alertID msg w)
    = (w_outbox w ++ posted)%list
    /\ Forall (fun p => fst p = msg) posted
    /\ (length posted <= left)%nat
    /\ (Enabled t = true -> new_request (sendMessage_url t) = None -> left <> O ->
        posted <> []).
Proof.
  revert attempts lastErr w. induction left as [|left IH]; intros attempts lastErr w; simpl.
  - exists []. rewrite app_nil_r.
    split; [reflexivity|]. split; [constructor|]. split; [simpl; lia|]. intros _ _ H. congruence.
  - unfold Send. destruct (Enabled t) eqn:En.
    + destruct (new_request (sendMessage_url t)) as [rerr|] eqn:Erq.
      { destruct (IH (attempts + 1) rerr w) as (posted & Ho & Hall & Hlen & _).
        exists posted.
        split; [exact Ho|]. split; [exact Hall|]. split; [simpl; lia|].
        intros _ H. discriminate. }
      destruct (transport (length (w_outbox w))) as [err|]; simpl.
      * destruct (IH (attempts + 1) err
                    {| w_db := w_db w; w_clock := w_clock w;
                       w_outbox := (w_outbox w ++ [(msg, Some err)])%list |})
          as (posted & Ho & Hall & Hlen & _).
        exists ((msg, Some err) :: posted). simpl in Ho. rewrite Ho, <- app_assoc. simpl.
        split; [reflexivity|]. split; [constructor; [reflexivity|exact Hall]|].
        split; [simpl; lia|]. intros _ _ _. discriminate.
      * exists [(msg, None)].
        split; [reflexivity|]. split; [constructor; [reflexivity|constructor]|].
        split; [simpl; lia|]. intros _ _ _. discriminate.
    + destruct (IH (attempts + 1) "telegram not configured" w) as (posted & Ho & Hall & Hlen & _).
      exists posted.
      split; [exact Ho|]. split; [exact Hall|]. split; [simpl; lia|]. intros H. discriminate.
Qed.

(** *** The firing transition *)

Lemma existsb_app_r {A : Type} (f : A -> bool) (l : list A) (x : A) :
  f x = true -> existsb f (l ++ [x]) = true.
Proof.
  intros H. rewrite existsb_app. simpl. rewrite H, orb_true_r. reflexivity.
Qed.

Lemma fire_spec (ruleID : Z) (target label : string) (rule : AlertRule) (value : float)
    (t since : Z) (w : World) :
  rule_exists (w_db w) ruleID = true ->
  let w' := fire now transport new_request e ruleID target label rule value t since w in
  alerts (w_db w') = (alerts (w_db w) ++ [firing_row (w_db w) ruleID target label rule value t])%list
  /\ alerts_seq (w_db w') = alerts_seq (w_db w) + 1
  /\ alert_rules (w_db w') = alert_rules (w_db w)
  /\ alert_states (w_db w')
     = <[ (ruleID, target) :=
            {| as_state := "FIRING"; as_since_ts := since; as_last_fired_ts := Some t;
               as_last_recovered_ts := None |} ]> (alert_states (w_db w))
  /\ (exists ev, notification_events (w_db w') = (notification_events (w_db w) ++ [ev])%list
                 /\ ne_alert_id ev = alerts_seq (w_db w) + 1)
  /\ (exists posted, w_outbox w' = (w_outbox w ++ posted)%list
                     /\ Forall (fun p => fst p = AlertText (r_Name rule) label value
                                                  (r_Operator rule) (r_Threshold rule)) posted).
Proof.
  intros Hr w'. subst w'. unfold fire, CreateAlert. rewrite Hr.
  unfold sendNotification.
  set (msg := AlertText (r_Name rule) label value (r_Operator rule) (r_Threshold rule)).
  set (w1 := with_db w _).
  destruct (send_loop_frame 3 0 "" (notify e) (alerts_seq (w_db w) + 1) msg w1)
    as (Ha & Hs & Hst & Hru).
  destruct (send_loop_records_one 3 0 "" (notify e) (alerts_seq (w_db w) + 1) msg w1)
    as (ev & Hev & Hid).
  { unfold alert_exists. simpl. apply existsb_app_r. simpl. apply Z.eqb_refl. }
  destruct (send_loop_outbox 3 0 "" (notify e) (alerts_seq (w_db w) + 1) msg w1)
    as (posted & Ho & Hall & _).
  set (w2 := send_loop now transport new_request 3 0 "" (notify e) (alerts_seq (w_db w) + 1) msg w1) in *.
  unfold with_db at 1 2 3 4 5 6. cbn [w_db w_outbox].
  unfold UpsertAlertState, rule_exists. rewrite Hru. simpl.
  unfold rule_exists in Hr. rewrite Hr. simpl.
  rewrite Ha, Hs, Hst. simpl.
  split; [reflexivity|]. split; [reflexivity|]. split; [exact Hru|]. split; [reflexivity|].
  split.
  - exists ev. split; [exact Hev|exact Hid].
  - exists posted. split; [exact Ho|exact Hall].
Qed.

(** *** One evaluation, transition by transition *)

Lemma alert_exists_close (d : DB) (ruleID : Z) (target : string) (t id : Z) :
  alert_exists (CloseAlert ruleID target t d) id = alert_exists d id.
Proof.
  unfold alert_exists, CloseAlert. simpl.
  induction (alerts d) as [|a l IH]; simpl; [reflexivity|].
  rewrite IH. f_equal. unfold close_row.
  destruct (_ && _); reflexivity.
Qed.

(** OK (or no row) to FIRING, for a rule without pending time. *)
Lemma evalTarget_fires_from_fresh (ruleID : Z) (target label : string) (rule : AlertRule)
    (value : float) (w : World) :
  GetAlertState ruleID target (w_db w) = None ->
  r_ForSeconds rule <= 0 ->
  compare value (r_Operator rule) (r_Threshold rule) = true ->
  evalTarget now transport new_request e ruleID target label rule value w
  = fire now transport new_request e ruleID target label rule value (now (w_clock w)) (now (w_clock w))
      (snd (tick now w)).
Proof.
  intros Hst Hfor Hc. unfold evalTarget.
  rewrite (compare_true_not_nan _ _ _ Hc), Hc. cbn [tick fst snd w_db].
  rewrite Hst. cbn.
  apply Z.leb_le in Hfor. rewrite Hfor. reflexivity.
Qed.

(** FIRING to OK. *)
Lemma evalTarget_recovers (ruleID : Z) (target label : string) (rule : AlertRule)
    (value : float) (w : World) (st : AlertState) :
  GetAlertState ruleID target (w_db w) = Some st ->
  as_state st = "FIRING" ->
  PrimFloat.is_nan value = false ->
  compare value (r_Operator rule) (r_Threshold rule) = false ->
  rule_exists (w_db w) ruleID = true ->
  alert_exists (w_db w) 0 = false ->
  let t := now (w_clock w) in
  let w' := evalTarget now transport new_request e ruleID target label rule value w in
  alerts (w_db w') = List.map (close_row ruleID target t) (alerts (w_db w))
  /\ alerts_seq (w_db w') = alerts_seq (w_db w)
  /\ alert_rules (w_db w') = alert_rules (w_db w)
  /\ alert_states (w_db w')
     = <[ (ruleID, target) :=
            {| as_state := "OK"; as_since_ts := t; as_last_fired_ts := as_last_fired_ts st;
               as_last_recovered_ts := Some t |} ]> (alert_states (w_db w))
  /\ notification_events (w_db w') = notification_events (w_db w)
  /\ (exists posted, w_outbox w' = (w_outbox w ++ posted)%list
                     /\ Forall (fun p => fst p = RecoveryText (r_Name rule) label value) posted
                     /\ (Enabled (notify e) = true ->
                         new_request (sendMessage_url (notify e)) = None -> posted <> [])).
Proof.
  intros Hst Hfi Hnan Hc Hr H0 t w'. subst w'. unfold evalTarget.
  rewrite Hnan, Hc. cbn [tick fst snd w_db]. rewrite Hst, Hfi. cbn -[CloseAlert sendNotification UpsertAlertState with_db].
  unfold sendNotification.
  set (w1 := with_db _ (CloseAlert ruleID target _ (w_db w))).
  assert (H1 : alert_exists (w_db w1) 0 = false).
  { unfold w1. cbn [with_db w_db]. rewrite alert_exists_close. exact H0. }
  pose proof (send_loop_missing_alert 3 0 "" (notify e) 0
                (RecoveryText (r_Name rule) label value) w1 H1) as Hdb.
  destruct (send_loop_outbox 3 0 "" (notify e) 0 (RecoveryText (r_Name rule) label value) w1)
    as (posted & Ho & Hall & _ & Hne).
  set (w2 := send_loop now transport new_request 3 0 "" _ 0 _ w1) in *.
  unfold with_db at 1 2 3 4 5 6. cbn [w_db w_outbox].
  rewrite Hdb. unfold w1 at 1 2 3 4 5. cbn [with_db w_db].
  unfold UpsertAlertState, rule_exists. cbn [CloseAlert set_alerts alert_rules].
  unfold rule_exists in Hr. rewrite Hr. cbn.
  split; [reflexivity|]. split; [reflexivity|]. split; [reflexivity|]. split; [reflexivity|].
  split; [reflexivity|].
  exists posted. split; [exact Ho|]. split; [exact Hall|].
  intros En Hrq. apply Hne; [exact En|exact Hrq|discriminate].
Qed.




(** *** Fire, then recover *)

Lemma close_firing_row (d : DB) (ruleID : Z) (target label : string) (rule : AlertRule)
    (value : float) (t t' : Z) :
  close_row ruleID target t' (firing_row d ruleID target label rule value t)
  = {| a_id := alerts_seq d + 1; a_rule_id := ruleID; a_target_fingerprint := target;
       a_status := "recovered"; a_started_ts := t; a_ended_ts := Some t';
       a_summary := AlertText (r_Name rule) label value (r_Operator rule) (r_Threshold rule);
       a_details := (value, label) |}.
Proof.
  unfold close_row, firing_row. simpl.
  rewrite Z.eqb_refl, String.eqb_refl. reflexivity.
Qed.

(** A firing followed by a recovery, for a rule without pending time. *)
Lemma fire_then_recover
    (rule : AlertRule) (target label : string) (v1 v2 : float) (w : World) :
  rule_exists (w_db w) (r_ID rule) = true ->
  r_ForSeconds rule <= 0 ->
  GetAlertState (r_ID rule) target (w_db w) = None ->
  alert_exists (w_db w) 0 = false ->
  0 <= alerts_seq (w_db w) ->
  compare v1 (r_Operator rule) (r_Threshold rule) = true ->
  PrimFloat.is_nan v2 = false ->
  compare v2 (r_Operator rule) (r_Threshold rule) = false ->
  let t1 := now (w_clock w) in
  let w1 := evalTarget now transport new_request e (r_ID rule) target label rule v1 w in
  let t2 := now (w_clock w1) in
  let w2 := evalTarget now transport new_request e (r_ID rule) target label rule v2 w1 in
  let row := firing_row (w_db w) (r_ID rule) target label rule v1 t1 in
  alerts (w_db w1) = (alerts (w_db w) ++ [row])%list
  /\ a_status row = "firing"
  /\ GetAlertState (r_ID rule) target (w_db w1)
     = Some {| as_state := "FIRING"; as_since_ts := t1; as_last_fired_ts := Some t1;
               as_last_recovered_ts := None |}
  /\ alerts (w_db w2)
     = (List.map (close_row (r_ID rule) target t2) (alerts (w_db w))
        ++ [close_row (r_ID rule) target t2 row])%list
  /\ a_status (close_row (r_ID rule) target t2 row) = "recovered"
  /\ a_ended_ts (close_row (r_ID rule) target t2 row) = Some t2
  /\ GetAlertState (r_ID rule) target (w_db w2)
     = Some {| as_state := "OK"; as_since_ts := t2; as_last_fired_ts := Some t1;
               as_last_recovered_ts := Some t2 |}
  /\ notification_events (w_db w2) = notification_events (w_db w1)
  /\ (exists ev, notification_events (w_db w2) = (notification_events (w_db w) ++ [ev])%list
                 /\ ne_alert_id ev = a_id row)
  /\ (exists posted, w_outbox w2 = (w_outbox w1 ++ posted)%list
                     /\ Forall (fun p => fst p = RecoveryText (r_Name rule) label v2) posted
                     /\ (Enabled (notify e) = true ->
                         new_request (sendMessage_url (notify e)) = None -> posted <> []))
  /\ (exists posted, w_outbox w1 = (w_outbox w ++ posted)%list
                     /\ Forall (fun p => fst p = a_summary row) posted)
  /\ rule_exists (w_db w2) (r_ID rule) = true.
Proof.
  intros Hr Hfor Hst H0 Hseq Hc1 Hnan Hc2 t1 w1 t2 w2 row.
  assert (Ew1 : w1 = fire now transport new_request e (r_ID rule) target label rule v1 t1 t1
                       (snd (tick now w))).
  { apply evalTarget_fires_from_fresh; [exact Hst|exact Hfor|exact Hc1]. }
  destruct (fire_spec (r_ID rule) target label rule v1 t1 t1 (snd (tick now w)) Hr)
    as (Ha & Hs & Hru & Hsts & (ev & Hev & Hid) & Hout1).
  rewrite <- Ew1 in Ha, Hs, Hru, Hsts, Hev, Hout1.
  cbn [tick snd w_db w_outbox] in Ha, Hs, Hru, Hsts, Hev, Hid, Hout1.
  assert (Hst1 : GetAlertState (r_ID rule) target (w_db w1)
                 = Some {| as_state := "FIRING"; as_since_ts := t1;
                           as_last_fired_ts := Some t1; as_last_recovered_ts := None |}).
  { unfold GetAlertState. rewrite Hsts. apply lookup_insert_eq. }
  assert (Hr1 : rule_exists (w_db w1) (r_ID rule) = true).
  { unfold rule_exists in *. rewrite Hru. exact Hr. }
  assert (H01 : alert_exists (w_db w1) 0 = false).
  { unfold alert_exists in *. rewrite Ha, existsb_app, H0. simpl.
    rewrite orb_false_r. apply Z.eqb_neq. lia. }
  destruct (evalTarget_recovers (r_ID rule) target label rule v2 w1 _ Hst1 eq_refl Hnan Hc2 Hr1 H01)
    as (Ha2 & _ & Hru2 & Hsts2 & Hev2 & Hout).
  fold t2 w2 in Ha2, Hru2, Hsts2, Hev2, Hout. cbn [as_last_fired_ts] in Hsts2.
  split; [exact Ha|]. split; [reflexivity|]. split; [exact Hst1|].
  split; [rewrite Ha2, Ha, map_app; reflexivity|].
  unfold row. rewrite close_firing_row.
  split; [reflexivity|]. split; [reflexivity|].
  split; [unfold GetAlertState; rewrite Hsts2; apply lookup_insert_eq|].
  split; [exact Hev2|].
  split; [exists ev; rewrite Hev2; split; [exact Hev|exact Hid]|].
  split; [exact Hout|]. split; [exact Hout1|].
  unfold rule_exists in *. rewrite Hru2. exact Hr1.
Qed.

(** C1 (what the code does): for a stored rule with for_seconds = 0 and
    cooldown_seconds = 0 and a target without alert state, an evaluation in
    which the comparison holds appends exactly one alert row, with status
    'firing', and stores the state FIRING; the next evaluation, in which the
    comparison does not hold, turns that row to 'recovered' with ended_ts
    set and stores the state OK.  The recovery message is posted, but no
    notification event is recorded for it: the insert is made with alert id
    0, which no alert row has, so it breaks the foreign key of
    [notification_events.alert_id] and its error is dropped.  After both
    evaluations the only new event is the one of the firing alert. *)
Theorem C1_fire_then_recover_records_no_recovery_event
    (rule : AlertRule) (target label : string) (v1 v2 : float) (w : World) :
  rule_exists (w_db w) (r_ID rule) = true ->
  r_ForSeconds rule = 0 ->
  r_CooldownSeconds rule = 0 ->
  GetAlertState (r_ID rule) target (w_db w) = None ->
  alert_exists (w_db w) 0 = false ->
  0 <= alerts_seq (w_db w) ->
  compare v1 (r_Operator rule) (r_Threshold rule) = true ->
  PrimFloat.is_nan v2 = false ->
  compare v2 (r_Operator rule) (r_Threshold rule) = false ->
  let t1 := now (w_clock w) in
  let w1 := evalTarget now transport new_request e (r_ID rule) target label rule v1 w in
  let t2 := now (w_clock w1) in
  let w2 := evalTarget now transport new_request e (r_ID rule) target label rule v2 w1 in
  let row := firing_row (w_db w) (r_ID rule) target label rule v1 t1 in
  alerts (w_db w1) = (alerts (w_db w) ++ [row])%list
  /\ a_status row = "firing"
  /\ GetAlertState (r_ID rule) target (w_db w1)
     = Some {| as_state := "FIRING"; as_since_ts := t1; as_last_fired_ts := Some t1;
               as_last_recovered_ts := None |}
  /\ alerts (w_db w2)
     = (List.map (close_row (r_ID rule) target t2) (alerts (w_db w))
        ++ [close_row (r_ID rule) target t2 row])%list
  /\ a_status (close_row (r_ID rule) target t2 row) = "recovered"
  /\ a_ended_ts (close_row (r_ID rule) target t2 row) = Some t2
  /\ GetAlertState (r_ID rule) target (w_db w2)
     = Some {| as_state := "OK"; as_since_ts := t2; as_last_fired_ts := Some t1;
               as_last_recovered_ts := Some t2 |}
  /\ notification_events (w_db w2) = notification_events (w_db w1)
  /\ (exists ev, notification_events (w_db w2) = (notification_events (w_db w) ++ [ev])%list
                 /\ ne_alert_id ev = a_id row)
  /\ (exists posted, w_outbox w2 = (w_outbox w1 ++ posted)%list
                     /\ Forall (fun p => fst p = RecoveryText (r_Name rule) label v2) posted
                     /\ (Enabled (notify e) = true ->
                         new_request (sendMessage_url (notify e)) = None -> posted <> [])).
Proof.
  intros Hr Hfor Hcool Hst H0 Hseq Hc1 Hnan Hc2 t1 w1 t2 w2 row.
  assert (Hfor' : r_ForSeconds rule <= 0) by lia.
  destruct (fire_then_recover rule target label v1 v2 w Hr Hfor' Hst H0 Hseq Hc1 Hnan Hc2)
    as (F1 & F2 & F3 & F4 & F5 & F6 & F7 & F8 & F9 & F10 & _).
  fold t1 w1 t2 w2 row in F1, F2, F3, F4, F5, F6, F7, F8, F9, F10.
  repeat (split; [assumption|]). exact F10.
Qed.

(** *** COOLDOWN *)

(** C10: for a pair whose stored state is COOLDOWN, an evaluation in which
    the comparison holds changes nothing in the store (no state update, no
    alert) and posts no notification, whatever the time and whatever
    last_fired_ts is; after any evaluation the stored state is either the
    same COOLDOWN row or, only when the comparison does not hold, an OK
    row; and when the comparison does not hold (for a value that is a
    number and a rule that is stored) the state does become OK, without a
    notification. *)
Theorem C10_cooldown_only_leaves_for_OK
    (ruleID : Z) (target label : string) (rule : AlertRule) (value : float)
    (w : World) (st : AlertState) :
  GetAlertState ruleID target (w_db w) = Some st ->
  as_state st = "COOLDOWN" ->
  let holds := compare value (r_Operator rule) (r_Threshold rule) in
  let w' := evalTarget now transport new_request e ruleID target label rule value w in
  (holds = true -> w_db w' = w_db w /\ w_outbox w' = w_outbox w)
  /\ (GetAlertState ruleID target (w_db w') = Some st
      \/ (holds = false
          /\ exists st', GetAlertState ruleID target (w_db w') = Some st'
                         /\ as_state st' = "OK"))
  /\ (holds = false -> PrimFloat.is_nan value = false -> rule_exists (w_db w) ruleID = true ->
      GetAlertState ruleID target (w_db w')
      = Some {| as_state := "OK"; as_since_ts := now (w_clock w);
                as_last_fired_ts := as_last_fired_ts st;
                as_last_recovered_ts := Some (now (w_clock w)) |}
      /\ w_outbox w' = w_outbox w).
Proof.
  intros Hst Hcd holds w'. subst holds w'. unfold evalTarget, tick.
  unfold GetAlertState in *. cbn [w_db].
  destruct (PrimFloat.is_nan value) eqn:Hnan.
  { split; [auto|]. split; [left; exact Hst|]. intros _ H. discriminate. }
  rewrite Hst, Hcd.
  destruct (compare value (r_Operator rule) (r_Threshold rule)) eqn:Hc; cbn.
  - split; [auto|]. split; [left; exact Hst|]. intros H. discriminate.
  - unfold UpsertAlertState, CloseAlert, rule_exists. cbn.
    split; [intros H; discriminate|].
    destruct (existsb _ (alert_rules (w_db w))) eqn:Hr; cbn.
    + split.
      * right. split; [reflexivity|]. eexists. split; [apply lookup_insert_eq|reflexivity].
      * intros _ _ _. split; [apply lookup_insert_eq|reflexivity].
    + split; [left; exact Hst|]. intros _ _ H. discriminate.
Qed.


End AlertEngine.

Section AlertEngineWitnesses.
Import models db alerts.

(** C10 at the pair (rule 5, "c1") in COOLDOWN and the value 1, for which
    the comparison [1 >= 1] holds. *)
Lemma C10_witness :
  let holds := compare 1 (r_Operator restart_rule) (r_Threshold restart_rule) in
  let w' := evalTarget test_clock test_transport test_request test_engine 5 "c1" "c1" restart_rule 1
              cooldown_world in
  (holds = true -> w_db w' = w_db cooldown_world /\ w_outbox w' = w_outbox cooldown_world)
  /\ (GetAlertState 5 "c1" (w_db w') = Some cooldown_state
      \/ (holds = false
          /\ exists st', GetAlertState 5 "c1" (w_db w') = Some st' /\ as_state st' = "OK"))
  /\ (holds = false -> PrimFloat.is_nan 1 = false -> rule_exists (w_db cooldown_world) 5 = true ->
      GetAlertState 5 "c1" (w_db w')
      = Some {| as_state := "OK"; as_since_ts := test_clock (w_clock cooldown_world);
                as_last_fired_ts := as_last_fired_ts cooldown_state;
                as_last_recovered_ts := Some (test_clock (w_clock cooldown_world)) |}
      /\ w_outbox w' = w_outbox cooldown_world).
Proof.
  apply (C10_cooldown_only_leaves_for_OK test_clock test_transport test_request test_engine
           5 "c1" "c1" restart_rule 1 cooldown_world cooldown_state).
  - vm_compute. reflexivity.
  - reflexivity.
Defined.

(** C1 at the restart rule of the tests (for_seconds = 0, cooldown_seconds
    = 0), the target "c1", and the values 1 (fires: 1 >= 1) and 0. *)
Lemma C1_witness :
  let w1 := evalTarget test_clock test_transport test_request test_engine 5 "c1" "c1" restart_rule 1
              test_world in
  let w2 := evalTarget test_clock test_transport test_request test_engine 5 "c1" "c1" restart_rule 0 w1 in
  let row := firing_row (w_db test_world) 5 "c1" "c1" restart_rule 1 test_now in
  alerts (w_db w1) = (alerts (w_db test_world) ++ [row])%list
  /\ alerts (w_db w2)
     = (List.map (close_row 5 "c1" test_now) (alerts (w_db test_world))
        ++ [close_row 5 "c1" test_now row])%list
  /\ notification_events (w_db w2) = notification_events (w_db w1).
Proof.
  destruct (C1_fire_then_recover_records_no_recovery_event
              test_clock test_transport test_request test_engine restart_rule "c1" "c1" 1 0 test_world)
    as (F1 & _ & _ & F4 & _ & _ & _ & F8 & _).
  - reflexivity.
  - reflexivity.
  - reflexivity.
  - reflexivity.
  - reflexivity.
  - vm_compute. discriminate.
  - vm_compute. reflexivity.
  - vm_compute. reflexivity.
  - vm_compute. reflexivity.
  - split; [exact F1|]. split; [exact F4|exact F8].
Defined.



(** C3 (the code at the failing input): in the store of the test, the
    first Evaluate of a new engine already creates a firing
    container_restarts alert for "container-new", a container it observes
    for the first time (the engine has no restart count for it and its
    restart count is 0): the loop has just recorded "container-old" as the
    container of the service "svc", and takes the other container of the
    same service for a replacement.  The second Evaluate does the same to
    "container-old".  After the two calls there are two firing
    container_restarts alerts, where the test and the claim expect none;
    the order of the two rows in the table does not matter. *)
Theorem C3_historical_missing_container_fires :
  lastRest test_engine !! "container-new" = None
  /\ lastSvc test_engine !! "svc" = None
  /\ List.map (fun a => (a_target_fingerprint a, a_status a))
       (alerts (w_db (snd (Evaluate test_clock test_transport test_request test_engine historical_world))))
     = [("container-new", "firing")]
  /\ RestartFiringCount
       (w_db (snd (EvaluateTwice test_clock test_transport test_request test_engine historical_world)))
     = 2%nat
  /\ List.map (fun a => (a_target_fingerprint a, a_status a))
       (alerts (w_db (snd (EvaluateTwice test_clock test_transport test_request test_engine historical_world))))
     = [("container-new", "firing"); ("container-old", "firing")]
  /\ RestartFiringCount
       (w_db (snd (EvaluateTwice test_clock test_transport test_request test_engine historical_world_rev)))
     = 2%nat.
Proof.
  repeat split; vm_compute; reflexivity.
Qed.

End AlertEngineWitnesses.

(** ** The message sanitizer *)

Section Sanitizer.
Import gostr logs.

Lemma no_NUL_app (a b : string) : no_NUL (a ++ b) = no_NUL a && no_NUL b.
Proof.
  induction a as [|c a IH]; simpl; [reflexivity|].
  rewrite IH, andb_assoc. reflexivity.
Qed.

Lemma no_NUL_take (n : nat) (s : string) : no_NUL s = true -> no_NUL (take n s) = true.
Proof.
  revert s. induction n as [|n IH]; intros [|c s]; simpl; auto.
  intros H. apply andb_true_iff in H as [H1 H2]. rewrite H1. simpl. apply IH, H2.
Qed.

Lemma no_NUL_drop (n : nat) (s : string) : no_NUL s = true -> no_NUL (drop n s) = true.
Proof.
  revert s. induction n as [|n IH]; intros [|c s]; simpl; auto.
  intros H. apply andb_true_iff in H as [_ H2]. apply IH, H2.
Qed.

Lemma no_NUL_StripNUL (s : string) : no_NUL (StripNUL s) = true.
Proof.
  induction s as [|c s IH]; simpl; [reflexivity|].
  destruct (byte c =? 0) eqn:E; [exact IH|]. simpl. rewrite E, IH. reflexivity.
Qed.

Lemma no_NUL_TrimLeftSpace_go (fuel : nat) (s : string) :
  no_NUL s = true -> no_NUL (TrimLeftSpace_go fuel s) = true.
Proof.
  revert s. induction fuel as [|fuel IH]; intros s H; simpl; [exact H|].
  destruct s as [|c s]; [reflexivity|].
  destruct (DecodeRune (String c s)) as [r wid].
  destruct (IsSpace r); [|exact H].
  apply IH, no_NUL_drop, H.
Qed.

Lemma no_NUL_TrimRightSpace_go (fuel : nat) (s : string) :
  no_NUL s = true -> no_NUL (TrimRightSpace_go fuel s) = true.
Proof.
  revert s. induction fuel as [|fuel IH]; intros s H; simpl; [exact H|].
  destruct s as [|c s]; [reflexivity|].
  destruct (DecodeLastRune (String c s)) as [r wid].
  destruct (IsSpace r); [|exact H].
  apply IH, no_NUL_take, H.
Qed.

Lemma no_NUL_TrimSpace (s : string) : no_NUL s = true -> no_NUL (TrimSpace s) = true.
Proof.
  intros H. unfold TrimSpace, TrimRightSpace, TrimLeftSpace.
  apply no_NUL_TrimRightSpace_go, no_NUL_TrimLeftSpace_go, H.
Qed.

Lemma no_NUL_ToValidUTF8_go (fuel : nat) (s : string) (invalid : bool) (replacement : string) :
  no_NUL s = true -> no_NUL replacement = true ->
  no_NUL (ToValidUTF8_go fuel s invalid replacement) = true.
Proof.
  intros Hs Hr. revert s invalid Hs.
  induction fuel as [|fuel IH]; intros s invalid Hs; simpl; [reflexivity|].
  destruct s as [|c s]; [reflexivity|].
  pose proof Hs as Hs'. simpl in Hs'. apply andb_true_iff in Hs' as [Hc Hrest].
  destruct (byte c <? RuneSelf).
  - simpl. rewrite Hc. simpl. apply IH, Hrest.
  - destruct (DecodeRune (String c s)) as [r wid].
    destruct (wid =? 1)%nat.
    + destruct invalid; [apply IH, Hrest|].
      rewrite no_NUL_app, Hr. simpl. apply IH, Hrest.
    + rewrite no_NUL_app, (no_NUL_take _ _ Hs). simpl.
      apply IH, no_NUL_drop, Hs.
Qed.

Lemma length_take (n : nat) (s : string) : (String.length (take n s) <= n)%nat.
Proof.
  revert s. induction n as [|n IH]; intros [|c s]; simpl; try lia.
  specialize (IH s). lia.
Qed.

(** The two parts of the claim that hold for every input: the output has
    no NUL byte and is at most 4000 bytes long. *)
Lemma sanitizeMessage_no_NUL (msg : string) : no_NUL (sanitizeMessage msg) = true.
Proof.
  unfold sanitizeMessage.
  assert (H : no_NUL (TrimSpace (ToValidUTF8 (StripNUL (TrimSpace msg)) "?")) = true).
  { apply no_NUL_TrimSpace. unfold ToValidUTF8.
    apply no_NUL_ToValidUTF8_go; [apply no_NUL_StripNUL|reflexivity]. }
  destruct (4000 <? len _); [apply no_NUL_take, H|exact H].
Qed.

Lemma sanitizeMessage_length (msg : string) : len (sanitizeMessage msg) <= 4000.
Proof.
  unfold sanitizeMessage.
  destruct (Z.ltb_spec 4000 (len (TrimSpace (ToValidUTF8 (StripNUL (TrimSpace msg)) "?"))))
    as [H|H]; [|exact H].
  unfold len. pose proof (length_take 4000 (TrimSpace (ToValidUTF8 (StripNUL (TrimSpace msg)) "?"))).
  lia.
Qed.

(** C5 (the code at two failing inputs): the clamp [msg[:4000]] is the
    last step and cuts at a byte offset.  [message_cut_in_rune] is valid
    UTF-8, trimmed and 4001 bytes long; its two-byte rune U+00E9 starts at
    byte 3999, so the output ends with the lone byte 0xC3 and is not valid
    UTF-8.  [message_cut_at_space] is cut after the space at byte 3999, so
    the output has trailing whitespace.  (No NUL byte and at most 4000
    bytes do hold for every input: [sanitizeMessage_no_NUL],
    [sanitizeMessage_length].) *)
Theorem C5_sanitizeMessage_clamp_breaks_utf8_and_trim :
  Valid message_cut_in_rune = true
  /\ TrimSpace message_cut_in_rune = message_cut_in_rune
  /\ len message_cut_in_rune = 4001
  /\ sanitizeMessage message_cut_in_rune
     = repeat_byte (chr 97) 3999 ++ String (chr 195) EmptyString
  /\ Valid (sanitizeMessage message_cut_in_rune) = false
  /\ sanitizeMessage message_cut_at_space
     = repeat_byte (chr 97) 3999 ++ String (chr 32) EmptyString
  /\ TrimSpace (sanitizeMessage message_cut_at_space) = repeat_byte (chr 97) 3999
  /\ String.eqb (TrimSpace (sanitizeMessage message_cut_at_space))
                (sanitizeMessage message_cut_at_space) = false.
Proof.
  repeat (split; [vm_compute; reflexivity|]). vm_compute; reflexivity.
Qed.

End Sanitizer.

(** ** The log stream parser *)

Section ParserProperties.
Import models gostr logs.

Variable now : nat -> Z.
Variables serviceID containerID : string.

Lemma byte_chr (z : Z) : 0 <= z < 256 -> byte (chr z) = z.
Proof.
  intros H. unfold byte, chr.
  rewrite Ascii.N_ascii_embedding by lia. lia.
Qed.

Lemma append_cons (x : ascii) (a b : string) : String x a ++ b = String x (a ++ b).
Proof. reflexivity. Qed.

Lemma append_nil (b : string) : EmptyString ++ b = b.
Proof. reflexivity. Qed.

Lemma append_assoc (a b c : string) : (a ++ b) ++ c = a ++ (b ++ c).
Proof.
  induction a as [|x a IH]; rewrite ?append_cons, ?append_nil; [reflexivity|].
  rewrite IH. reflexivity.
Qed.

Lemma length_append (a b : string) :
  String.length (a ++ b) = (String.length a + String.length b)%nat.
Proof.
  induction a as [|x a IH]; rewrite ?append_cons, ?append_nil; [reflexivity|].
  simpl. rewrite IH. reflexivity.
Qed.

Lemma take_append (a b : string) : take (String.length a) (a ++ b) = a.
Proof.
  induction a as [|x a IH]; rewrite ?append_cons, ?append_nil; simpl;
    [destruct b; reflexivity|].
  rewrite IH. reflexivity.
Qed.

Lemma drop_append (a b : string) : drop (String.length a) (a ++ b) = b.
Proof.
  induction a as [|x a IH]; rewrite ?append_cons, ?append_nil; simpl; [reflexivity|exact IH].
Qed.

Lemma testbit_byte_piece (n k i : Z) :
  0 <= k -> 0 <= i ->
  Z.testbit (Z.shiftl (Z.shiftr n k mod 256) k) i
  = (k <=? i) && (i <? k + 8) && Z.testbit n i.
Proof.
  intros Hk Hi. rewrite Z.shiftl_spec by lia.
  destruct (Z.leb_spec k i) as [Hle|Hlt]; simpl.
  - pose proof (Z.mod_pow2_bits_low (Z.shiftr n k) 8 (i - k)) as Hlow.
    pose proof (Z.mod_pow2_bits_high (Z.shiftr n k) 8 (i - k)) as Hhigh.
    change (2 ^ 8) with 256 in Hlow, Hhigh.
    destruct (Z.ltb_spec i (k + 8)) as [Hlo|Hhi]; simpl.
    + rewrite Hlow by lia. rewrite Z.shiftr_spec by lia.
      f_equal. lia.
    + apply Hhigh. lia.
  - apply Z.testbit_neg_r. lia.
Qed.

Lemma be32_recombine (n : Z) :
  0 <= n < 2 ^ 32 ->
  Z.lor (Z.shiftl (Z.shiftr n 24 mod 256) 24)
    (Z.lor (Z.shiftl (Z.shiftr n 16 mod 256) 16)
       (Z.lor (Z.shiftl (Z.shiftr n 8 mod 256) 8) (n mod 256))) = n.
Proof.
  intros Hn. apply Z.bits_inj'. intros i Hi.
  rewrite !Z.lor_spec.
  rewrite !testbit_byte_piece by lia.
  replace (Z.testbit (n mod 256) i) with ((0 <=? i) && (i <? 0 + 8) && Z.testbit n i).
  2:{ rewrite <- (testbit_byte_piece n 0 i) by lia.
      rewrite Z.shiftr_0_r, Z.shiftl_0_r. reflexivity. }
  destruct (Z.ltb_spec i 32) as [Hlt|Hge].
  - destruct (Z.testbit n i); rewrite ?andb_true_r, ?andb_false_r; simpl; [|reflexivity].
    destruct (Z.leb_spec 24 i), (Z.ltb_spec i (24 + 8)), (Z.leb_spec 16 i),
      (Z.ltb_spec i (16 + 8)), (Z.leb_spec 8 i), (Z.ltb_spec i (8 + 8)),
      (Z.leb_spec 0 i), (Z.ltb_spec i (0 + 8));
      simpl; try reflexivity; lia.
  - assert (Hb : Z.testbit n i = false).
    { rewrite <- (Z.mod_small n (2 ^ 32)) by lia. apply Z.mod_pow2_bits_high. lia. }
    rewrite Hb, !andb_false_r. reflexivity.
Qed.

(** Reading back the length a header was written with. *)
Lemma Uint32_PutUint32 (n : Z) (rest : string) :
  0 <= n < 2 ^ 32 -> Uint32 (PutUint32 n ++ rest) = n.
Proof.
  intros Hn. unfold PutUint32. rewrite !append_cons, append_nil. unfold Uint32.
  rewrite !byte_chr by (apply Z.mod_pos_bound; lia).
  apply be32_recombine. exact Hn.
Qed.

Lemma frame_shape (id : Z) (payload rest : string) :
  frame id payload ++ rest
  = String (chr id) (String (chr 0) (String (chr 0) (String (chr 0)
      (PutUint32 (len payload) ++ payload ++ rest)))).
Proof.
  unfold frame. rewrite !append_assoc, !append_cons, append_nil. reflexivity.
Qed.

Lemma PutUint32_shape (n : Z) (tail : string) :
  exists b0 b1 b2 b3,
    PutUint32 n ++ tail = String b0 (String b1 (String b2 (String b3 tail))).
Proof. unfold PutUint32. rewrite !append_cons, append_nil. eauto. Qed.

Lemma stream_of_id (id : Z) :
  id = 1 \/ id = 2 ->
  (if byte (chr id) =? 2 then "stderr" else "stdout") = stream_name id.
Proof.
  intros [E|E]; subst; reflexivity.
Qed.

(** One turn of the loop on a frame with a payload. *)
Lemma frames_go_frame (fuel k : nat) (id : Z) (payload rest : string) (fin : error) :
  frame_ok (id, payload) ->
  frames_go now serviceID containerID (S fuel) k (frame id payload ++ rest) fin
  = (emitEntry (now k) payload (stream_name id) serviceID containerID
       :: fst (frames_go now serviceID containerID fuel (S k) rest fin),
     snd (frames_go now serviceID containerID fuel (S k) rest fin)).
Proof.
  intros [Hid Hlen]. cbn [fst snd] in Hid, Hlen.
  rewrite frame_shape.
  destruct (PutUint32_shape (len payload) (payload ++ rest)) as (b0 & b1 & b2 & b3 & Hput).
  pose proof (Uint32_PutUint32 (len payload) (payload ++ rest)) as Hsize.
  rewrite Hput in Hsize |- *.
  cbn [frames_go String.length Nat.ltb Nat.leb take drop isMultiplexHeader negb String.get].
  assert (Hhdr : ((byte (chr id) =? 1) || (byte (chr id) =? 2)) && (byte (chr 0) =? 0)
                 && (byte (chr 0) =? 0) && (byte (chr 0) =? 0) = true).
  { destruct Hid as [E|E]; subst; reflexivity. }
  rewrite Hhdr. cbn [negb].
  assert (Hsz : Uint32 (String b0 (String b1 (String b2 (String b3 EmptyString)))) = len payload).
  { rewrite <- Hsize by lia. reflexivity. }
  rewrite Hsz.
  destruct (Z.eqb_spec (len payload) 0) as [E|_]; [lia|].
  assert (Hlt : (len (payload ++ rest) <? len payload) = false).
  { apply Z.ltb_ge. unfold len. rewrite length_append. lia. }
  rewrite Hlt.
  unfold len at 1 2. rewrite Nat2Z.id, take_append, drop_append.
  rewrite stream_of_id by exact Hid.
  destruct (frames_go now serviceID containerID fuel (S k) rest fin). reflexivity.
Qed.

(** A frame without payload is skipped. *)
Lemma frames_go_empty_frame (fuel k : nat) (id : Z) (rest : string) (fin : error) :
  id = 1 \/ id = 2 ->
  frames_go now serviceID containerID (S fuel) k (frame id EmptyString ++ rest) fin
  = frames_go now serviceID containerID fuel k rest fin.
Proof.
  intros Hid. destruct Hid as [E|E]; subst; reflexivity.
Qed.

Lemma frames_go_end (fuel k : nat) :
  frames_go now serviceID containerID (S fuel) k EmptyString EOF = ([], None).
Proof. reflexivity. Qed.

Lemma length_frame (id : Z) (payload : string) :
  String.length (frame id payload) = (8 + String.length payload)%nat.
Proof.
  unfold frame, PutUint32. rewrite !append_cons, !append_nil. reflexivity.
Qed.



(** *** Plain streams *)








End ParserProperties.

Section ParserExamples.
Import models gostr logs.



End ParserExamples.

(** ** The repository: further operations *)

Section RepositoryMore.
Import models db repo.





Lemma set_logs_same (d : DB) : set_logs d (logs d) = d.
Proof. destruct d; reflexivity. Qed.

Lemma insert_logs_ok (entries : list LogEntry) (d : DB) :
  forallb (log_refs_ok d) entries = true ->
  insert_logs entries d = Some (set_logs d (logs d ++ entries)).
Proof.
  revert d. induction entries as [|e rest IH]; intros d H; simpl.
  - rewrite app_nil_r, set_logs_same. reflexivity.
  - simpl in H. apply andb_true_iff in H as [He Hrest].
    unfold insert_log. unfold log_refs_ok in He. rewrite He.
    rewrite IH by exact Hrest. simpl. rewrite <- app_assoc. reflexivity.
Qed.

Lemma insert_logs_fail (entries : list LogEntry) (d : DB) :
  forallb (log_refs_ok d) entries = false -> insert_logs entries d = None.
Proof.
  revert d. induction entries as [|e rest IH]; intros d H; simpl in *; [discriminate|].
  unfold insert_log. fold (log_refs_ok d e).
  destruct (log_refs_ok d e); simpl in H; [|reflexivity].
  apply (IH (set_logs d (logs d ++ [e]))). exact H.
Qed.

(** X2: the batched log insert is all or nothing: when every entry names a
    stored service and a stored container, all entries are appended in
    order and no error is returned; otherwise the store is left exactly as
    it was and the error is returned. *)
Theorem InsertLogs_atomic (entries : list LogEntry) (d : DB) :
  InsertLogs entries d
  = if forallb (log_refs_ok d) entries
    then (set_logs d (logs d ++ entries), None)
    else (d, Some ErrForeignKey).
Proof.
  unfold InsertLogs. destruct entries as [|e rest].
  - simpl. rewrite app_nil_r, set_logs_same. reflexivity.
  - destruct (forallb (log_refs_ok d) (e :: rest)) eqn:H.
    + rewrite insert_logs_ok by exact H. reflexivity.
    + rewrite insert_logs_fail by exact H. reflexivity.
Qed.

End RepositoryMore.

Section RepositoryAlerts.
Import models db repo.

Lemma filter_length_split {A : Type} (f : A -> bool) (l : list A) :
  length l = (length (List.filter f l) + length (List.filter (fun x => negb (f x)) l))%nat.
Proof.
  induction l as [|a l IH]; simpl; [reflexivity|].
  destruct (f a); simpl; lia.
Qed.

(** X3: deleting the recovered alerts returns how many rows went, leaves no
    recovered alert behind, and keeps every other alert, in order: the
    firing alerts and the active-alert count are the same as before. *)
Theorem DeleteRecoveredAlerts_spec (d : DB) :
  let d' := fst (DeleteRecoveredAlerts d) in
  let n := snd (DeleteRecoveredAlerts d) in
  Z.of_nat (length (alerts d)) = Z.of_nat (length (alerts d')) + n
  /\ (forall a, In a (alerts d') <-> In a (alerts d) /\ a_status a <> "recovered")
  /\ List.filter is_firing (alerts d') = List.filter is_firing (alerts d)
  /\ ActiveAlertCount d' = ActiveAlertCount d
  /\ alert_states d' = alert_states d.
Proof.
  cbn [DeleteRecoveredAlerts fst snd set_alerts set_notification_events alerts alert_states].
  split.
  { rewrite (filter_length_split is_recovered (alerts d)). lia. }
  split.
  { intros a. rewrite List.filter_In. unfold is_recovered.
    rewrite negb_true_iff. split; intros [H1 H2]; split; auto.
    - intros E. rewrite E in H2. discriminate.
    - destruct (String.eqb_spec (a_status a) "recovered"); [contradiction|reflexivity]. }
  assert (Hf : List.filter is_firing (List.filter (fun a => negb (is_recovered a)) (alerts d))
               = List.filter is_firing (alerts d)).
  { apply filter_filter_sub. intros a Ha. unfold is_firing, is_recovered in *.
    apply String.eqb_eq in Ha. rewrite Ha. reflexivity. }
  split; [exact Hf|]. split; [|reflexivity].
  unfold ActiveAlertCount. cbn [alerts set_alerts set_notification_events]. rewrite Hf. reflexivity.
Qed.

(** X4: the state of a pair reads back as it was written, the other pairs and
    the alerts are untouched; for a rule that is not stored the write
    fails on the foreign key and changes nothing. *)
Theorem UpsertAlertState_round_trip
    (ruleID : Z) (target state : string) (since : Z) (lastFired lastRecovered : option Z)
    (d : DB) :
  let d' := fst (UpsertAlertState ruleID target state since lastFired lastRecovered d) in
  (rule_exists d ruleID = true ->
     GetAlertState ruleID target d'
     = Some {| as_state := state; as_since_ts := since; as_last_fired_ts := lastFired;
               as_last_recovered_ts := lastRecovered |}
     /\ (forall r t, (r, t) <> (ruleID, target) -> GetAlertState r t d' = GetAlertState r t d)
     /\ alerts d' = alerts d)
  /\ (rule_exists d ruleID = false ->
      UpsertAlertState ruleID target state since lastFired lastRecovered d
      = (d, Some ErrForeignKey)).
Proof.
  unfold UpsertAlertState, GetAlertState.
  destruct (rule_exists d ruleID); simpl; split; try discriminate; intros _.
  - split; [apply lookup_insert_eq|]. split; [|reflexivity].
    intros r t Hne. apply lookup_insert_ne. congruence.
  - reflexivity.
Qed.

Lemma close_row_closed (ruleID : Z) (target : string) (t1 t2 : Z) (a : Alert) :
  close_row ruleID target t2 (close_row ruleID target t1 a) = close_row ruleID target t1 a.
Proof.
  unfold close_row.
  destruct ((a_rule_id a =? ruleID) && String.eqb (a_target_fingerprint a) target
            && String.eqb (a_status a) "firing") eqn:E; simpl.
  - rewrite andb_false_r. reflexivity.
  - rewrite E. reflexivity.
Qed.


(** X5: closing the alerts of a pair leaves no firing alert of the pair, sets
    ended_ts on the rows it closes only, leaves every row of another pair
    and every row that is not firing as it was, and is idempotent: a
    second close, at any later time, changes nothing (the first ended_ts
    stays). *)
Theorem CloseAlert_idempotent (ruleID : Z) (target : string) (t1 t2 : Z) (d : DB) :
  CloseAlert ruleID target t2 (CloseAlert ruleID target t1 d) = CloseAlert ruleID target t1 d
  /\ List.filter (fun a => (a_rule_id a =? ruleID) && String.eqb (a_target_fingerprint a) target
                           && is_firing a)
       (alerts (CloseAlert ruleID target t1 d)) = []
  /\ (forall a, In a (alerts d) ->
        (a_rule_id a <> ruleID \/ a_target_fingerprint a <> target \/ a_status a <> "firing") ->
        In a (alerts (CloseAlert ruleID target t1 d)))
  /\ List.map a_id (alerts (CloseAlert ruleID target t1 d)) = List.map a_id (alerts d).
Proof.
  unfold CloseAlert. cbn [set_alerts alerts alerts_seq].
  split.
  { f_equal. rewrite List.map_map. apply List.map_ext. intros a. apply close_row_closed. }
  split.
  { induction (alerts d) as [|a l IH]; simpl; [reflexivity|].
    unfold close_row at 1 2 3. unfold is_firing at 1.
    destruct ((a_rule_id a =? ruleID) && String.eqb (a_target_fingerprint a) target
              && String.eqb (a_status a) "firing") eqn:E; simpl.
    - rewrite andb_false_r. exact IH.
    - rewrite E. exact IH. }
  split.
  { intros a Hin Hother. apply List.in_map_iff. exists a. split; [|exact Hin].
    unfold close_row.
    destruct (Z.eqb_spec (a_rule_id a) ruleID); simpl; [|reflexivity].
    destruct (String.eqb_spec (a_target_fingerprint a) target); simpl; [|reflexivity].
    destruct (String.eqb_spec (a_status a) "firing"); simpl; [|reflexivity].
    destruct Hother as [H|[H|H]]; contradiction. }
  rewrite List.map_map. apply List.map_ext. intros a. unfold close_row.
  destruct (_ && _); reflexivity.
Qed.

End RepositoryAlerts.

Section Seeding.
Import models db repo.


Lemma seed_rule_present (name tt mk op : string) (th : float) (f c : Z) (rs : list AlertRule) :
  existsb (fun r => String.eqb (r_Name r) name) rs = true ->
  seed_rule name tt mk op th f c rs = rs.
Proof. intros H. unfold seed_rule. rewrite H. reflexivity. Qed.

Lemma seed_rule_adds (name tt mk op : string) (th : float) (f c : Z) (rs : list AlertRule) :
  existsb (fun r => String.eqb (r_Name r) name) (seed_rule name tt mk op th f c rs) = true.
Proof.
  unfold seed_rule.
  destruct (existsb (fun r => String.eqb (r_Name r) name) rs) eqn:E; [exact E|].
  rewrite List.existsb_app. simpl. rewrite String.eqb_refl. rewrite orb_true_r. reflexivity.
Qed.

Lemma seed_rule_keeps (name tt mk op : string) (th : float) (f c : Z) (rs : list AlertRule)
    (other : string) :
  existsb (fun r => String.eqb (r_Name r) other) rs = true ->
  existsb (fun r => String.eqb (r_Name r) other) (seed_rule name tt mk op th f c rs) = true.
Proof.
  intros H. unfold seed_rule.
  destruct (existsb (fun r => String.eqb (r_Name r) name) rs); [exact H|].
  rewrite List.existsb_app, H. reflexivity.
Qed.

Lemma seed_rule_prefix (name tt mk op : string) (th : float) (f c : Z) (rs : list AlertRule) :
  exists extra, seed_rule name tt mk op th f c rs = (rs ++ extra)%list
                /\ Forall (fun r => r_Name r = name) extra.
Proof.
  unfold seed_rule.
  destruct (existsb (fun r => String.eqb (r_Name r) name) rs).
  - exists []. rewrite List.app_nil_r. split; [reflexivity|constructor].
  - eexists. split; [reflexivity|]. constructor; [reflexivity|constructor].
Qed.

(** X6: seeding the default rules never touches a stored rule (an edited
    threshold survives a restart): the stored rules stay first, in order,
    and only rules with a default name are added; afterwards every
    default name is present, so seeding a second time changes nothing; on
    a new store it gives the five default rules with ids 1 to 5. *)
Theorem seedDefaultRules_idempotent (d : DB) :
  (exists extra, alert_rules (seedDefaultRules d) = (alert_rules d ++ extra)%list
     /\ Forall (fun r => In (r_Name r) ["Host CPU high"; "Host memory high"; "Host disk high";
                                        "Container unavailable"; "Container restarted"]) extra)
  /\ seedDefaultRules (seedDefaultRules d) = seedDefaultRules d
  /\ seedDefaultRules empty_db = Migrate.
Proof.
  split; [|split; [|reflexivity]].
  - unfold seedDefaultRules. cbn [alert_rules set_alert_rules].
    set (r0 := alert_rules d).
    destruct (seed_rule_prefix "Host CPU high" "host" "host_cpu_pct" ">" 90 120 600 r0)
      as (x1 & E1 & F1). rewrite E1.
    destruct (seed_rule_prefix "Host memory high" "host" "host_mem_pct" ">" 90 120 600 (r0 ++ x1))
      as (x2 & E2 & F2). rewrite E2.
    destruct (seed_rule_prefix "Host disk high" "host" "host_disk_pct" ">" 85 300 1800
                ((r0 ++ x1) ++ x2)) as (x3 & E3 & F3). rewrite E3.
    destruct (seed_rule_prefix "Container unavailable" "container" "container_unavailable" ">="
                1 60 600 (((r0 ++ x1) ++ x2) ++ x3)) as (x4 & E4 & F4). rewrite E4.
    destruct (seed_rule_prefix "Container restarted" "container" "container_restarts" ">="
                1 0 60 ((((r0 ++ x1) ++ x2) ++ x3) ++ x4)) as (x5 & E5 & F5). rewrite E5.
    exists (x1 ++ x2 ++ x3 ++ x4 ++ x5)%list. split.
    + rewrite <- !List.app_assoc. reflexivity.
    + rewrite !List.Forall_app.
      repeat split; eapply List.Forall_impl; try eassumption;
        intros a Ha; cbn beta in Ha; rewrite Ha; simpl; tauto.
  - unfold seedDefaultRules at 1. 
    set (rs := alert_rules (seedDefaultRules d)).
    assert (H1 : existsb (fun r => String.eqb (r_Name r) "Host CPU high") rs = true).
    { subst rs. unfold seedDefaultRules. cbn [alert_rules set_alert_rules].
      do 4 apply seed_rule_keeps. apply seed_rule_adds. }
    assert (H2 : existsb (fun r => String.eqb (r_Name r) "Host memory high") rs = true).
    { subst rs. unfold seedDefaultRules. cbn [alert_rules set_alert_rules].
      do 3 apply seed_rule_keeps. apply seed_rule_adds. }
    assert (H3 : existsb (fun r => String.eqb (r_Name r) "Host disk high") rs = true).
    { subst rs. unfold seedDefaultRules. cbn [alert_rules set_alert_rules].
      do 2 apply seed_rule_keeps. apply seed_rule_adds. }
    assert (H4 : existsb (fun r => String.eqb (r_Name r) "Container unavailable") rs = true).
    { subst rs. unfold seedDefaultRules. cbn [alert_rules set_alert_rules].
      apply seed_rule_keeps. apply seed_rule_adds. }
    assert (H5 : existsb (fun r => String.eqb (r_Name r) "Container restarted") rs = true).
    { subst rs. unfold seedDefaultRules. cbn [alert_rules set_alert_rules].
      apply seed_rule_adds. }
    cbv zeta.
    rewrite (seed_rule_present _ _ _ _ _ _ _ _ H1).
    rewrite (seed_rule_present _ _ _ _ _ _ _ _ H2).
    rewrite (seed_rule_present _ _ _ _ _ _ _ _ H3).
    rewrite (seed_rule_present _ _ _ _ _ _ _ _ H4).
    rewrite (seed_rule_present _ _ _ _ _ _ _ _ H5).
    subst rs. unfold seedDefaultRules. cbn [alert_rules set_alert_rules]. reflexivity.
Qed.

End Seeding.

Section Retention.
Import models db repo.





(** X7: the retention delete takes the notification events of the alerts it
    deletes with them, and no other event: an event stays exactly when no
    deleted alert has its alert id. *)
Theorem DeleteOlderThan_cascade (cutoff : Z) (d : DB) (e : NotificationEvent) :
  In e (notification_events (fst (DeleteOlderThan cutoff d)))
  <-> In e (notification_events d)
      /\ forall a, In a (alerts d) -> a_id a = ne_alert_id e ->
                   In a (alerts (fst (DeleteOlderThan cutoff d))).
Proof.
  cbn [DeleteOlderThan fst set_host_metrics set_container_metrics set_logs set_alerts
       set_notification_events host_metrics container_metrics logs alerts notification_events].
  rewrite List.filter_In, negb_true_iff.
  split; intros [Hin H]; (split; [exact Hin|]).
  - intros a Ha Hid. apply List.filter_In. split; [exact Ha|].
    destruct (expired_alert cutoff a) eqn:E; [|reflexivity].
    exfalso. apply Bool.not_true_iff_false in H. apply H.
    apply List.existsb_exists. exists a. split; [apply List.filter_In; auto|].
    apply Z.eqb_eq. exact Hid.
  - apply Bool.not_true_iff_false. intros Hex.
    apply List.existsb_exists in Hex. destruct Hex as (a & Ha & Hid).
    apply List.filter_In in Ha. destruct Ha as [Ha Hexp].
    apply Z.eqb_eq in Hid. specialize (H a Ha Hid).
    apply List.filter_In in H. destruct H as [_ H]. rewrite Hexp in H. discriminate.
Qed.




End Retention.

Section StoreKeys.
Import models db repo invariants.

Lemma existsb_false_not_in {A : Type} (key : A -> string) (id : string) (rows : list A) :
  existsb (fun x => String.eqb (key x) id) rows = false -> ~ In id (List.map key rows).
Proof.
  induction rows as [|a rows IH]; simpl; [tauto|].
  rewrite orb_false_iff. intros [H1 H2] [H|H]; [|exact (IH H2 H)].
  rewrite H, String.eqb_refl in H1. discriminate.
Qed.

Lemma NoDup_snoc {A : Type} (l : list A) (x : A) :
  List.NoDup l -> ~ In x l -> List.NoDup (l ++ [x]).
Proof.
  intros Hl. induction Hl as [|a l Ha Hl IH]; intros Hx; simpl.
  - constructor; [intros []|constructor].
  - constructor.
    + rewrite List.in_app_iff. simpl. intros [H|[H|[]]]; [exact (Ha H)|].
      apply Hx. left. symmetry. exact H.
    + apply IH. intros H. apply Hx. right. exact H.
Qed.

Lemma upsert_service_ids (now : Z) (svc : Service) (rows : list ServiceRow) :
  List.map s_id (upsert_service now svc rows)
  = if existsb (fun s => String.eqb (s_id s) (svc_ID svc)) rows
    then List.map s_id rows else (List.map s_id rows ++ [svc_ID svc])%list.
Proof.
  unfold upsert_service.
  destruct (existsb (fun s => String.eqb (s_id s) (svc_ID svc)) rows).
  - rewrite List.map_map. apply List.map_ext. intros s.
    destruct (String.eqb (s_id s) (svc_ID svc)); reflexivity.
  - rewrite List.map_app. reflexivity.
Qed.

Lemma upsert_container_ids (now : Z) (c : Container) (rows : list Container) :
  List.map c_ID (upsert_container now c rows)
  = if existsb (fun x => String.eqb (c_ID x) (c_ID c)) rows
    then List.map c_ID rows else (List.map c_ID rows ++ [c_ID c])%list.
Proof.
  unfold upsert_container.
  destruct (existsb (fun x => String.eqb (c_ID x) (c_ID c)) rows).
  - rewrite List.map_map. apply List.map_ext. intros x.
    destruct (String.eqb (c_ID x) (c_ID c)); reflexivity.
  - rewrite List.map_app. reflexivity.
Qed.

Lemma upsert_container_rows (now : Z) (c : Container) (rows : list Container) (x : Container) :
  In x (upsert_container now c rows) ->
  (In x rows /\ c_ID x <> c_ID c)
  \/ (c_ID x = c_ID c /\ c_ServiceID x = c_ServiceID c /\ c_Status x = c_Status c
      /\ c_LastSeenAt x = now /\ c_RestartCount x = c_RestartCount c).
Proof.
  unfold upsert_container.
  destruct (existsb (fun y => String.eqb (c_ID y) (c_ID c)) rows) eqn:He.
  - rewrite List.in_map_iff. intros (y & Hy & Hin).
    destruct (String.eqb_spec (c_ID y) (c_ID c)) as [E|E]; subst x.
    + right. simpl. auto.
    + left. auto.
  - rewrite List.in_app_iff. simpl. intros [H|[H|[]]].
    + left. split; [exact H|]. intros E.
      apply (existsb_false_not_in c_ID _ _ He). rewrite <- E. apply List.in_map. exact H.
    + right. subst x. simpl. auto.
Qed.

Lemma NoDup_upsert (ids : list string) (id : string) (A : Type) (key : A -> string)
    (rows : list A) :
  ids = List.map key rows ->
  List.NoDup ids ->
  List.NoDup (if existsb (fun x => String.eqb (key x) id) rows then ids else (ids ++ [id])%list).
Proof.
  intros -> Hn. destruct (existsb _ rows) eqn:E; [exact Hn|].
  apply NoDup_snoc; [exact Hn|]. apply existsb_false_not_in. exact E.
Qed.

Lemma upsert_keys_ok (now : Z) (svc : Service) (c : Container) (d : DB) :
  keys_ok d -> keys_ok (fst (UpsertServiceAndContainer now svc c d)).
Proof.
  intros (Hs & Hc & Hf).
  unfold UpsertServiceAndContainer.
  set (d1 := set_services d (upsert_service now svc (services d))).
  assert (Hs1 : List.NoDup (List.map s_id (services d1))).
  { subst d1. cbn [services set_services]. rewrite upsert_service_ids.
    apply NoDup_upsert; [reflexivity|exact Hs]. }
  assert (Hf1 : Forall (fun x => service_exists d1 (c_ServiceID x) = true) (containers d)).
  { eapply List.Forall_impl; [|exact Hf]. intros x Hx. subst d1.
    unfold service_exists in *. cbn [services set_services].
    apply upsert_service_keeps_ids. exact Hx. }
  destruct (service_exists d1 (c_ServiceID c)) eqn:Efk; cbn [fst].
  - split; [exact Hs1|]. split.
    + cbn [containers set_containers]. rewrite upsert_container_ids.
      apply NoDup_upsert; [reflexivity|exact Hc].
    + cbn [containers set_containers]. apply List.Forall_forall. intros x Hx.
      unfold service_exists. cbn [services set_containers set_services].
      apply upsert_container_rows in Hx. destruct Hx as [[Hx _]|(_ & Hx & _)].
      * rewrite List.Forall_forall in Hf1. exact (Hf1 x Hx).
      * rewrite Hx. exact Efk.
  - split; [exact Hs1|]. split; [exact Hc|exact Hf1].
Qed.

Lemma mark_missing_keys_ok (seenIDs : list string) (d : DB) :
  keys_ok d -> keys_ok (fst (MarkMissingContainers seenIDs d)).
Proof.
  intros Hk. unfold MarkMissingContainers.
  destruct (MaxVariableNumber <? Z.of_nat (length seenIDs)); [exact Hk|]. cbn [fst].
  destruct Hk as (Hs & Hc & Hf).
  split; [|split].
  - destruct seenIDs; exact Hs.
  - assert (E : List.map c_ID (containers (mark_missing seenIDs d))
                = List.map c_ID (containers d)).
    { destruct seenIDs; cbn [mark_missing containers set_containers];
        rewrite List.map_map; apply List.map_ext; intros x;
        match goal with |- context [if ?b then _ else _] => destruct b end; reflexivity. }
    rewrite E. exact Hc.
  - apply List.Forall_forall. intros x Hx.
    assert (Hy : exists y, In y (containers d) /\ c_ServiceID x = c_ServiceID y).
    { destruct seenIDs; cbn [mark_missing containers set_containers] in Hx;
        apply List.in_map_iff in Hx; destruct Hx as (y & Hy & Hin); exists y;
        (split; [exact Hin|]); subst x;
        match goal with |- context [if ?b then _ else _] => destruct b end; reflexivity. }
    destruct Hy as (y & Hin & E). rewrite E.
    rewrite List.Forall_forall in Hf. specialize (Hf y Hin).
    destruct seenIDs; exact Hf.
Qed.

(** X9: recording a container keeps the primary keys of services and
    containers unique and every container row attached to a stored
    service, also when the container's own insert fails; so does marking
    the containers that were not seen. *)
Theorem UpsertServiceAndContainer_keeps_keys
    (now : Z) (svc : Service) (c : Container) (seenIDs : list string) (d : DB) :
  keys_ok d ->
  keys_ok (fst (UpsertServiceAndContainer now svc c d))
  /\ keys_ok (fst (MarkMissingContainers seenIDs d)).
Proof.
  intros H. split.
  - apply upsert_keys_ok. exact H.
  - apply mark_missing_keys_ok. exact H.
Qed.

Lemma UpsertServiceAndContainer_keeps_keys_witness :
  keys_ok (fst (UpsertServiceAndContainer alerts.test_now alerts.svc_running
                  alerts.container_new Migrate))
  /\ keys_ok (fst (MarkMissingContainers ["container-new"] Migrate)).
Proof.
  apply (UpsertServiceAndContainer_keeps_keys alerts.test_now alerts.svc_running
           alerts.container_new ["container-new"] Migrate).
  repeat split; constructor.
Defined.

End StoreKeys.

Section StoreRows.
Import models db repo invariants.

Lemma find_map_update {A : Type} (p : A -> bool) (f : A -> A) (rows : list A) (old : A) :
  (forall x, p (f x) = p x) ->
  List.find p rows = Some old ->
  List.find p (List.map (fun x => if p x then f x else x) rows) = Some (f old).
Proof.
  intros Hp. induction rows as [|a rows IH]; simpl; [discriminate|].
  destruct (p a) eqn:E.
  - intros [= <-]. simpl. rewrite Hp, E. reflexivity.
  - intros H. simpl. rewrite E. exact (IH H).
Qed.

(** X10: a container that is seen again keeps its stored [started_at]; its
    service, name, status and restart count are replaced and
    [last_seen_at] becomes the time of the call, whatever [LastSeenAt] the
    caller passed.  A container seen for the first time is stored with
    the [started_at] the caller passed. *)
Theorem UpsertServiceAndContainer_container_row
    (now : Z) (svc : Service) (c : Container) (d : DB) :
  snd (UpsertServiceAndContainer now svc c d) = None ->
  get_container (fst (UpsertServiceAndContainer now svc c d)) (c_ID c)
  = Some {| c_ID := c_ID c; c_ServiceID := c_ServiceID c; c_Name := c_Name c;
            c_Status := c_Status c;
            c_StartedAt := match get_container d (c_ID c) with
                           | Some old => c_StartedAt old
                           | None => c_StartedAt c
                           end;
            c_LastSeenAt := now; c_RestartCount := c_RestartCount c |}.
Proof.
  unfold UpsertServiceAndContainer.
  destruct (service_exists _ (c_ServiceID c)); cbn [fst snd]; [intros _|discriminate].
  unfold get_container. cbn [containers set_containers set_services].
  unfold upsert_container.
  destruct (existsb (fun x => String.eqb (c_ID x) (c_ID c)) (containers d)) eqn:He.
  - apply existsb_find_some in He. destruct He as [old Hold]. rewrite Hold.
    pose proof (List.find_some _ _ Hold) as [_ Hid]. apply String.eqb_eq in Hid.
    rewrite (find_map_update (fun x => String.eqb (c_ID x) (c_ID c))
               (fun x => {| c_ID := c_ID x; c_ServiceID := c_ServiceID c; c_Name := c_Name c;
                            c_Status := c_Status c; c_StartedAt := c_StartedAt x;
                            c_LastSeenAt := now; c_RestartCount := c_RestartCount c |})
               (containers d) old); [|reflexivity|exact Hold].
    rewrite Hid. reflexivity.
  - rewrite find_app_none by exact He. simpl. rewrite String.eqb_refl.
    assert (Hn : List.find (fun x => String.eqb (c_ID x) (c_ID c)) (containers d) = None).
    { destruct (List.find _ (containers d)) eqn:Ef; [|reflexivity].
      assert (existsb (fun x => String.eqb (c_ID x) (c_ID c)) (containers d) = true)
        by (apply existsb_find_some; eauto). congruence. }
    rewrite Hn. reflexivity.
Qed.

Lemma UpsertServiceAndContainer_container_row_witness :
  get_container (fst (UpsertServiceAndContainer alerts.test_now alerts.svc_running
                        alerts.container_new Migrate)) "container-new"
  = Some alerts.container_new.
Proof.
  apply (UpsertServiceAndContainer_container_row alerts.test_now alerts.svc_running
           alerts.container_new Migrate).
  reflexivity.
Defined.

Lemma latest_of_spec (l : list HostMetric) (best : HostMetric) :
  (latest_of best l = best \/ In (latest_of best l) l)
  /\ hm_TS best <= hm_TS (latest_of best l)
  /\ Forall (fun m => hm_TS m <= hm_TS (latest_of best l)) l.
Proof.
  revert best. induction l as [|m l IH]; intros best; simpl.
  - split; [left; reflexivity|]. split; [lia|constructor].
  - destruct (IH (if hm_TS best <? hm_TS m then m else best)) as (H1 & H2 & H3).
    destruct (Z.ltb_spec (hm_TS best) (hm_TS m)).
    + split; [right; destruct H1 as [->|H1]; auto|]. split; [lia|].
      constructor; [exact H2|exact H3].
    + split; [destruct H1 as [H1|H1]; auto|]. split; [exact H2|].
      constructor; [lia|exact H3].
Qed.

(** X11: the latest host metric is a stored row whose timestamp no stored row
    exceeds; there is none exactly when the table is empty.  After a
    metric is inserted, the latest metric has at least the inserted
    timestamp: an older sample inserted late does not become the latest. *)
Theorem LatestHostMetric_max (d : DB) (m0 : HostMetric) :
  (LatestHostMetric d = None <-> host_metrics d = [])
  /\ (forall m, LatestHostMetric d = Some m ->
        In m (host_metrics d) /\ Forall (fun x => hm_TS x <= hm_TS m) (host_metrics d))
  /\ (exists m, LatestHostMetric (InsertHostMetric m0 d) = Some m
                /\ hm_TS m0 <= hm_TS m
                /\ (Forall (fun x => hm_TS x < hm_TS m0) (host_metrics d) -> m = m0)).
Proof.
  assert (Hspec : forall d m, LatestHostMetric d = Some m ->
            In m (host_metrics d) /\ Forall (fun x => hm_TS x <= hm_TS m) (host_metrics d)).
  { intros d0 m. unfold LatestHostMetric. destruct (host_metrics d0) as [|a l]; [discriminate|].
    intros [= <-]. destruct (latest_of_spec l a) as (H1 & H2 & H3).
    split; [destruct H1 as [->|H1]; [left; reflexivity|right; exact H1]|].
    constructor; assumption. }
  split; [|split].
  - unfold LatestHostMetric. destruct (host_metrics d); split; congruence.
  - apply Hspec.
  - destruct (LatestHostMetric (InsertHostMetric m0 d)) as [m|] eqn:E.
    + exists m. split; [reflexivity|]. destruct (Hspec _ _ E) as [Hin Hall].
      cbn [InsertHostMetric host_metrics set_host_metrics] in Hin, Hall.
      rewrite List.Forall_app in Hall. destruct Hall as [_ Hall].
      inversion Hall; subst. split; [assumption|].
      intros Hold. apply List.in_app_iff in Hin. destruct Hin as [Hin|[Hin|[]]]; [|auto].
      rewrite List.Forall_forall in Hold. specialize (Hold m Hin). lia.
    + exfalso. unfold LatestHostMetric, InsertHostMetric in E.
      cbn [host_metrics set_host_metrics] in E.
      destruct (host_metrics d); discriminate.
Qed.

End StoreRows.

Section AlertIds.
Import models db repo invariants.

Lemma alerts_ok_ext (d d' : DB) :
  alerts d' = alerts d -> alerts_seq d' = alerts_seq d ->
  notification_events d' = notification_events d ->
  alerts_ok d -> alerts_ok d'.
Proof.
  unfold alerts_ok, alert_exists. intros -> -> ->. tauto.
Qed.

Lemma existsb_ids {A : Type} (key : A -> Z) (id : Z) (l : list A) :
  existsb (fun a => key a =? id) l = existsb (fun k => k =? id) (List.map key l).
Proof. induction l as [|a l IH]; simpl; [reflexivity|]. rewrite IH. reflexivity. Qed.





Lemma CloseAlert_ids (ruleID : Z) (target : string) (t : Z) (d : DB) :
  List.map a_id (alerts (CloseAlert ruleID target t d)) = List.map a_id (alerts d).
Proof.
  unfold CloseAlert. cbn [alerts set_alerts]. rewrite List.map_map.
  apply List.map_ext. intros a. unfold close_row. destruct (_ && _); reflexivity.
Qed.

Lemma CloseAlert_ok (ruleID : Z) (target : string) (t : Z) (d : DB) :
  alerts_ok d -> alerts_ok (CloseAlert ruleID target t d).
Proof.
  intros (H0 & Hn & Hb & He). unfold alerts_ok, alert_exists.
  pose proof (CloseAlert_ids ruleID target t d) as Hids.
  split; [exact H0|]. split; [rewrite Hids; exact Hn|]. split.
  - unfold CloseAlert. cbn [alerts set_alerts alerts_seq].
    apply List.Forall_forall. intros a Hin. apply List.in_map_iff in Hin.
    destruct Hin as (x & <- & Hin). rewrite List.Forall_forall in Hb. specialize (Hb x Hin).
    unfold close_row. destruct (_ && _); exact Hb.
  - eapply List.Forall_impl; [|exact He]. intros e. unfold alert_exists.
    rewrite !(existsb_ids a_id), Hids. tauto.
Qed.

Lemma CreateAlert_ok (ruleID : Z) (target status : string) (summary : Text)
    (details : float * string) (started : Z) (d : DB) :
  alerts_ok d -> alerts_ok (fst (fst (CreateAlert ruleID target status summary details started d))).
Proof.
  intros Hok. unfold CreateAlert. destruct (rule_exists d ruleID); [|exact Hok].
  destruct Hok as (H0 & Hn & Hb & He). unfold alerts_ok, alert_exists.
  cbn [fst alerts set_alerts alerts_seq notification_events].
  split; [lia|]. split.
  - rewrite List.map_app. apply NoDup_snoc; [exact Hn|]. simpl.
    intros Hin. apply List.in_map_iff in Hin. destruct Hin as (x & Hx & Hin).
    rewrite List.Forall_forall in Hb. specialize (Hb x Hin). lia.
  - split.
    + rewrite List.Forall_app. split.
      * eapply List.Forall_impl; [|exact Hb]. intros a Ha. cbn beta in *. lia.
      * constructor; [simpl; lia|constructor].
    + eapply List.Forall_impl; [|exact He]. intros e Hx. unfold alert_exists in Hx.
      rewrite List.existsb_app, Hx. reflexivity.
Qed.

Lemma InsertNotificationEvent_ok (alertID : Z) (channel status : string) (attempts : Z)
    (lastErr : string) (sent : option Z) (d : DB) :
  alerts_ok d ->
  alerts_ok (fst (InsertNotificationEvent alertID channel status attempts lastErr sent d)).
Proof.
  intros Hok. unfold InsertNotificationEvent.
  destruct (alert_exists d alertID) eqn:Ex; [|exact Hok].
  destruct Hok as (H0 & Hn & Hb & He). unfold alerts_ok.
  cbn [fst alerts set_notification_events alerts_seq notification_events].
  split; [exact H0|]. split; [exact Hn|]. split; [exact Hb|].
  rewrite List.Forall_app. split; [exact He|]. constructor; [exact Ex|constructor].
Qed.

Lemma UpsertAlertState_ok (ruleID : Z) (target state : string) (since : Z)
    (lastFired lastRecovered : option Z) (d : DB) :
  alerts_ok d ->
  alerts_ok (fst (UpsertAlertState ruleID target state since lastFired lastRecovered d)).
Proof.
  intros Hok. unfold UpsertAlertState. destruct (rule_exists d ruleID); [|exact Hok].
  revert Hok. apply alerts_ok_ext; reflexivity.
Qed.



Lemma alerts_ok_Migrate : alerts_ok Migrate.
Proof. unfold alerts_ok. simpl. repeat split; try constructor. lia. Qed.


End AlertIds.

Section EngineLifting.
Import models db alerts.

Variable now : nat -> Z.
Variable transport : nat -> option string.
Variable new_request : string -> option string.

(** A property of the store that every statement the engine issues
    keeps. *)
Variable P : DB -> Prop.
Hypothesis P_create : forall ruleID target status summary details started d,
  P d -> P (fst (fst (CreateAlert ruleID target status summary details started d))).
Hypothesis P_close : forall ruleID target t d, P d -> P (CloseAlert ruleID target t d).
Hypothesis P_state : forall ruleID target state since lf lr d,
  P d -> P (fst (UpsertAlertState ruleID target state since lf lr d)).
Hypothesis P_event : forall alertID channel status attempts lastErr sent d,
  P d -> P (fst (InsertNotificationEvent alertID channel status attempts lastErr sent d)).

Lemma send_loop_keeps (left : nat) (attempts : Z) (lastErr : string) (t : Telegram)
    (alertID : Z) (msg : Text) (w : World) :
  P (w_db w) -> P (w_db (send_loop now transport new_request left attempts lastErr t alertID msg w)).
Proof.
  revert attempts lastErr w. induction left as [|left IH]; intros attempts lastErr w H; simpl.
  - apply P_event. exact H.
  - unfold Send. destruct (Enabled t).
    + destruct (new_request (sendMessage_url t)) as [rerr|];
        [apply (IH (attempts + 1) rerr w); exact H|].
      destruct (transport (length (w_outbox w))) as [err|]; simpl.
      * apply (IH (attempts + 1) err
                 {| w_db := w_db w; w_clock := w_clock w;
                    w_outbox := w_outbox w ++ [(msg, Some err)] |}). exact H.
      * apply P_event. exact H.
    + apply (IH (attempts + 1) "telegram not configured" w). exact H.
Qed.

Lemma fire_keeps (e : Engine) (ruleID : Z) (targetKey targetLabel : string)
    (rule : AlertRule) (value : float) (t since : Z) (w : World) :
  P (w_db w) -> P (w_db (fire now transport new_request e ruleID targetKey targetLabel rule value t since w)).
Proof.
  intros H. unfold fire.
  pose proof (P_create ruleID targetKey "firing"
                (AlertText (r_Name rule) targetLabel value (r_Operator rule) (r_Threshold rule))
                (value, targetLabel) t (w_db w) H) as Hc.
  destruct (CreateAlert ruleID targetKey "firing" _ _ t (w_db w)) as [[d alertID] cErr].
  cbn [fst] in Hc. cbn [with_db w_db].
  apply P_state. destruct cErr; [exact Hc|].
  apply send_loop_keeps. exact Hc.
Qed.

Lemma evalTarget_keeps (e : Engine) (ruleID : Z) (targetKey targetLabel : string)
    (rule : AlertRule) (value : float) (w : World) :
  P (w_db w) -> P (w_db (evalTarget now transport new_request e ruleID targetKey targetLabel rule value w)).
Proof.
  intros H. unfold evalTarget.
  destruct (PrimFloat.is_nan value); [exact H|].
  cbn [tick].
  set (w1 := {| w_db := w_db w; w_clock := S (w_clock w); w_outbox := w_outbox w |}).
  assert (H1 : P (w_db w1)) by exact H.
  clearbody w1.
  destruct (match GetAlertState ruleID targetKey (w_db w1) with
            | Some st => (as_state st, as_since_ts st, as_last_fired_ts st)
            | None => ("OK", now (w_clock w), None)
            end) as [[state since] lastFired].
  destruct (compare value (r_Operator rule) (r_Threshold rule)).
  - destruct (String.eqb state "OK").
    + destruct (r_ForSeconds rule <=? 0).
      * destruct (in_cooldown rule (now (w_clock w)) lastFired).
        -- cbn [with_db w_db]. apply P_state. exact H1.
        -- apply fire_keeps. exact H1.
      * cbn [with_db w_db]. apply P_state. exact H1.
    + destruct (String.eqb state "PENDING" && _).
      * destruct (in_cooldown rule (now (w_clock w)) lastFired).
        -- cbn [with_db w_db]. apply P_state. exact H1.
        -- apply fire_keeps. exact H1.
      * exact H1.
  - destruct (String.eqb state "FIRING" || String.eqb state "PENDING"
              || String.eqb state "COOLDOWN"); [|exact H1].
    cbn [with_db w_db]. apply P_state.
    destruct (String.eqb state "FIRING").
    + apply send_loop_keeps. cbn [w_db]. apply P_close. exact H1.
    + cbn [w_db]. apply P_close. exact H1.
Qed.

End EngineLifting.

Section EvaluateLifting.
Import models db alerts.

Variable now : nat -> Z.
Variable transport : nat -> option string.
Variable new_request : string -> option string.

(** A property of the store that every evaluation of a target keeps. *)
Variable P : DB -> Prop.
Hypothesis P_evalTarget : forall e ruleID targetKey targetLabel rule value w,
  P (w_db w) -> P (w_db (evalTarget now transport new_request e ruleID targetKey targetLabel rule value w)).

Lemma eval_unavailable_keeps (e : Engine) (r : AlertRule) (t : Z) (cs : list Container)
    (w : World) :
  P (w_db w) -> P (w_db (eval_unavailable now transport new_request e r t cs w)).
Proof.
  revert w. induction cs as [|c cs IH]; intros w H; simpl; [exact H|].
  apply IH. apply P_evalTarget. exact H.
Qed.

Lemma eval_restarts_keeps (e : Engine) (r : AlertRule) (cs : list Container) (w : World) :
  P (w_db w) -> P (w_db (snd (eval_restarts now transport new_request e r cs w))).
Proof.
  revert e w. induction cs as [|c cs IH]; intros e w H; simpl; [exact H|].
  apply IH. apply P_evalTarget. exact H.
Qed.

Lemma eval_rule_keeps (cs : list Container) (e : Engine) (r : AlertRule) (w : World) :
  P (w_db w) -> P (w_db (snd (eval_rule now transport new_request cs e r w))).
Proof.
  intros H. unfold eval_rule.
  destruct (negb (r_Enabled r)); [exact H|].
  destruct (String.eqb (r_TargetType r) "host"); [apply P_evalTarget; exact H|].
  destruct (String.eqb (r_TargetType r) "container"); [|exact H].
  assert (H1 : P (w_db (if String.eqb (r_MetricKey r) "container_unavailable"
                        then let '(t, w0) := tick now w in
                             eval_unavailable now transport new_request e r t cs w0
                        else w))).
  { destruct (String.eqb (r_MetricKey r) "container_unavailable"); [|exact H].
    cbn [tick]. apply eval_unavailable_keeps. exact H. }
  destruct (String.eqb (r_MetricKey r) "container_restarts"); [|exact H1].
  apply eval_restarts_keeps. exact H1.
Qed.

Lemma eval_rules_keeps (cs : list Container) (e : Engine) (rs : list AlertRule) (w : World) :
  P (w_db w) -> P (w_db (snd (eval_rules now transport new_request cs e rs w))).
Proof.
  revert e w. induction rs as [|r rs IH]; intros e w H; simpl; [exact H|].
  pose proof (eval_rule_keeps cs e r w H) as H1.
  destruct (eval_rule now transport new_request cs e r w) as [e1 w1]. apply IH. exact H1.
Qed.

Lemma Evaluate_keeps (e : Engine) (w : World) :
  P (w_db w) -> P (w_db (snd (Evaluate now transport new_request e w))).
Proof. intros H. unfold Evaluate. apply eval_rules_keeps. exact H. Qed.

End EvaluateLifting.

Section EvaluateFrame.
Import models db repo alerts invariants.

Variable now : nat -> Z.
Variable transport : nat -> option string.
Variable new_request : string -> option string.

Lemma frame_refl (d0 : DB) : evaluation_frame d0 d0.
Proof.
  unfold evaluation_frame. repeat (split; [reflexivity|]).
  split; exists []; rewrite List.app_nil_r; reflexivity.
Qed.

Lemma frame_create (d0 : DB) ruleID target status summary details started (d : DB) :
  evaluation_frame d0 d ->
  evaluation_frame d0 (fst (fst (CreateAlert ruleID target status summary details started d))).
Proof.
  intros H. unfold CreateAlert. destruct (rule_exists d ruleID); [|exact H].
  destruct H as (H1 & H2 & H3 & H4 & H5 & H6 & [n7 H7] & H8).
  unfold evaluation_frame. cbn [fst services containers host_metrics container_metrics logs alert_rules
                     alerts notification_events set_alerts].
  repeat (split; [assumption|]). split; [|exact H8].
  exists (n7 ++ [alerts_seq d + 1])%list. rewrite List.map_app, H7, <- List.app_assoc. reflexivity.
Qed.

Lemma frame_close (d0 : DB) ruleID target t (d : DB) :
  evaluation_frame d0 d -> evaluation_frame d0 (CloseAlert ruleID target t d).
Proof.
  intros (H1 & H2 & H3 & H4 & H5 & H6 & H7 & H8).
  unfold evaluation_frame. rewrite CloseAlert_ids.
  unfold CloseAlert. cbn [services containers host_metrics container_metrics logs alert_rules
                          notification_events set_alerts].
  repeat (split; [assumption|]). assumption.
Qed.

Lemma frame_state (d0 : DB) ruleID target state since lf lr (d : DB) :
  evaluation_frame d0 d ->
  evaluation_frame d0 (fst (UpsertAlertState ruleID target state since lf lr d)).
Proof.
  intros H. unfold UpsertAlertState. destruct (rule_exists d ruleID); [|exact H]. exact H.
Qed.

Lemma frame_event (d0 : DB) alertID channel status attempts lastErr sent (d : DB) :
  evaluation_frame d0 d ->
  evaluation_frame d0 (fst (InsertNotificationEvent alertID channel status attempts lastErr sent d)).
Proof.
  intros H. unfold InsertNotificationEvent. destruct (alert_exists d alertID); [|exact H].
  destruct H as (H1 & H2 & H3 & H4 & H5 & H6 & H7 & [n8 H8]).
  unfold evaluation_frame. cbn [fst services containers host_metrics container_metrics logs alert_rules
                     alerts notification_events set_notification_events].
  repeat (split; [assumption|]).
  eexists. rewrite H8, <- List.app_assoc. reflexivity.
Qed.

(** X13: an evaluation writes nothing but alert state: services, containers,
    metrics, logs and rules are as before; no alert is removed or
    renumbered (the stored alert ids stay, in order, new ones follow) and
    no notification event is removed or changed (new ones follow). *)
Theorem Evaluate_frame (e : Engine) (w : World) :
  let d := w_db w in
  let d' := w_db (snd (Evaluate now transport new_request e w)) in
  services d' = services d /\ containers d' = containers d
  /\ host_metrics d' = host_metrics d /\ container_metrics d' = container_metrics d
  /\ logs d' = logs d /\ alert_rules d' = alert_rules d
  /\ (exists newer, List.map a_id (alerts d') = (List.map a_id (alerts d) ++ newer)%list)
  /\ (exists newer, notification_events d' = (notification_events d ++ newer)%list).
Proof.
  apply (Evaluate_keeps now transport new_request (evaluation_frame (w_db w))); [|apply frame_refl].
  intros e0 ruleID targetKey targetLabel rule value w0.
  apply (evalTarget_keeps now transport new_request (evaluation_frame (w_db w))).
  - intros; apply frame_create; assumption.
  - intros; apply frame_close; assumption.
  - intros; apply frame_state; assumption.
  - intros; apply frame_event; assumption.
Qed.

(** X14: an evaluation keeps the alert ids sound: unique, positive, at most
    the AUTOINCREMENT counter, and every notification event attached to a
    stored alert. *)
Theorem Evaluate_keeps_alert_ids (e : Engine) (w : World) :
  alerts_ok (w_db w) -> alerts_ok (w_db (snd (Evaluate now transport new_request e w))).
Proof.
  apply (Evaluate_keeps now transport new_request alerts_ok).
  intros e0 ruleID targetKey targetLabel rule value w0.
  apply (evalTarget_keeps now transport new_request alerts_ok).
  - intros; apply CreateAlert_ok; assumption.
  - intros; apply CloseAlert_ok; assumption.
  - intros; apply UpsertAlertState_ok; assumption.
  - intros; apply InsertNotificationEvent_ok; assumption.
Qed.

Lemma eval_rules_disabled (cs : list Container) (e : Engine) (rs : list AlertRule) (w : World) :
  Forall (fun r => r_Enabled r = false) rs ->
  eval_rules now transport new_request cs e rs w = (e, w).
Proof.
  induction 1 as [|r rs Hr _ IH]; simpl; [reflexivity|].
  unfold eval_rule. rewrite Hr. simpl. exact IH.
Qed.

(** X15: with every rule disabled an evaluation reads the clock not once,
    posts nothing and leaves the store as it is; the engine only
    refreshes the host percentages it remembers. *)
Theorem Evaluate_all_disabled (e : Engine) (w : World) :
  Forall (fun r => r_Enabled r = false) (alert_rules (w_db w)) ->
  snd (Evaluate now transport new_request e w) = w
  /\ lastRest (fst (Evaluate now transport new_request e w)) = lastRest e
  /\ lastSvc (fst (Evaluate now transport new_request e w)) = lastSvc e.
Proof.
  intros H. unfold Evaluate, ListRules. rewrite eval_rules_disabled by exact H.
  cbn [fst snd]. split; [reflexivity|].
  destruct (LatestHostMetric (w_db w)); split; reflexivity.
Qed.

End EvaluateFrame.

Section EvaluateFrameWitnesses.
Import models db repo alerts invariants.

Lemma Evaluate_keeps_alert_ids_witness :
  alerts_ok (w_db (snd (Evaluate test_clock test_transport test_request test_engine historical_world))).
Proof.
  apply (Evaluate_keeps_alert_ids test_clock test_transport test_request test_engine historical_world).
  unfold alerts_ok. simpl. repeat split; try constructor. lia.
Defined.

Lemma Evaluate_all_disabled_witness :
  snd (Evaluate test_clock test_transport test_request test_engine
         {| w_db := UpdateRuleThresholds 1 90 120 600 false (set_alert_rules empty_db
                 [seed 1 "Host CPU high" "host" "host_cpu_pct" ">" 90 120 600]);
            w_clock := 0; w_outbox := [] |})
  = {| w_db := UpdateRuleThresholds 1 90 120 600 false (set_alert_rules empty_db
                 [seed 1 "Host CPU high" "host" "host_cpu_pct" ">" 90 120 600]);
       w_clock := 0; w_outbox := [] |}.
Proof.
  apply (Evaluate_all_disabled test_clock test_transport test_request test_engine
           {| w_db := UpdateRuleThresholds 1 90 120 600 false (set_alert_rules empty_db
                 [seed 1 "Host CPU high" "host" "host_cpu_pct" ">" 90 120 600]);
              w_clock := 0; w_outbox := [] |}).
  repeat constructor.
Defined.

End EvaluateFrameWitnesses.

Section OneFiringAlert.
Import models db repo alerts invariants.

Variable now : nat -> Z.
Variable transport : nat -> option string.
Variable new_request : string -> option string.

Lemma firing_ok_ext (d d' : DB) :
  alerts d' = alerts d -> alert_states d' = alert_states d -> firing_ok d -> firing_ok d'.
Proof.
  intros Ha Hs H r t. unfold GetAlertState. rewrite Ha, Hs. exact (H r t).
Qed.


Lemma close_row_firing (r : Z) (t : string) (ended : Z) (a : Alert) :
  firing_of r t a = true ->
  forall r' t', firing_of r' t' (close_row r t ended a) = false.
Proof.
  intros E r' t'. unfold close_row. fold (firing_of r t a). rewrite E.
  unfold firing_of. simpl. apply andb_false_r.
Qed.

Lemma close_row_not_firing (r : Z) (t : string) (ended : Z) (a : Alert) :
  firing_of r t a = false -> close_row r t ended a = a.
Proof. intros E. unfold close_row. fold (firing_of r t a). rewrite E. reflexivity. Qed.

Lemma close_row_same (r : Z) (t : string) (ended : Z) (l : list Alert) :
  List.filter (firing_of r t) (List.map (close_row r t ended) l) = [].
Proof.
  induction l as [|a l IH]; simpl; [reflexivity|].
  destruct (firing_of r t a) eqn:E.
  - rewrite (close_row_firing r t ended a E). exact IH.
  - rewrite (close_row_not_firing r t ended a E), E. exact IH.
Qed.

Lemma close_row_other (r r' : Z) (t t' : string) (ended : Z) (l : list Alert) :
  (r', t') <> (r, t) ->
  List.filter (firing_of r' t') (List.map (close_row r t ended) l)
  = List.filter (firing_of r' t') l.
Proof.
  intros Hne. induction l as [|a l IH]; simpl; [reflexivity|].
  destruct (firing_of r t a) eqn:E.
  - rewrite (close_row_firing r t ended a E).
    assert (E' : firing_of r' t' a = false).
    { unfold firing_of in *. apply andb_true_iff in E. destruct E as [E _].
      apply andb_true_iff in E. destruct E as [E1 E2].
      apply Z.eqb_eq in E1. apply String.eqb_eq in E2.
      destruct (Z.eqb_spec (a_rule_id a) r'); simpl; [|reflexivity].
      destruct (String.eqb_spec (a_target_fingerprint a) t'); simpl; [|reflexivity].
      exfalso. apply Hne. congruence. }
    rewrite E'. exact IH.
  - rewrite (close_row_not_firing r t ended a E).
    destruct (firing_of r' t' a); [f_equal|]; exact IH.
Qed.

(** Closing the alerts of a pair keeps the invariant and leaves the pair
    without a firing alert. *)
Lemma CloseAlert_firing_ok (r : Z) (t : string) (ended : Z) (d : DB) :
  firing_ok d ->
  firing_ok (CloseAlert r t ended d)
  /\ List.filter (firing_of r t) (alerts (CloseAlert r t ended d)) = [].
Proof.
  intros H. split; [|apply close_row_same].
  intros r' t'. unfold CloseAlert, GetAlertState. cbn [alerts alert_states set_alerts].
  destruct (decide ((r', t') = (r, t))) as [E|E].
  - injection E as -> ->. rewrite close_row_same. split; [simpl; lia|congruence].
  - rewrite close_row_other by exact E. exact (H r' t').
Qed.

(** Writing the state of a pair that has no firing alert keeps the
    invariant. *)
Lemma UpsertAlertState_firing_ok (r : Z) (t state : string) (since : Z)
    (lf lr : option Z) (d : DB) :
  firing_ok d ->
  List.filter (firing_of r t) (alerts d) = [] ->
  firing_ok (fst (UpsertAlertState r t state since lf lr d)).
Proof.
  intros H Hnone. unfold UpsertAlertState. destruct (rule_exists d r); [|exact H].
  intros r' t'. unfold GetAlertState. cbn [fst alerts alert_states set_alert_states].
  destruct (decide ((r', t') = (r, t))) as [E|E].
  - injection E as -> ->. rewrite Hnone. split; [simpl; lia|congruence].
  - rewrite lookup_insert_ne by congruence. exact (H r' t').
Qed.

Lemma send_loop_firing_ok (left : nat) (attempts : Z) (lastErr : string) (tg : Telegram)
    (alertID : Z) (msg : Text) (w : World) :
  firing_ok (w_db w) ->
  firing_ok (w_db (send_loop now transport new_request left attempts lastErr tg alertID msg w)).
Proof.
  destruct (send_loop_frame now transport new_request left attempts lastErr tg alertID msg w)
    as (Ha & _ & Hs & _).
  apply firing_ok_ext; assumption.
Qed.

(** The firing transition of a pair that has no firing alert keeps the
    invariant. *)
Lemma fire_firing_ok (e : Engine) (r : Z) (t label : string) (rule : AlertRule)
    (value : float) (tm since : Z) (w : World) :
  firing_ok (w_db w) ->
  List.filter (firing_of r t) (alerts (w_db w)) = [] ->
  firing_ok (w_db (fire now transport new_request e r t label rule value tm since w)).
Proof.
  intros H Hnone.
  destruct (rule_exists (w_db w) r) eqn:Hr.
  - destruct (fire_spec now transport new_request e r t label rule value tm since w Hr)
      as (Ha & _ & _ & Hs & _).
    intros r' t'. unfold GetAlertState. rewrite Ha, Hs, List.filter_app.
    destruct (decide ((r', t') = (r, t))) as [E|E].
    + injection E as -> ->. rewrite Hnone. split.
      * simpl. destruct (firing_of r t _); simpl; lia.
      * intros _. rewrite lookup_insert_eq. eexists. split; reflexivity.
    + assert (Ef : firing_of r' t' (firing_row (w_db w) r t label rule value tm) = false).
      { unfold firing_of, firing_row. simpl.
        destruct (Z.eqb_spec r r'); simpl; [|reflexivity].
        destruct (String.eqb_spec t t'); simpl; [|reflexivity].
        exfalso. apply E. congruence. }
      simpl. rewrite Ef, List.app_nil_r.
      rewrite lookup_insert_ne by congruence. exact (H r' t').
  - unfold fire, CreateAlert. rewrite Hr. cbn [with_db w_db].
    unfold UpsertAlertState. rewrite Hr. exact H.
Qed.

Lemma not_firing_no_alert (d : DB) (r : Z) (t : string) :
  firing_ok d ->
  match GetAlertState r t d with
  | Some st => as_state st <> "FIRING"
  | None => True
  end ->
  List.filter (firing_of r t) (alerts d) = [].
Proof.
  intros H Hst. destruct (H r t) as [_ Himp].
  destruct (List.filter (firing_of r t) (alerts d)) as [|a l]; [reflexivity|].
  destruct Himp as (st & E & Ef); [discriminate|].
  rewrite E in Hst. contradiction.
Qed.

Lemma evalTarget_firing_ok (e : Engine) (r : Z) (t label : string) (rule : AlertRule)
    (value : float) (w : World) :
  firing_ok (w_db w) ->
  firing_ok (w_db (evalTarget now transport new_request e r t label rule value w)).
Proof.
  intros H. unfold evalTarget.
  destruct (PrimFloat.is_nan value); [exact H|].
  cbn [tick].
  set (w1 := {| w_db := w_db w; w_clock := S (w_clock w); w_outbox := w_outbox w |}).
  assert (H1 : firing_ok (w_db w1)) by exact H.
  pose proof (not_firing_no_alert (w_db w1) r t H1) as Hno.
  clearbody w1.
  destruct (GetAlertState r t (w_db w1)) as [st|].
  2:{ (* no row: the state reads as OK *)
      specialize (Hno I).
      destruct (compare value (r_Operator rule) (r_Threshold rule)); [|exact H1].
      cbn [String.eqb Ascii.eqb Bool.eqb andb orb].
      destruct (r_ForSeconds rule <=? 0).
      - cbn [in_cooldown]. apply fire_firing_ok; assumption.
      - cbn [with_db w_db]. apply UpsertAlertState_firing_ok; assumption. }
  destruct (compare value (r_Operator rule) (r_Threshold rule)).
  - destruct (String.eqb_spec (as_state st) "OK") as [Eok|Eok].
    + assert (Hnone : List.filter (firing_of r t) (alerts (w_db w1)) = []).
      { apply Hno. rewrite Eok. discriminate. }
      destruct (r_ForSeconds rule <=? 0).
      * destruct (in_cooldown rule (now (w_clock w)) (as_last_fired_ts st)).
        -- cbn [with_db w_db]. apply UpsertAlertState_firing_ok; assumption.
        -- apply fire_firing_ok; assumption.
      * cbn [with_db w_db]. apply UpsertAlertState_firing_ok; assumption.
    + destruct (String.eqb_spec (as_state st) "PENDING") as [Ep|Ep]; [|exact H1].
      assert (Hnone : List.filter (firing_of r t) (alerts (w_db w1)) = []).
      { apply Hno. rewrite Ep. discriminate. }
      cbn [andb].
      destruct (gotime.Seconds (r_ForSeconds rule) <=? gotime.Sub (now (w_clock w)) (as_since_ts st));
        [|exact H1].
      destruct (in_cooldown rule (now (w_clock w)) (as_last_fired_ts st)).
      * cbn [with_db w_db]. apply UpsertAlertState_firing_ok; assumption.
      * apply fire_firing_ok; assumption.
  - destruct (String.eqb (as_state st) "FIRING" || String.eqb (as_state st) "PENDING"
              || String.eqb (as_state st) "COOLDOWN"); [|exact H1].
    destruct (CloseAlert_firing_ok r t (now (w_clock w)) (w_db w1) H1) as [Hc Hnone].
    cbn [with_db w_db]. apply UpsertAlertState_firing_ok.
    + destruct (String.eqb (as_state st) "FIRING"); [|exact Hc].
      apply send_loop_firing_ok. exact Hc.
    + destruct (String.eqb (as_state st) "FIRING"); [|exact Hnone].
      unfold sendNotification.
      destruct (send_loop_frame now transport new_request 3 0 "" (notify e) 0
                  (RecoveryText (r_Name rule) label value)
                  (with_db w1 (CloseAlert r t (now (w_clock w)) (w_db w1)))) as (Ha & _).
      rewrite Ha. exact Hnone.
Qed.

(** X16: evaluations never leave two firing alerts for one (rule, target)
    pair, and leave a firing alert only for a pair whose state is FIRING:
    the invariant holds on a new store and every evaluation keeps it. *)
Theorem Evaluate_one_firing_alert_per_pair (e : Engine) (w : World) :
  firing_ok (w_db w) ->
  firing_ok (w_db (snd (Evaluate now transport new_request e w))).
Proof.
  apply (Evaluate_keeps now transport new_request firing_ok).
  intros e0 ruleID targetKey targetLabel rule value w0.
  apply evalTarget_firing_ok.
Qed.

End OneFiringAlert.

Section OneFiringAlertWitness.
Import models db repo alerts invariants.

Lemma Evaluate_one_firing_alert_per_pair_witness :
  firing_ok (w_db (snd (Evaluate test_clock test_transport test_request test_engine historical_world))).
Proof.
  apply (Evaluate_one_firing_alert_per_pair test_clock test_transport test_request test_engine
           historical_world).
  intros r t. simpl. split; [lia|congruence].
Defined.

End OneFiringAlertWitness.

Section RetentionKeepsFiring.
Import models db repo alerts invariants.





End RetentionKeepsFiring.

Section Notification.
Import models db repo alerts invariants.

Variable now : nat -> Z.
Variable transport : nat -> option string.
Variable new_request : string -> option string.





(** X19: without credentials a notification posts nothing and reads no clock;
    it records one 'failed' event with three attempts and the error
    'telegram not configured' (none when the alert id is not stored). *)
Theorem sendNotification_not_configured (e : Engine) (alertID : Z) (msg : Text) (w : World) :
  Enabled (notify e) = false ->
  sendNotification now transport new_request e alertID msg w
  = with_db w (fst (InsertNotificationEvent alertID "telegram" "failed" 3
                      "telegram not configured" None (w_db w))).
Proof.
  intros En. unfold sendNotification. cbn [send_loop]. unfold Send. rewrite En. reflexivity.
Qed.

End Notification.

Section NotificationWitnesses.
Import models db repo alerts invariants.


Lemma sendNotification_not_configured_witness :
  sendNotification test_clock test_transport test_request (NewEngine {| Token := ""; ChatID := "chat" |} false)
    1 (Lit "down") test_world
  = with_db test_world
      (fst (InsertNotificationEvent 1 "telegram" "failed" 3 "telegram not configured" None
              (w_db test_world))).
Proof.
  apply (sendNotification_not_configured test_clock test_transport test_request
           (NewEngine {| Token := ""; ChatID := "chat" |} false) 1 (Lit "down") test_world).
  reflexivity.
Defined.

End NotificationWitnesses.

Section Comparison.
Import models db repo alerts invariants.

Lemma compare_true_not_nan_threshold (v : float) (op : string) (th : float) :
  alerts.compare v op th = true -> PrimFloat.is_nan th = false.
Proof.
  unfold alerts.compare, float_ltb, float_leb, float_eqb.
  repeat (match goal with |- context [String.eqb ?a ?b] => destruct (String.eqb a b) end);
    try discriminate;
    rewrite ?FloatAxioms.ltb_spec, ?FloatAxioms.leb_spec, ?FloatAxioms.eqb_spec;
    unfold SFltb, SFleb, SFeqb; intros H.
  1,2: apply (is_nan_false_l th v); intros E; rewrite E in H; discriminate.
  all: apply (is_nan_false_r v th); intros E; rewrite E in H; discriminate.
Qed.

(** X20: a comparison holds only for one of the five operators and only
    between two numbers: with an operator that is not known, a value that
    is NaN or a threshold that is NaN, no rule ever asks to fire. *)
Theorem compare_true_only_for_numbers (v : float) (op : string) (th : float) :
  alerts.compare v op th = true ->
  In op [">"; ">="; "<"; "<="; "=="]
  /\ PrimFloat.is_nan v = false /\ PrimFloat.is_nan th = false.
Proof.
  intros H. split; [|split].
  - unfold alerts.compare in H. simpl.
    destruct (String.eqb_spec op ">"); [auto|].
    destruct (String.eqb_spec op ">="); [auto|].
    destruct (String.eqb_spec op "<"); [auto|].
    destruct (String.eqb_spec op "<="); [auto 6|].
    destruct (String.eqb_spec op "=="); [auto 6|discriminate].
  - exact (compare_true_not_nan v op th H).
  - exact (compare_true_not_nan_threshold v op th H).
Qed.

Lemma compare_true_only_for_numbers_witness :
  In ">=" [">"; ">="; "<"; "<="; "=="]
  /\ PrimFloat.is_nan 1 = false /\ PrimFloat.is_nan 1 = false.
Proof. apply (compare_true_only_for_numbers 1 ">=" 1). reflexivity. Defined.

Lemma take_drop_id (n : nat) (s : string) : gostr.take n s ++ gostr.drop n s = s.
Proof.
  revert s. induction n as [|n IH]; intros [|c s]; simpl; rewrite ?append_nil; try reflexivity.
  rewrite append_cons, IH. reflexivity.
Qed.

Lemma append_nil_r (s : string) : s ++ "" = s.
Proof.
  induction s as [|c s IH]; [reflexivity|]. rewrite append_cons, IH. reflexivity.
Qed.

(** X21: the label of a container target is the first 12 bytes of its id, or
    the whole id when it is not longer: always a prefix of the id, never
    longer than 12 bytes. *)
Theorem shortTarget_prefix (id : string) :
  (String.length (shortTarget id) <= 12)%nat
  /\ (exists rest, id = shortTarget id ++ rest)
  /\ ((String.length id <= 12)%nat -> shortTarget id = id).
Proof.
  unfold shortTarget.
  destruct (Nat.ltb_spec 12 (String.length id)) as [H|H].
  - split; [rewrite length_take; lia|]. split; [|lia].
    exists (gostr.drop 12 id). symmetry. apply take_drop_id.
  - split; [exact H|]. split; [|reflexivity].
    exists "". symmetry. apply append_nil_r.
Qed.

End Comparison.

Section Pending.
Import models db repo alerts invariants.

Variable now : nat -> Z.
Variable transport : nat -> option string.
Variable new_request : string -> option string.
Variable e : Engine.

(** X22: a rule with a pending time: the first evaluation over the threshold
    only stores PENDING (no alert, no event, no request).  While the
    value stays over the threshold, later evaluations change nothing until
    the pending time has passed since that first evaluation, and the one
    that finds it passed fires: the alert starts at that evaluation's
    time, the state is FIRING since the first evaluation.  A value back
    under the threshold before that returns the pair to OK without any
    alert or message. *)
Theorem evalTarget_pending_then_fires
    (ruleID : Z) (target label : string) (rule : AlertRule) (value : float) (w : World) :
  rule_exists (w_db w) ruleID = true ->
  GetAlertState ruleID target (w_db w) = None ->
  0 < r_ForSeconds rule ->
  compare value (r_Operator rule) (r_Threshold rule) = true ->
  let t0 := now (w_clock w) in
  let t1 := now (S (w_clock w)) in
  let w1 := evalTarget now transport new_request e ruleID target label rule value w in
  let due := gotime.Seconds (r_ForSeconds rule) <=? gotime.Sub t1 t0 in
  w1 = {| w_db := set_alert_states (w_db w)
                    (<[ (ruleID, target) :=
                          {| as_state := "PENDING"; as_since_ts := t0;
                             as_last_fired_ts := None; as_last_recovered_ts := None |} ]>
                       (alert_states (w_db w)));
          w_clock := S (w_clock w); w_outbox := w_outbox w |}
  /\ (forall value2,
        compare value2 (r_Operator rule) (r_Threshold rule) = true ->
        let w2 := evalTarget now transport new_request e ruleID target label rule value2 w1 in
        if due
        then alerts (w_db w2)
             = (alerts (w_db w) ++ [firing_row (w_db w) ruleID target label rule value2 t1])%list
             /\ GetAlertState ruleID target (w_db w2)
                = Some {| as_state := "FIRING"; as_since_ts := t0;
                          as_last_fired_ts := Some t1; as_last_recovered_ts := None |}
        else w2 = snd (tick now w1))
  /\ (forall value2,
        PrimFloat.is_nan value2 = false ->
        compare value2 (r_Operator rule) (r_Threshold rule) = false ->
        let w2 := evalTarget now transport new_request e ruleID target label rule value2 w1 in
        GetAlertState ruleID target (w_db w2)
        = Some {| as_state := "OK"; as_since_ts := t1;
                  as_last_fired_ts := None; as_last_recovered_ts := Some t1 |}
        /\ alerts (w_db w2) = List.map (close_row ruleID target t1) (alerts (w_db w))
        /\ notification_events (w_db w2) = notification_events (w_db w)
        /\ w_outbox w2 = w_outbox w).
Proof.
  intros Hr Hst Hfor Hc t0 t1 w1 due.
  assert (Hnot : (r_ForSeconds rule <=? 0) = false) by (apply Z.leb_gt; exact Hfor).
  assert (E1 : w1 = {| w_db := set_alert_states (w_db w)
                    (<[ (ruleID, target) :=
                          {| as_state := "PENDING"; as_since_ts := t0;
                             as_last_fired_ts := None; as_last_recovered_ts := None |} ]>
                       (alert_states (w_db w)));
          w_clock := S (w_clock w); w_outbox := w_outbox w |}).
  { subst w1. unfold evalTarget.
    rewrite (compare_true_not_nan _ _ _ Hc), Hc. cbn [tick fst snd w_db].
    rewrite Hst. cbn. rewrite Hnot.
    unfold UpsertAlertState. cbn [w_db]. rewrite Hr. reflexivity. }
  split; [exact E1|]. clearbody w1. subst w1.
  assert (Hst1 : forall d', GetAlertState ruleID target
                    (set_alert_states d'
                       (<[ (ruleID, target) :=
                             {| as_state := "PENDING"; as_since_ts := t0;
                                as_last_fired_ts := None; as_last_recovered_ts := None |} ]>
                          (alert_states (w_db w))))
                  = Some {| as_state := "PENDING"; as_since_ts := t0;
                            as_last_fired_ts := None; as_last_recovered_ts := None |}).
  { intros d'. unfold GetAlertState. cbn [alert_states set_alert_states].
    apply lookup_insert_eq. }
  split.
  - intros value2 Hc2 w2. subst w2. unfold evalTarget.
    rewrite (compare_true_not_nan _ _ _ Hc2), Hc2. cbn [tick fst snd w_db w_clock].
    rewrite Hst1. cbn [as_state as_since_ts as_last_fired_ts].
    change (String.eqb "PENDING" "OK") with false.
    change (String.eqb "PENDING" "PENDING") with true.
    cbn [andb in_cooldown]. fold t0 t1. fold due.
    destruct due; [|reflexivity].
    match goal with
    | |- context [fire _ _ _ _ _ _ _ _ _ _ _ ?w0] => set (w1 := w0)
    end.
    assert (Hr1 : rule_exists (w_db w1) ruleID = true) by exact Hr.
    destruct (fire_spec now transport new_request e ruleID target label rule value2 t1 t0 w1 Hr1)
      as (Ha & _ & _ & Hs & _).
    split; [exact Ha|]. unfold GetAlertState. rewrite Hs. apply lookup_insert_eq.
  - intros value2 Hn2 Hc2 w2. subst w2. unfold evalTarget.
    rewrite Hn2, Hc2. cbn [tick fst snd w_db w_clock].
    rewrite Hst1. cbn [as_state as_since_ts as_last_fired_ts].
    change (String.eqb "PENDING" "FIRING") with false.
    change (String.eqb "PENDING" "PENDING") with true.
    cbn [orb]. fold t1.
    unfold UpsertAlertState, CloseAlert, GetAlertState, rule_exists.
    cbn [with_db w_db w_outbox alert_rules set_alerts set_alert_states].
    unfold rule_exists in Hr. rewrite Hr.
    cbn [fst alerts alert_states notification_events w_db w_outbox set_alerts set_alert_states].
    split; [apply lookup_insert_eq|]. repeat split; reflexivity.
Qed.

End Pending.

Section RestartDetection.
Import models db repo alerts invariants.

Variable now : nat -> Z.
Variable transport : nat -> option string.
Variable new_request : string -> option string.

(** A value that does not trip the rule, for a pair at rest, only reads
    the clock. *)
Lemma evalTarget_at_rest (e : Engine) (ruleID : Z) (c : Container) (label : string)
    (rule : AlertRule) (value : float) (w : World) :
  at_rest (w_db w) ruleID c ->
  compare value (r_Operator rule) (r_Threshold rule) = false ->
  PrimFloat.is_nan value = false ->
  evalTarget now transport new_request e ruleID (c_ID c) label rule value w = snd (tick now w).
Proof.
  unfold at_rest. intros Hrest Hc Hn. unfold evalTarget. rewrite Hn, Hc.
  cbn [tick fst snd w_db].
  destruct (GetAlertState ruleID (c_ID c) (w_db w)) as [st|]; [|reflexivity].
  rewrite Hrest. reflexivity.
Qed.

Lemma restarted_value_quiet (e : Engine) (c : Container) :
  (forall prev, lastRest e !! c_ID c = Some prev -> c_RestartCount c <= prev) ->
  (forall prevID, lastSvc e !! c_ServiceID c = Some prevID -> prevID = c_ID c) ->
  restarted_value e c = 0%float.
Proof.
  intros H1 H2. unfold restarted_value.
  assert (E : match lastRest e !! c_ID c with
              | Some prev => if prev <? c_RestartCount c then 1%float else 0%float
              | None => 0%float
              end = 0%float).
  { destruct (lastRest e !! c_ID c) as [prev|]; [|reflexivity].
    specialize (H1 prev eq_refl). destruct (Z.ltb_spec prev (c_RestartCount c)); [lia|reflexivity]. }
  rewrite E. destruct (lastSvc e !! c_ServiceID c) as [prevID|]; [|reflexivity].
  rewrite (H2 prevID eq_refl), String.eqb_refl. reflexivity.
Qed.

Lemma remember_quiet_other (e : Engine) (c : Container) (cs : list Container) :
  ~ In (c_ID c) (List.map c_ID cs) ->
  ~ In (c_ServiceID c) (List.map c_ServiceID cs) ->
  restart_quiet e cs -> restart_quiet (remember e c) cs.
Proof.
  intros Hid Hsvc Hq c' Hin. destruct (Hq c' Hin) as [H1 H2].
  unfold remember. cbn [lastRest lastSvc].
  assert (E1 : c_ID c <> c_ID c').
  { intros E. apply Hid. rewrite E. apply List.in_map. exact Hin. }
  assert (E2 : c_ServiceID c <> c_ServiceID c').
  { intros E. apply Hsvc. rewrite E. apply List.in_map. exact Hin. }
  split; intros x; [rewrite lookup_insert_ne by exact E1|rewrite lookup_insert_ne by exact E2];
    auto.
Qed.

Lemma remember_keeps_memory (e : Engine) (c c0 : Container) :
  c_ID c <> c_ID c0 -> c_ServiceID c <> c_ServiceID c0 ->
  lastRest (remember e c) !! c_ID c0 = lastRest e !! c_ID c0
  /\ lastSvc (remember e c) !! c_ServiceID c0 = lastSvc e !! c_ServiceID c0.
Proof.
  intros E1 E2. unfold remember. cbn [lastRest lastSvc].
  rewrite !lookup_insert_ne by assumption. split; reflexivity.
Qed.

Lemma eval_restarts_quiet_go (r : AlertRule) (cs : list Container) :
  List.NoDup (List.map c_ID cs) ->
  List.NoDup (List.map c_ServiceID cs) ->
  compare 0 (r_Operator r) (r_Threshold r) = false ->
  forall (e : Engine) (w : World),
    restart_quiet e cs ->
    (forall c, In c cs -> at_rest (w_db w) (r_ID r) c) ->
    snd (eval_restarts now transport new_request e r cs w)
    = {| w_db := w_db w; w_clock := length cs + w_clock w; w_outbox := w_outbox w |}
    /\ (forall c, In c cs ->
          lastRest (fst (eval_restarts now transport new_request e r cs w)) !! c_ID c
          = Some (c_RestartCount c)
          /\ lastSvc (fst (eval_restarts now transport new_request e r cs w)) !! c_ServiceID c
             = Some (c_ID c)).
Proof.
  intros Hid Hsvc Hc.
  induction cs as [|c cs IH]; intros e w Hq Hrest.
  - simpl. split; [destruct w; reflexivity|]. intros c [].
  - inversion Hid as [|? ? Hid1 Hid2]; subst. inversion Hsvc as [|? ? Hsvc1 Hsvc2]; subst.
    cbn [eval_restarts].
    destruct (Hq c (or_introl eq_refl)) as [Hq1 Hq2].
    rewrite (restarted_value_quiet e c Hq1 Hq2).
    rewrite (evalTarget_at_rest (remember e c) (r_ID r) c (shortTarget (c_ID c)) r 0 w
               (Hrest c (or_introl eq_refl)) Hc eq_refl).
    assert (Hq' : restart_quiet (remember e c) cs).
    { apply remember_quiet_other; [exact Hid1|exact Hsvc1|].
      intros c' Hin. apply Hq. right. exact Hin. }
    assert (Hrest' : forall c', In c' cs -> at_rest (w_db (snd (tick now w))) (r_ID r) c').
    { intros c' Hin. cbn [tick snd w_db]. apply Hrest. right. exact Hin. }
    destruct (IH Hid2 Hsvc2 (remember e c) (snd (tick now w)) Hq' Hrest') as [Hw He].
    split.
    + rewrite Hw. cbn [tick snd w_db w_clock w_outbox length]. f_equal. lia.
    + intros c' [<-|Hin]; [|exact (He c' Hin)].
      (* the memory of [c] is written first and not overwritten *)
      clear IH Hw He Hq' Hrest'.
      assert (Hkeep : forall cs' e' w',
                 ~ In (c_ID c) (List.map c_ID cs') ->
                 ~ In (c_ServiceID c) (List.map c_ServiceID cs') ->
                 lastRest (fst (eval_restarts now transport new_request e' r cs' w')) !! c_ID c
                 = lastRest e' !! c_ID c
                 /\ lastSvc (fst (eval_restarts now transport new_request e' r cs' w')) !! c_ServiceID c
                    = lastSvc e' !! c_ServiceID c).
      { induction cs' as [|x cs' IH']; intros e' w' H1 H2; [split; reflexivity|].
        cbn [eval_restarts].
        destruct (IH' (remember e' x)
                      (evalTarget now transport new_request (remember e' x) (r_ID r) (c_ID x)
                         (shortTarget (c_ID x)) r (restarted_value e' x) w'))
          as [Ha Hb].
        { intros H. apply H1. right. exact H. }
        { intros H. apply H2. right. exact H. }
        rewrite Ha, Hb. apply remember_keeps_memory.
        - intros E. apply H1. left. exact E.
        - intros E. apply H2. left. exact E. }
      destruct (Hkeep cs (remember e c) (snd (tick now w)) Hid1 Hsvc1) as [Ha Hb].
      rewrite Ha, Hb. unfold remember. cbn [lastRest lastSvc].
      rewrite !lookup_insert_eq. split; reflexivity.
Qed.

(** X23: with one stored container per service, containers the engine holds
    nothing against (never seen, or seen with the same id and a restart
    count not lower) and a rule that the value 0 does not trip, the
    restart loop raises nothing: it reads the clock once per container and
    leaves the store and the outbox as they are.  Afterwards the engine
    remembers every container's count and id, so the same holds for the
    next evaluation of the same containers. *)
Theorem eval_restarts_quiet (e : Engine) (r : AlertRule) (cs : list Container) (w : World) :
  List.NoDup (List.map c_ID cs) ->
  List.NoDup (List.map c_ServiceID cs) ->
  compare 0 (r_Operator r) (r_Threshold r) = false ->
  restart_quiet e cs ->
  (forall c, In c cs -> at_rest (w_db w) (r_ID r) c) ->
  snd (eval_restarts now transport new_request e r cs w)
  = {| w_db := w_db w; w_clock := length cs + w_clock w; w_outbox := w_outbox w |}
  /\ restart_quiet (fst (eval_restarts now transport new_request e r cs w)) cs.
Proof.
  intros Hid Hsvc Hc Hq Hrest.
  destruct (eval_restarts_quiet_go r cs Hid Hsvc Hc e w Hq Hrest) as [Hw He].
  split; [exact Hw|].
  intros c Hin. destruct (He c Hin) as [H1 H2]. rewrite H1, H2.
  split; [intros prev [= <-]; lia|intros prevID [= <-]; reflexivity].
Qed.

End RestartDetection.

Section Recovery.
Import models db repo alerts invariants.

Variable now : nat -> Z.
Variable transport : nat -> option string.
Variable new_request : string -> option string.



(** X25: what the restart metric detects once a container has been seen: the
    same container again counts as restarted exactly when its restart
    count grew (a lower count does not), and another container id for the
    same service always counts as restarted. *)
Theorem restarted_value_after_remember (e : Engine) (c c2 : Container) :
  c_ServiceID c2 = c_ServiceID c ->
  restarted_value (remember e c) c2
  = if String.eqb (c_ID c2) (c_ID c)
    then (if c_RestartCount c <? c_RestartCount c2 then 1%float else 0%float)
    else 1%float.
Proof.
  intros Es. unfold restarted_value, remember. cbn [lastRest lastSvc].
  rewrite Es, lookup_insert_eq.
  destruct (String.eqb_spec (c_ID c2) (c_ID c)) as [E|E].
  - rewrite E, lookup_insert_eq, String.eqb_refl. reflexivity.
  - destruct (String.eqb_spec (c_ID c) (c_ID c2)) as [E'|E']; [congruence|reflexivity].
Qed.

End Recovery.

Section EngineWitnesses.
Import models db repo alerts invariants.

Lemma evalTarget_pending_then_fires_witness :
  evalTarget second_clock test_transport test_request test_engine 1 "host" "host"
    (seed 1 "Host CPU high" "host" "host_cpu_pct" ">" 90 120 600) 95
    {| w_db := Migrate; w_clock := 0; w_outbox := [] |}
  = {| w_db := set_alert_states Migrate
                 (<[ (1, "host") :=
                       {| as_state := "PENDING"; as_since_ts := second_clock 0;
                          as_last_fired_ts := None; as_last_recovered_ts := None |} ]>
                    (alert_states Migrate));
       w_clock := 1; w_outbox := [] |}.
Proof.
  assert (Hfor : 0 < r_ForSeconds (seed 1 "Host CPU high" "host" "host_cpu_pct" ">" 90 120 600))
    by (simpl; lia).
  exact (proj1 (evalTarget_pending_then_fires second_clock test_transport test_request test_engine
                  1 "host" "host"
                  (seed 1 "Host CPU high" "host" "host_cpu_pct" ">" 90 120 600) 95
                  {| w_db := Migrate; w_clock := 0; w_outbox := [] |}
                  eq_refl eq_refl Hfor eq_refl)).
Defined.

Lemma eval_restarts_quiet_witness :
  snd (eval_restarts test_clock test_transport test_request test_engine restart_rule [container_new]
         test_world)
  = {| w_db := w_db test_world; w_clock := 1; w_outbox := [] |}
  /\ restart_quiet (fst (eval_restarts test_clock test_transport test_request test_engine restart_rule
                           [container_new] test_world)) [container_new].
Proof.
  apply (eval_restarts_quiet test_clock test_transport test_request test_engine restart_rule
           [container_new] test_world).
  - repeat constructor. intros [].
  - repeat constructor. intros [].
  - reflexivity.
  - intros c _. unfold test_engine, NewEngine. cbn [lastRest lastSvc].
    split; intros x Hx; rewrite lookup_empty in Hx; discriminate.
  - intros c _. unfold at_rest, GetAlertState. simpl. rewrite lookup_empty. exact I.
Defined.


Lemma restarted_value_after_remember_witness :
  restarted_value (remember test_engine container_old) container_new = 1%float.
Proof.
  apply (restarted_value_after_remember test_engine container_old container_new).
  reflexivity.
Defined.

End EngineWitnesses.

Section ParserEntries.
Import models gostr logs invariants.

Variable now : nat -> Z.
Variables serviceID containerID : string.

Lemma inferLevel_levels (msg : string) :
  In (inferLevel msg) ["ERROR"; "WARN"; "DEBUG"; "INFO"].
Proof.
  unfold inferLevel. cbv zeta.
  destruct (_ || _); [simpl; auto|].
  destruct (Contains _ "WARN"); [simpl; auto|].
  destruct (Contains _ "DEBUG"); simpl; auto.
Qed.

Lemma emitEntry_ok (t : Z) (raw stream : string) :
  In stream ["stdout"; "stderr"] ->
  entry_ok serviceID containerID (emitEntry t raw stream serviceID containerID).
Proof.
  intros Hs. unfold emitEntry.
  destruct (match SplitSpace2 (TrimSpace raw) with
            | Some (p0, p1) =>
                match gotime.ParseRFC3339 p0 with
                | Some t0 => (t0, p1)
                | None => (t, TrimSpace raw)
                end
            | None => (t, TrimSpace raw)
            end) as [ts msg].
  unfold entry_ok. cbn [le_ServiceID le_ContainerID le_Stream le_Level le_Message].
  split; [reflexivity|]. split; [reflexivity|]. split; [exact Hs|].
  split; [apply inferLevel_levels|].
  split; [apply sanitizeMessage_no_NUL|apply sanitizeMessage_length].
Qed.

Lemma scan_go_ok (fuel k : nat) (s : string) :
  Forall (entry_ok serviceID containerID) (fst (scan_go now serviceID containerID fuel k s)).
Proof.
  revert k s. induction fuel as [|fuel IH]; intros k s; cbn [scan_go]; [constructor|].
  destruct s as [|c s']; [constructor|].
  destruct (cut_line (String c s')) as [line rest].
  destruct (MaxScanTokenSize <=? len line); [constructor|].
  destruct rest as [r|].
  - specialize (IH (S k) r).
    destruct (scan_go now serviceID containerID fuel (S k) r) as [es err].
    cbn [fst] in *. constructor; [|exact IH]. apply emitEntry_ok. simpl. auto.
  - cbn [fst]. constructor; [|constructor]. apply emitEntry_ok. simpl. auto.
Qed.

Lemma parsePlainStream_ok (k : nat) (s : string) (fin : error) :
  Forall (entry_ok serviceID containerID)
         (fst (parsePlainStream now serviceID containerID k s fin)).
Proof.
  unfold parsePlainStream.
  pose proof (scan_go_ok (S (String.length s)) k s) as H.
  destruct (scan_go now serviceID containerID (S (String.length s)) k s) as [es err].
  destruct err; exact H.
Qed.

(** X26: whatever bytes a container's stream delivers and however it ends,
    every entry the parser emits carries the service and container ids it
    was called with, the stream 'stdout' or 'stderr', one of the four
    levels, and a message without NUL bytes of at most 4000 bytes. *)
Theorem ParseDockerStream_entries_ok (r : Reader) :
  Forall (entry_ok serviceID containerID)
         (fst (ParseDockerStream now serviceID containerID r)).
Proof.
  unfold ParseDockerStream.
  generalize (final r) as fin. generalize (data r) at 2 as s. generalize 0%nat as k.
  generalize (S (String.length (data r))) as fuel.
  induction fuel as [|fuel IH]; intros k s fin; cbn [frames_go]; [constructor|].
  destruct (String.length s <? 8)%nat.
  - destruct fin; try apply parsePlainStream_ok; constructor.
  - destruct (negb (isMultiplexHeader (take 8 s))); [apply parsePlainStream_ok|].
    destruct (Uint32 (drop 4 (take 8 s)) =? 0); [apply IH|].
    destruct (len (drop 8 s) <? Uint32 (drop 4 (take 8 s))); [constructor|].
    match goal with
    | |- context [frames_go now serviceID containerID fuel (S k) ?r fin] =>
        specialize (IH (S k) r fin);
        destruct (frames_go now serviceID containerID fuel (S k) r fin) as [es err]
    end.
    cbn [fst] in *. constructor; [|exact IH]. apply emitEntry_ok.
    destruct (String.get 0 (take 8 s)) as [h0|]; [|simpl; auto].
    destruct (byte h0 =? 2); simpl; auto.
Qed.

End ParserEntries.

Section ParserBreaks.
Import models gostr logs invariants.

Variable now : nat -> Z.
Variables serviceID containerID : string.

Lemma frames_go_frames_app (fs : list (Z * string)) (rest : string) (fin : error) :
  Forall frame_ok fs ->
  forall fuel k,
    frames_go now serviceID containerID (length fs + fuel) k (frames_stream fs ++ rest) fin
    = ((frame_entries now serviceID containerID k fs
        ++ fst (frames_go now serviceID containerID fuel (length fs + k) rest fin))%list,
       snd (frames_go now serviceID containerID fuel (length fs + k) rest fin)).
Proof.
  induction 1 as [|[id payload] fs Hok Hall IH]; intros fuel k.
  - cbn [frames_stream frame_entries length Nat.add List.app]. rewrite append_nil.
    destruct (frames_go now serviceID containerID fuel k rest fin); reflexivity.
  - cbn [frames_stream frame_entries length Nat.add]. rewrite append_assoc.
    rewrite (frames_go_frame now serviceID containerID) by exact Hok.
    rewrite IH. cbn [fst snd].
    replace (length fs + S k)%nat with (S (length fs + k)) by lia. reflexivity.
Qed.

Lemma frames_go_truncated (fuel k : nat) (id size : Z) (part : string) (fin : error) :
  id = 1 \/ id = 2 -> 0 < size < 2 ^ 32 -> len part < size ->
  frames_go now serviceID containerID (S fuel) k (frame_header id size ++ part) fin
  = ([], Some (readFull_error (String.length part) fin)).
Proof.
  intros Hid Hsize Hlt. unfold frame_header.
  rewrite append_assoc, !append_cons, append_nil.
  destruct (PutUint32_shape size part) as (b0 & b1 & b2 & b3 & Hput).
  pose proof (Uint32_PutUint32 size part) as Hsz.
  rewrite Hput in Hsz |- *.
  cbn [frames_go String.length Nat.ltb Nat.leb take drop isMultiplexHeader negb String.get].
  assert (Hhdr : ((byte (chr id) =? 1) || (byte (chr id) =? 2)) && (byte (chr 0) =? 0)
                 && (byte (chr 0) =? 0) && (byte (chr 0) =? 0) = true).
  { destruct Hid as [E|E]; subst; reflexivity. }
  rewrite Hhdr. cbn [negb].
  assert (Hs : Uint32 (String b0 (String b1 (String b2 (String b3 EmptyString)))) = size).
  { rewrite <- Hsz by lia. reflexivity. }
  rewrite Hs.
  destruct (Z.eqb_spec size 0) as [E|_]; [lia|].
  apply Z.ltb_lt in Hlt. rewrite Hlt. reflexivity.
Qed.

Lemma length_frames_stream (fs : list (Z * string)) :
  (length fs <= String.length (frames_stream fs))%nat.
Proof.
  induction fs as [|[id payload] fs IH]; [simpl; lia|].
  cbn [frames_stream length]. rewrite length_append, length_frame. lia.
Qed.

(** X27: how a multiplexed stream breaks, after any number of complete
    frames whose entries have been emitted: a frame whose payload is cut
    short ends the parse with the error of the read (for a stream that
    ends cleanly: unexpected EOF after part of the payload, EOF when the
    header is the last thing read); a read error at a frame boundary is
    returned as it is; a clean end at a frame boundary is no error. *)
Theorem ParseDockerStream_broken_stream
    (fs : list (Z * string)) (id size : Z) (part : string) (fin : error) (msg : string) :
  Forall frame_ok fs ->
  id = 1 \/ id = 2 -> 0 < size < 2 ^ 32 -> len part < size ->
  ParseDockerStream now serviceID containerID
    {| data := frames_stream fs ++ frame_header id size ++ part; final := fin |}
  = (frame_entries now serviceID containerID 0 fs,
     Some (match fin with
           | EOF => if (String.length part =? 0)%nat then EOF else ErrUnexpectedEOF
           | err => err
           end))
  /\ ParseDockerStream now serviceID containerID
       {| data := frames_stream fs; final := ErrOther msg |}
     = (frame_entries now serviceID containerID 0 fs, Some (ErrOther msg))
  /\ ParseDockerStream now serviceID containerID
       {| data := frames_stream fs; final := EOF |}
     = (frame_entries now serviceID containerID 0 fs, None).
Proof.
  intros Hfs Hid Hsize Hlt.
  assert (Hfuel : forall tail, exists fuel,
             S (String.length (frames_stream fs ++ tail)) = (length fs + S fuel)%nat).
  { intros tail. exists (String.length (frames_stream fs ++ tail) - length fs)%nat.
    pose proof (length_frames_stream fs). rewrite length_append. lia. }
  split; [|split]; unfold ParseDockerStream; cbn [data final].
  - destruct (Hfuel (frame_header id size ++ part)) as [fuel ->].
    rewrite frames_go_frames_app by exact Hfs.
    rewrite frames_go_truncated by assumption. cbn [fst snd].
    rewrite List.app_nil_r. f_equal. f_equal.
    unfold readFull_error. destruct fin; try reflexivity.
    destruct part; reflexivity.
  - destruct (Hfuel "") as [fuel E]. rewrite append_nil_r in E. rewrite E.
    rewrite <- (append_nil_r (frames_stream fs)) at 1.
    rewrite frames_go_frames_app by exact Hfs.
    cbn [frames_go String.length Nat.ltb Nat.leb fst snd].
    rewrite List.app_nil_r. reflexivity.
  - destruct (Hfuel "") as [fuel E]. rewrite append_nil_r in E. rewrite E.
    rewrite <- (append_nil_r (frames_stream fs)) at 1.
    rewrite frames_go_frames_app by exact Hfs.
    cbn [frames_go String.length Nat.ltb Nat.leb fst snd].
    rewrite List.app_nil_r. reflexivity.
Qed.

End ParserBreaks.

Section ParserBreaksWitness.
Import models gostr logs invariants.

Lemma ParseDockerStream_broken_stream_witness :
  ParseDockerStream (fun _ => 0) "svc" "cid"
    {| data := frames_stream [(1, "up")] ++ frame_header 2 5 ++ "abc"; final := EOF |}
  = (frame_entries (fun _ => 0) "svc" "cid" 0 [(1, "up")], Some ErrUnexpectedEOF).
Proof.
  assert (Hfs : Forall frame_ok [(1, "up")]).
  { constructor; [|constructor]. split; [left; reflexivity|]. split; reflexivity. }
  assert (Hsize : 0 < 5 < 2 ^ 32) by lia.
  assert (Hlt : len "abc" < 5) by reflexivity.
  exact (proj1 (ParseDockerStream_broken_stream (fun _ => 0) "svc" "cid"
                  [(1, "up")] 2 5 "abc" EOF "" Hfs (or_intror eq_refl) Hsize Hlt)).
Defined.

End ParserBreaksWitness.

Section StatsSums.
Import models docker invariants.

Lemma wrap64_add_l (a b : Z) : wrap64 (wrap64 a + b) = wrap64 (a + b).
Proof. unfold wrap64. apply Zplus_mod_idemp_l. Qed.

Lemma wrap64_add_r (a b : Z) : wrap64 (a + wrap64 b) = wrap64 (a + b).
Proof. unfold wrap64. apply Zplus_mod_idemp_r. Qed.

Lemma sum_blkio_totals (l : list BlkioEntry) (acc : Z * Z) :
  wrap64 (fst (sum_blkio l acc)) = wrap64 (fst acc + blkio_total "Read" l)
  /\ wrap64 (snd (sum_blkio l acc)) = wrap64 (snd acc + blkio_total "Write" l).
Proof.
  revert acc. induction l as [|io l IH]; intros acc; cbn [sum_blkio blkio_total List.fold_right].
  - rewrite !Z.add_0_r. split; reflexivity.
  - fold (blkio_total "Read" l). fold (blkio_total "Write" l).
    destruct (String.eqb_spec (Op io) "Read") as [E|E].
    + rewrite E. change (String.eqb "Read" "Write") with false.
      destruct (IH (wrap64 (fst acc + Value io), snd acc)) as [H1 H2]. cbn [fst snd] in *.
      rewrite H1, H2, wrap64_add_l. split; [f_equal; lia|reflexivity].
    + destruct (String.eqb_spec (Op io) "Write") as [E'|E'].
      * destruct (IH (fst acc, wrap64 (snd acc + Value io))) as [H1 H2]. cbn [fst snd] in *.
        rewrite H1, H2, wrap64_add_l. split; [reflexivity|f_equal; lia].
      * apply IH.
Qed.

Lemma sum_blkio_wrapped (l : list BlkioEntry) (acc : Z * Z) :
  wrap64 (fst acc) = fst acc -> wrap64 (snd acc) = snd acc ->
  wrap64 (fst (sum_blkio l acc)) = fst (sum_blkio l acc)
  /\ wrap64 (snd (sum_blkio l acc)) = snd (sum_blkio l acc).
Proof.
  revert acc. induction l as [|io l IH]; intros acc H1 H2; cbn [sum_blkio]; [auto|].
  destruct (String.eqb (Op io) "Read").
  - apply IH; cbn [fst snd]; [|exact H2]. unfold wrap64. apply Z.mod_mod. lia.
  - destruct (String.eqb (Op io) "Write"); [|apply IH; assumption].
    apply IH; cbn [fst snd]; [exact H1|]. unfold wrap64. apply Z.mod_mod. lia.
Qed.

Lemma net_fold_totals (l : list (string * NetworkT)) :
  foldr (uncurry (fun (_ : string) n acc =>
                    (wrap64 (fst acc + RxBytes n), wrap64 (snd acc + TxBytes n))))
        (0, 0) l
  = (wrap64 (rx_total l), wrap64 (tx_total l)).
Proof.
  induction l as [|[k n] l IH]; [reflexivity|].
  cbn [foldr uncurry rx_total tx_total List.fold_right fst snd].
  fold (rx_total l). fold (tx_total l). rewrite IH. cbn [fst snd].
  rewrite !wrap64_add_l. f_equal; f_equal; lia.
Qed.

Lemma rx_total_perm (l l' : list (string * NetworkT)) :
  Permutation l l' -> rx_total l = rx_total l' /\ tx_total l = tx_total l'.
Proof.
  induction 1 as [|x l l' _ IH|x y l|l l' l'' _ IH1 _ IH2]; cbn [rx_total tx_total List.fold_right].
  - split; reflexivity.
  - fold (rx_total l) (rx_total l') (tx_total l) (tx_total l'). destruct IH as [-> ->].
    split; reflexivity.
  - split; lia.
  - destruct IH1 as [-> ->]. exact IH2.
Qed.

Lemma blkio_total_perm (op : string) (l l' : list BlkioEntry) :
  Permutation l l' -> blkio_total op l = blkio_total op l'.
Proof.
  induction 1 as [|x l l' _ IH|x y l|l l' l'' _ IH1 _ IH2]; cbn [blkio_total List.fold_right].
  - reflexivity.
  - fold (blkio_total op l) (blkio_total op l'). rewrite IH. reflexivity.
  - destruct (String.eqb (Op x) op), (String.eqb (Op y) op); lia.
  - rewrite IH1. exact IH2.
Qed.

(** X28: the byte counters of a normalized snapshot are sums modulo 2^64 that
    do not depend on the order of the entries: the network counters are
    the totals over the networks in whatever order the map is visited,
    the block-I/O counters the totals of the entries whose operation is
    exactly 'Read' and exactly 'Write' (any other operation is left out),
    each reduced to 64 bits and read as int64. *)
Theorem NormalizeStats_sums (id : string) (s : Stats)
    (visit : list (string * NetworkT)) (blk : list BlkioEntry) :
  Permutation visit (map_to_list (Networks s)) ->
  Permutation blk (IoServiceBytesRecursive s) ->
  let m := NormalizeStats id s in
  cm_NetRXBytes m = to_int64 (wrap64 (rx_total visit))
  /\ cm_NetTXBytes m = to_int64 (wrap64 (tx_total visit))
  /\ cm_BlkReadBytes m = to_int64 (wrap64 (blkio_total "Read" blk))
  /\ cm_BlkWriteBytes m = to_int64 (wrap64 (blkio_total "Write" blk)).
Proof.
  intros Hv Hb. cbv zeta. unfold NormalizeStats, sum_networks.
  rewrite map_fold_foldr, net_fold_totals.
  destruct (rx_total_perm _ _ Hv) as [-> ->].
  rewrite (blkio_total_perm "Read" _ _ Hb), (blkio_total_perm "Write" _ _ Hb).
  destruct (sum_blkio_totals (IoServiceBytesRecursive s) (0, 0)) as [H1 H2].
  destruct (sum_blkio_wrapped (IoServiceBytesRecursive s) (0, 0) eq_refl eq_refl) as [W1 W2].
  rewrite W1 in H1. rewrite W2 in H2. cbn [fst snd] in H1, H2. rewrite Z.add_0_l in H1, H2.
  destruct (sum_blkio (IoServiceBytesRecursive s) (0, 0)) as [br bw]. cbn [fst snd] in *.
  cbn [cm_NetRXBytes cm_NetTXBytes cm_BlkReadBytes cm_BlkWriteBytes].
  rewrite H1, H2. repeat split; reflexivity.
Qed.

Lemma NormalizeStats_sums_witness :
  cm_NetRXBytes (NormalizeStats "abc" test_stats)
  = to_int64 (wrap64 (rx_total (map_to_list (Networks test_stats))))
  /\ cm_NetTXBytes (NormalizeStats "abc" test_stats)
     = to_int64 (wrap64 (tx_total (map_to_list (Networks test_stats))))
  /\ cm_BlkReadBytes (NormalizeStats "abc" test_stats)
     = to_int64 (wrap64 (blkio_total "Read"
                           [ {| Op := "Write"; Value := 8 |}; {| Op := "Read"; Value := 7 |} ]))
  /\ cm_BlkWriteBytes (NormalizeStats "abc" test_stats)
     = to_int64 (wrap64 (blkio_total "Write"
                           [ {| Op := "Write"; Value := 8 |}; {| Op := "Read"; Value := 7 |} ])).
Proof.
  apply (NormalizeStats_sums "abc" test_stats (map_to_list (Networks test_stats))
           [ {| Op := "Write"; Value := 8 |}; {| Op := "Read"; Value := 7 |} ]).
  - reflexivity.
  - apply perm_swap.
Defined.

End StatsSums.

Section CollectTolerance.
Import models collector.

(** X29: when the CPU counters can be read, a collection succeeds whatever
    the other five reads do: the metric carries the time of the call, the
    collector remembers the CPU sample, and each group of fields depends
    on its own read only: its values when the read succeeded (the memory
    fields only for a positive total), zeros when it failed.  The CPU
    percentage is 0 on a first collection and when the total counter has
    not moved. *)
Theorem Collect_tolerates_failures (h : HostCollector) (now : Z) (rd : Readings) (tot idl : Z) :
  readCPU rd = Ok (tot, idl) ->
  let m := fst (fst (Collect h now rd)) in
  snd (fst (Collect h now rd)) = None
  /\ snd (Collect h now rd) = {| prevCPU := Some {| total := tot; idle := idl |} |}
  /\ hm_TS m = now
  /\ (hm_MemTotalBytes m, hm_MemUsedBytes m)
     = match readMem rd with
       | Ok (memTotal, memAvail) =>
           if 0 <? memTotal
           then (to_int64 memTotal, to_int64 (wrap64 (memTotal - memAvail)))
           else (0, 0)
       | Err _ => (0, 0)
       end
  /\ (hm_NetRXBytes m, hm_NetTXBytes m)
     = match readNetDev rd with
       | Ok (rx, tx) => (to_int64 rx, to_int64 tx)
       | Err _ => (0, 0)
       end
  /\ (hm_DiskTotalBytes m, hm_DiskUsedBytes m)
     = match readDiskUsage rd with
       | Ok (totalDisk, usedDisk) => (to_int64 totalDisk, to_int64 usedDisk)
       | Err _ => (0, 0)
       end
  /\ (hm_Load1 m, hm_Load5 m, hm_Load15 m)
     = match readLoadAvg rd with
       | Ok l => l
       | Err _ => (0%float, 0%float, 0%float)
       end
  /\ hm_UptimeSec m = match readUptimeSec rd with Ok up => up | Err _ => 0 end
  /\ hm_CPUPct m
     = match prevCPU h with
       | Some p =>
           if 0 <? wrap64 (tot - total p)
           then (100 * (1 - float_of_uint64 (wrap64 (idl - idle p))
                            / float_of_uint64 (wrap64 (tot - total p))))%float
           else 0%float
       | None => 0%float
       end.
Proof.
  intros E. cbv zeta. unfold Collect. rewrite E. cbn [fst snd].
  split; [reflexivity|]. split; [reflexivity|].
  unfold uptime_step, load_step, disk_step, net_step, mem_step, cpu_step.
  destruct (readUptimeSec rd), (readLoadAvg rd) as [[[? ?] ?]|], (readDiskUsage rd) as [[? ?]|],
    (readNetDev rd) as [[? ?]|], (readMem rd) as [[mt ?]|], (prevCPU h);
    cbn; repeat (match goal with |- context [if ?b then _ else _] => destruct b end);
    repeat split; reflexivity.
Qed.

Lemma Collect_tolerates_failures_witness :
  snd (fst (Collect NewHostCollector 5
              {| readCPU := Ok (100, 40); readMem := Err "no meminfo";
                 readNetDev := Ok (7, 9); readDiskUsage := Err "statfs";
                 readLoadAvg := Err "no loadavg"; readUptimeSec := Ok 77 |})) = None
  /\ hm_NetRXBytes (fst (fst (Collect NewHostCollector 5
              {| readCPU := Ok (100, 40); readMem := Err "no meminfo";
                 readNetDev := Ok (7, 9); readDiskUsage := Err "statfs";
                 readLoadAvg := Err "no loadavg"; readUptimeSec := Ok 77 |}))) = 7
  /\ hm_MemTotalBytes (fst (fst (Collect NewHostCollector 5
              {| readCPU := Ok (100, 40); readMem := Err "no meminfo";
                 readNetDev := Ok (7, 9); readDiskUsage := Err "statfs";
                 readLoadAvg := Err "no loadavg"; readUptimeSec := Ok 77 |}))) = 0.
Proof.
  destruct (Collect_tolerates_failures NewHostCollector 5
              {| readCPU := Ok (100, 40); readMem := Err "no meminfo";
                 readNetDev := Ok (7, 9); readDiskUsage := Err "statfs";
                 readLoadAvg := Err "no loadavg"; readUptimeSec := Ok 77 |} 100 40 eq_refl)
    as (H1 & _ & _ & H4 & H5 & _).
  split; [exact H1|]. split.
  - exact (f_equal fst H5).
  - exact (f_equal fst H4).
Defined.

End CollectTolerance.

Section TickProperties.
Import models db repo collector service invariants.

Variable marshal : gmap string string -> string.
Variable now : nat -> Z.












End TickProperties.

Section TickWitness.
Import models db repo collector service invariants.


End TickWitness.
